(** * Chai Insights Pro: ledger, payroll escrow and report aggregation

    A shallow embedding of the transaction ledger ([App.tsx]), the staff
    payroll handlers ([components/StaffManager.tsx]) and the transaction
    form ([components/TransactionForm.tsx]), with the properties of the
    natural-language specification stated and settled against it, and
    further properties of the handlers, the reports, the exports and the
    figures that [services/geminiService.ts] puts into its prompt.

    Conventions of the embedding
    - a JavaScript [number] is an IEEE 754 binary64 value: Rocq's primitive
      [float], whose operations round exactly as the JavaScript ones do;
    - a JavaScript string is a [string] (a sequence of bytes; the rupee sign
      of the messages is its UTF-8 encoding);
    - [Date.now()] and [new Date()] read the wall clock: every handler, and
      every evaluation of the daily chart, takes the reading [now]
      (milliseconds since the epoch) as an argument, one reading per run;
      a handler that reads the clock twice in a run, once for the id of
      the record it builds and once for its date, is given the same
      reading both times;
    - React state is passed explicitly: a handler maps the state before the
      event to the state after it, and the calls a component makes on its
      props are listed in the order the handler issues them;
    - [window.alert] and [window.confirm] appear as an entry of that list
      and as a boolean argument. *)

From Stdlib Require Import ZArith List String Ascii Bool Lia Floats.
From Stdlib Require Import DecimalString Permutation.
Import ListNotations.

Set Warnings "-inexact-float".

Open Scope string_scope.
Open Scope Z_scope.

(** ** The JavaScript built-ins the handlers rely on *)

Module JS.

Definition number := float.

(** [!s] for a string [s]: only the empty string is falsy. *)
Definition falsy (s : string) : bool :=
  match s with EmptyString => true | String _ _ => false end.

Definition isNaN (x : number) : bool := PrimFloat.is_nan x.

(** [s.startsWith(p)] *)
Definition startsWith (s p : string) : bool := String.prefix p s.

(** [s.split(c)] for a one-character separator. *)
Fixpoint split (c : ascii) (s : string) : list string :=
  match s with
  | EmptyString => [EmptyString]
  | String a r =>
      if Ascii.eqb a c then EmptyString :: split c r
      else match split c r with
           | [] => [String a EmptyString]
           | w :: ws => String a w :: ws
           end
  end.

(** [l.join(sep)] *)
Fixpoint join (sep : string) (l : list string) : string :=
  match l with
  | [] => EmptyString
  | [w] => w
  | w :: ws => w ++ sep ++ join sep ws
  end.

(** [l.slice(1)] *)
Definition slice1 {A} (l : list A) : list A := tl l.

(** [String(n)] and [n.toString()] for an integer time value. *)
Definition intToString (n : Z) : string :=
  NilZero.string_of_int (Z.to_int n).

(** *** [Number(s)]: the StringToNumber conversion

    White space is trimmed at both ends, the empty string is [+0], a
    decimal literal (optional sign, digits, fraction, exponent),
    [Infinity] and the [0x], [0o], [0b] integer literals are read, and
    anything else is [NaN].  The mathematical value is rounded to the
    nearest binary64 value, ties to even. *)

Definition byte (c : ascii) : Z := Z.of_nat (nat_of_ascii c).

(** The number of bytes of the white space or line terminator that the
    bytes [b1 b2 b3] start with, zero when they start with none: TAB, LF,
    VT, FF, CR, SP, and in UTF-8 the no-break space, the byte order mark,
    the line and paragraph separators and the other space separators. *)
Definition whiteSpaceBytes (b1 b2 b3 : Z) : nat :=
  if ((9 <=? b1) && (b1 <=? 13)) || (b1 =? 32) then 1
  else if (b1 =? 194) && (b2 =? 160) then 2
  else if (b1 =? 225) && (b2 =? 154) && (b3 =? 128) then 3
  else if (b1 =? 226) && (b2 =? 128)
          && (((128 <=? b3) && (b3 <=? 138)) || (b3 =? 168) || (b3 =? 169)
              || (b3 =? 175)) then 3
  else if (b1 =? 226) && (b2 =? 129) && (b3 =? 159) then 3
  else if (b1 =? 227) && (b2 =? 128) && (b3 =? 128) then 3
  else if (b1 =? 239) && (b2 =? 187) && (b3 =? 191) then 3
  else 0.

Definition byteAt (s : list ascii) (i : nat) : Z :=
  match nth_error s i with Some c => byte c | None => -1 end.

(** Strip the white space at the start; [skip] counts the bytes of the
    current white space that are still to drop. *)
Fixpoint trimStartFrom (skip : nat) (s : list ascii) : list ascii :=
  match s with
  | [] => []
  | _ :: r =>
      match skip with
      | S k => trimStartFrom k r
      | O =>
          match whiteSpaceBytes (byteAt s 0) (byteAt s 1) (byteAt s 2) with
          | O => s
          | S k => trimStartFrom k r
          end
      end
  end.

Definition trimStart (s : list ascii) : list ascii := trimStartFrom 0 s.

(** The same from the end, on the reversed bytes. *)
Fixpoint trimEndFrom (skip : nat) (s : list ascii) : list ascii :=
  match s with
  | [] => []
  | _ :: r =>
      match skip with
      | S k => trimEndFrom k r
      | O =>
          let n1 := whiteSpaceBytes (byteAt s 0) (-1) (-1) in
          let n2 := whiteSpaceBytes (byteAt s 1) (byteAt s 0) (-1) in
          let n3 := whiteSpaceBytes (byteAt s 2) (byteAt s 1) (byteAt s 0) in
          match (if Nat.eqb n1 1 then 1 else if Nat.eqb n2 2 then 2
                 else if Nat.eqb n3 3 then 3 else 0)%nat with
          | O => s
          | S k => trimEndFrom k r
          end
      end
  end.

Definition trim (s : list ascii) : list ascii :=
  rev (trimEndFrom 0 (rev (trimStart s))).

Definition digitValue (base : Z) (c : ascii) : option Z :=
  let n := Z.of_nat (nat_of_ascii c) in
  let v :=
    if (48 <=? n) && (n <=? 57) then Some (n - 48)
    else if (97 <=? n) && (n <=? 102) then Some (n - 87)
    else if (65 <=? n) && (n <=? 70) then Some (n - 55)
    else None in
  match v with
  | Some d => if d <? base then Some d else None
  | None => None
  end.

(** The longest prefix of digits of the given base, and the rest. *)
Fixpoint takeDigits (base : Z) (s : list ascii) : list Z * list ascii :=
  match s with
  | c :: r =>
      match digitValue base c with
      | Some d => let (ds, rest) := takeDigits base r in (d :: ds, rest)
      | None => ([], s)
      end
  | [] => ([], [])
  end.

Definition digitsValue (base : Z) (ds : list Z) : Z :=
  fold_left (fun acc d => acc * base + d) ds 0.

Definition isNil {A} (l : list A) : bool :=
  match l with [] => true | _ => false end.

(** StrUnsignedDecimalLiteral without [Infinity]: the decimal mantissa
    and the power of ten it is scaled by. *)
Definition parseUnsignedDecimal (s : list ascii) : option (Z * Z) :=
  let (ip, r1) := takeDigits 10 s in
  let (fp, r2) :=
    match r1 with
    | "."%char :: r => takeDigits 10 r
    | _ => ([], r1)
    end in
  if isNil ip && isNil fp then None
  else
    let m := digitsValue 10 (ip ++ fp) in
    let scale := - Z.of_nat (List.length fp) in
    match r2 with
    | [] => Some (m, scale)
    | c :: r3 =>
        if Ascii.eqb c "e" || Ascii.eqb c "E" then
          let (sgn, r4) :=
            match r3 with
            | "+"%char :: r => (1, r)
            | "-"%char :: r => (-1, r)
            | _ => (1, r3)
            end in
          match takeDigits 10 r4 with
          | ((_ :: _) as ed, []) => Some (m, sgn * digitsValue 10 ed + scale)
          | _ => None
          end
        else None
    end.

(** The binary64 value nearest to the integer [n]; it is [n] itself when
    [|n| <= 2^53]. *)
Definition ofInteger (n : Z) : number :=
  SF2Prim (binary_normalize prec emax n 0 false).

(** The binary64 representation of a positive integer [n] of at most 53
    bits: the mantissa is [n] shifted to 53 bits. *)
Definition normalInteger (n : positive) : spec_float :=
  S754_finite false
    (Nat.iter (Z.to_nat (53 - Z.pos (digits2_pos n))) xO n)
    (Z.pos (digits2_pos n) - 53).

(** The binary64 value nearest to [(-1)^neg * m * 10^e]. *)
Definition roundDecimal (neg : bool) (m e : Z) : number :=
  match m with
  | Zpos p =>
      if 0 <=? e then ofInteger (cond_Zopp neg (Zpos p * 10 ^ e))
      else
        SF2Prim (SFdiv prec emax (S754_finite neg p 0)
                   (S754_finite false (Z.to_pos (10 ^ (- e))) 0))
  | _ => if neg then neg_zero else zero
  end.

Definition parseNonDecimal (base : Z) (s : list ascii) : number :=
  match takeDigits base s with
  | ((_ :: _) as ds, []) => roundDecimal false (digitsValue base ds) 0
  | _ => nan
  end.

Definition parseSigned (neg : bool) (s : list ascii) : number :=
  if String.eqb (string_of_list_ascii s) "Infinity" then
    (if neg then neg_infinity else infinity)
  else match parseUnsignedDecimal s with
       | Some (m, e) => roundDecimal neg m e
       | None => nan
       end.

Definition Number (s : string) : number :=
  match trim (list_ascii_of_string s) with
  | [] => zero
  | "+"%char :: r => parseSigned false r
  | "-"%char :: r => parseSigned true r
  | "0"%char :: "x"%char :: r | "0"%char :: "X"%char :: r => parseNonDecimal 16 r
  | "0"%char :: "o"%char :: r | "0"%char :: "O"%char :: r => parseNonDecimal 8 r
  | "0"%char :: "b"%char :: r | "0"%char :: "B"%char :: r => parseNonDecimal 2 r
  | r => parseSigned false r
  end.

(** *** Exact additions

    The value of a finite number, counted in units of [2^-1074], the
    smallest positive binary64 number: every finite number is a whole
    number of them.  [None] for [NaN] and the infinities. *)
Definition units (x : number) : option Z :=
  match Prim2SF x with
  | S754_zero _ => Some 0
  | S754_finite s m e => Some (cond_Zopp s (Z.pos m) * 2 ^ (e + 1074))
  | _ => None
  end.

(** The addition [x + y] is exact: the operands and the result are
    finite, and the result is the sum of the operands, not a rounding of
    it. *)
Definition exactAdd (x y : number) : bool :=
  match units x, units y, units (x + y)%float with
  | Some a, Some b, Some c => c =? a + b
  | _, _, _ => false
  end.

(** *** Truthiness

    [x || 0] for a number [x] that may be [undefined], and [s || ''] for
    a string that may be: [undefined], [NaN], both zeros and the empty
    string are falsy. *)

Definition truthy (x : number) : bool :=
  negb (PrimFloat.eqb x 0 || PrimFloat.is_nan x).

Definition orZero (x : option number) : number :=
  match x with
  | Some v => if truthy v then v else 0%float
  | None => 0%float
  end.

Definition orEmpty (s : option string) : string :=
  match s with
  | Some v => if falsy v then "" else v
  | None => ""
  end.

(** [l.slice(-n)]: the last [n] entries, all of them when there are
    fewer. *)
Definition sliceLast {A} (n : nat) (l : list A) : list A :=
  skipn (List.length l - n) l.

(** The characters that the templates of the exports contain. *)
Definition LF : ascii := ascii_of_nat 10.
Definition lineFeed : string := String LF "".
Definition quote : string := String (ascii_of_nat 34) "".

End JS.

(** ** Time values and calendar dates ([Date])

    A time value is a number of milliseconds since 1970-01-01T00:00Z.  The
    functions are the abstract operations of the language definition
    ([Day], [YearFromTime], [MakeDay], ...) and the three methods of
    [Date] that the daily chart calls. *)

Module JSDate.

Definition msPerDay : Z := 86400000.

Definition Day (t : Z) : Z := t / msPerDay.
Definition TimeWithinDay (t : Z) : Z := t mod msPerDay.

Definition DayFromYear (y : Z) : Z :=
  365 * (y - 1970) + (y - 1969) / 4 - (y - 1901) / 100 + (y - 1601) / 400.

Definition DaysInYear (y : Z) : Z :=
  if negb (y mod 4 =? 0) then 365
  else if negb (y mod 100 =? 0) then 366
  else if negb (y mod 400 =? 0) then 365
  else 366.

(** The year [y] with [DayFromYear y <= d < DayFromYear (y + 1)]: the
    estimate from the mean length of a year is off by at most one. *)
Definition YearFromDay (d : Z) : Z :=
  let y := 1970 + (d * 400) / 146097 in
  if d <? DayFromYear y then y - 1
  else if DayFromYear (y + 1) <=? d then y + 1
  else y.

Definition YearFromTime (t : Z) : Z := YearFromDay (Day t).

Definition InLeapYear (t : Z) : Z :=
  if DaysInYear (YearFromTime t) =? 366 then 1 else 0.

Definition DayWithinYear (t : Z) : Z :=
  Day t - DayFromYear (YearFromTime t).

(** The day of the year on which month [m] (0 to 11) starts; [12] gives
    the length of the year. *)
Definition monthStart (leap m : Z) : Z :=
  match m with
  | 0 => 0
  | 1 => 31
  | 2 => 59 + leap
  | 3 => 90 + leap
  | 4 => 120 + leap
  | 5 => 151 + leap
  | 6 => 181 + leap
  | 7 => 212 + leap
  | 8 => 243 + leap
  | 9 => 273 + leap
  | 10 => 304 + leap
  | 11 => 334 + leap
  | _ => 365 + leap
  end.

Definition monthOfDay (leap d : Z) : Z :=
  if d <? monthStart leap 1 then 0
  else if d <? monthStart leap 2 then 1
  else if d <? monthStart leap 3 then 2
  else if d <? monthStart leap 4 then 3
  else if d <? monthStart leap 5 then 4
  else if d <? monthStart leap 6 then 5
  else if d <? monthStart leap 7 then 6
  else if d <? monthStart leap 8 then 7
  else if d <? monthStart leap 9 then 8
  else if d <? monthStart leap 10 then 9
  else if d <? monthStart leap 11 then 10
  else 11.

Definition MonthFromTime (t : Z) : Z :=
  monthOfDay (InLeapYear t) (DayWithinYear t).

Definition DateFromTime (t : Z) : Z :=
  DayWithinYear t - monthStart (InLeapYear t) (MonthFromTime t) + 1.

Definition HourFromTime (t : Z) : Z := (t / 3600000) mod 24.
Definition MinFromTime (t : Z) : Z := (t / 60000) mod 60.
Definition SecFromTime (t : Z) : Z := (t / 1000) mod 60.
Definition msFromTime (t : Z) : Z := t mod 1000.

(** [MakeDay(year, month, date)]: the day number of the given date, the
    day of the month taken as an offset from the first of the month (it
    may be zero or negative). *)
Definition MakeDay (year month date : Z) : Z :=
  let ym := year + month / 12 in
  let mn := month mod 12 in
  DayFromYear ym
  + monthStart (if DaysInYear ym =? 366 then 1 else 0) mn
  + date - 1.

Definition MakeDate (day time : Z) : Z := day * msPerDay + time.

(** [TimeClip]: a time value outside the range of [Date] is [NaN], here
    [None]. *)
Definition TimeClip (t : Z) : option Z :=
  if Z.abs t <=? 8640000000000000 then Some t else None.

(** The time zone of the device: its offset from UTC, in milliseconds,
    at a UTC time value and at a local time value. *)
Record TimeZone : Type := {
  offsetAtUTC : Z -> Z;
  offsetAtLocal : Z -> Z
}.

Definition fixedZone (offset : Z) : TimeZone :=
  {| offsetAtUTC := fun _ => offset; offsetAtLocal := fun _ => offset |}.

(** US Eastern time around 10 March 2024, when the clocks went from
    UTC-5 to UTC-4 at 07:00 UTC (02:00 local standard time). *)
Definition easternMarch2024 : TimeZone :=
  {| offsetAtUTC := fun t =>
       if t <? 1710054000000 then -18000000 else -14400000;
     offsetAtLocal := fun t =>
       if t <? 1710036000000 then -18000000 else -14400000 |}.

Definition LocalTime (tz : TimeZone) (t : Z) : Z := t + offsetAtUTC tz t.
Definition UTC (tz : TimeZone) (t : Z) : Z := t - offsetAtLocal tz t.

(** [d.getDate()] *)
Definition getDate (tz : TimeZone) (t : Z) : Z :=
  DateFromTime (LocalTime tz t).

(** [d.setDate(date)]: the new time value of [d]. *)
Definition setDate (tz : TimeZone) (t : Z) (date : Z) : option Z :=
  let lt := LocalTime tz t in
  let newDate :=
    MakeDate (MakeDay (YearFromTime lt) (MonthFromTime lt) date)
             (TimeWithinDay lt) in
  TimeClip (UTC tz newDate).

Definition digit (n : Z) : ascii := ascii_of_nat (48 + Z.to_nat n).

Definition pad2 (n : Z) : string :=
  String (digit (n / 10 mod 10)) (String (digit (n mod 10)) "").

Definition pad3 (n : Z) : string :=
  String (digit (n / 100 mod 10)) (pad2 n).

Definition pad4 (n : Z) : string :=
  String (digit (n / 1000 mod 10)) (pad3 n).

Definition pad6 (n : Z) : string :=
  String (digit (n / 100000 mod 10))
    (String (digit (n / 10000 mod 10)) (pad4 n)).

Definition isoYear (y : Z) : string :=
  if (0 <=? y) && (y <=? 9999) then pad4 y
  else if y <? 0 then "-" ++ pad6 (- y)
  else "+" ++ pad6 y.

(** The [YYYY-MM-DD] part of the ISO format. *)
Definition isoDate (t : Z) : string :=
  isoYear (YearFromTime t) ++ "-" ++ pad2 (MonthFromTime t + 1)
  ++ "-" ++ pad2 (DateFromTime t).

Definition isoTime (t : Z) : string :=
  pad2 (HourFromTime t) ++ ":" ++ pad2 (MinFromTime t) ++ ":"
  ++ pad2 (SecFromTime t) ++ "." ++ pad3 (msFromTime t) ++ "Z".

(** [d.toISOString()] for a valid time value [t]. *)
Definition toISOString (t : Z) : string :=
  isoDate t ++ "T" ++ isoTime t.

(** The time values from 0000-01-01T00:00:00.000Z to
    9999-12-31T23:59:59.999Z, whose year the ISO format writes with four
    digits. *)
Definition fourDigitYear (t : Z) : Prop :=
  -62167219200000 <= t < 253402300800000.

End JSDate.

(** ** The data model ([types.ts]) *)

Inductive PaymentMethod : Type := CASH | GPAY | PHONEPE | OTHER.

Inductive TransactionType : Type := INCOME | EXPENSE.

Definition TransactionType_eqb (a b : TransactionType) : bool :=
  match a, b with
  | INCOME, INCOME | EXPENSE, EXPENSE => true
  | _, _ => false
  end.

Definition PaymentMethod_eqb (a b : PaymentMethod) : bool :=
  match a, b with
  | CASH, CASH | GPAY, GPAY | PHONEPE, PHONEPE | OTHER, OTHER => true
  | _, _ => false
  end.

(** The strings that the values are at run time. *)
Definition methodName (m : PaymentMethod) : string :=
  match m with
  | CASH => "CASH"
  | GPAY => "GPAY"
  | PHONEPE => "PHONEPE"
  | OTHER => "OTHER"
  end.

Definition typeName (ty : TransactionType) : string :=
  match ty with
  | INCOME => "INCOME"
  | EXPENSE => "EXPENSE"
  end.

Module Tx.
Record t : Type := mk {
  id : string;
  date : string;
  amount : JS.number;
  category : string;
  type : TransactionType;
  paymentMethod : PaymentMethod;
  notes : option string;
  staffId : option string
}.
End Tx.
Abbreviation Transaction := Tx.t.

Module Staff.
Record t : Type := mk {
  id : string;
  name : string;
  phone : string;
  address : string;
  aadhaar : string;
  weeklyBasePay : JS.number;
  totalHeldBalance : JS.number;
  joinedDate : string
}.

(** [{...s, totalHeldBalance: b}] *)
Definition withTotalHeldBalance (s : t) (b : JS.number) : t :=
  {| id := id s; name := name s; phone := phone s; address := address s;
     aadhaar := aadhaar s; weeklyBasePay := weeklyBasePay s;
     totalHeldBalance := b; joinedDate := joinedDate s |}.
End Staff.
Abbreviation StaffMember := Staff.t.

(** ** [components/StaffManager.tsx] *)

Module StaffManager.

(** The [newStaff] form state: five text fields. *)
Record NewStaff : Type := {
  name : string;
  phone : string;
  address : string;
  aadhaar : string;
  pay : string
}.

Definition blank : NewStaff :=
  {| name := ""; phone := ""; address := ""; aadhaar := ""; pay := "" |}.

Record Local : Type := {
  showAddForm : bool;
  newStaff : NewStaff
}.

(** What a handler does to the outside: a call on one of the three
    props, or an alert. *)
Inductive Call : Type :=
| onAddStaff (s : StaffMember)
| onUpdateStaff (s : StaffMember)
| onAddTransaction (t : Transaction)
| alert (message : string).

(** The record that [handleAddStaff] passes to [onAddStaff]. *)
Definition registered (now : Z) (f : NewStaff) : StaffMember :=
  {| Staff.id := JS.intToString now;
     Staff.name := name f;
     Staff.phone := phone f;
     Staff.address := address f;
     Staff.aadhaar := aadhaar f;
     Staff.weeklyBasePay := JS.Number (pay f);
     Staff.totalHeldBalance := 0%float;
     Staff.joinedDate := JSDate.toISOString now |}.

Definition handleAddStaff (now : Z) (l : Local) : list Call * Local :=
  let f := newStaff l in
  if JS.falsy (name f) || JS.falsy (pay f) || JS.falsy (phone f) then
    ([alert "Please fill in at least Name, Phone, and Salary"], l)
  else
    ([onAddStaff (registered now f)],
     {| showAddForm := false; newStaff := blank |}).

Section Payroll.

(** [`${x}`] for a number [x] (the Number::toString conversion): the
    messages are the only place that uses it. *)
Variable NumberToString : JS.number -> string.

Definition newline : string := String (ascii_of_nat 10) "".

(** The record that [processWeeklyPay] passes to [onAddTransaction]. *)
Definition weeklyPayment (now : Z) (s : StaffMember) : Transaction :=
  let weeklyTotal := Staff.weeklyBasePay s in
  let paidNow := (weeklyTotal * 0.40)%float in
  let heldAmount := (weeklyTotal * 0.60)%float in
  {| Tx.id := "pay-" ++ JS.intToString now ++ "-" ++ Staff.id s;
     Tx.date := JSDate.toISOString now;
     Tx.amount := paidNow;
     Tx.category := "Staff - Weekly";
     Tx.type := EXPENSE;
     Tx.paymentMethod := CASH;
     Tx.notes := Some ("Weekly 40% pay for " ++ Staff.name s
                       ++ ". Held: ₹" ++ NumberToString heldAmount);
     Tx.staffId := Some (Staff.id s) |}.

(** The record that [processWeeklyPay] passes to [onUpdateStaff]. *)
Definition afterWeeklyPay (s : StaffMember) : StaffMember :=
  let weeklyTotal := Staff.weeklyBasePay s in
  let heldAmount := (weeklyTotal * 0.60)%float in
  Staff.withTotalHeldBalance s (Staff.totalHeldBalance s + heldAmount)%float.

Definition processWeeklyPay (now : Z) (s : StaffMember) : list Call :=
  let weeklyTotal := Staff.weeklyBasePay s in
  let paidNow := (weeklyTotal * 0.40)%float in
  let heldAmount := (weeklyTotal * 0.60)%float in
  [ onAddTransaction (weeklyPayment now s);
    onUpdateStaff (afterWeeklyPay s);
    alert ("Processed pay for " ++ Staff.name s ++ "." ++ newline
           ++ "Paid: ₹" ++ NumberToString paidNow ++ newline
           ++ "Held: ₹" ++ NumberToString heldAmount) ].

(** The record that [settleMonthlyHold] passes to [onAddTransaction]. *)
Definition settlement (now : Z) (s : StaffMember) : Transaction :=
  let amountToPay := Staff.totalHeldBalance s in
  {| Tx.id := "settle-" ++ JS.intToString now ++ "-" ++ Staff.id s;
     Tx.date := JSDate.toISOString now;
     Tx.amount := amountToPay;
     Tx.category := "Staff - Month End";
     Tx.type := EXPENSE;
     Tx.paymentMethod := CASH;
     Tx.notes := Some ("Month-end settlement (held 60%) for "
                       ++ Staff.name s);
     Tx.staffId := Some (Staff.id s) |}.

Definition settleMonthlyHold (now : Z) (s : StaffMember) : list Call :=
  if (Staff.totalHeldBalance s <=? 0)%float then []
  else
    let amountToPay := Staff.totalHeldBalance s in
    [ onAddTransaction (settlement now s);
      onUpdateStaff (Staff.withTotalHeldBalance s 0%float);
      alert ("Settled month-end dues for " ++ Staff.name s ++ ": ₹"
             ++ NumberToString amountToPay) ].

End Payroll.

(** The footer's total escrow liability. *)
Definition totalEscrowLiability (staff : list StaffMember) : JS.number :=
  fold_left (fun acc curr => (acc + Staff.totalHeldBalance curr)%float)
    staff 0%float.

Section CsvExport.
Variable NumberToString : JS.number -> string.

(** One row of [exportStaffToExcel]. *)
Definition staffRow (s : StaffMember) : string :=
  Staff.name s ++ "," ++ Staff.phone s ++ "," ++ Staff.aadhaar s ++ ","
  ++ JS.quote ++ Staff.address s ++ JS.quote ++ ","
  ++ NumberToString (Staff.weeklyBasePay s) ++ ","
  ++ NumberToString (Staff.totalHeldBalance s) ++ ","
  ++ Staff.joinedDate s.

(** The content of the file that [exportStaffToExcel] offers for
    download: [headers + rows]. *)
Definition exportStaffToExcel (staff : list StaffMember) : string :=
  let headers :=
    "Name,Phone,Aadhaar,Address,Weekly Pay,Held Balance,Joined Date"
    ++ JS.lineFeed in
  let rows := JS.join JS.lineFeed (map staffRow staff) in
  headers ++ rows.

End CsvExport.

End StaffManager.

(** ** [components/TransactionForm.tsx] *)

Module TransactionForm.

Record Local : Type := {
  type : TransactionType;
  amount : string;
  category : string;
  paymentMethod : PaymentMethod;
  notes : string
}.

Inductive Call : Type :=
| onAdd (t : Transaction).

(** The record [transactionData] that [handleSubmit] builds. *)
Definition transactionData (now : Z)
    (editingTransaction : option Transaction) (l : Local) : Transaction :=
  {| Tx.id := match editingTransaction with
              | Some e => Tx.id e
              | None => JS.intToString now
              end;
     Tx.date := match editingTransaction with
                | Some e => Tx.date e
                | None => JSDate.toISOString now
                end;
     Tx.amount := JS.Number (amount l);
     Tx.category := category l;
     Tx.type := type l;
     Tx.paymentMethod := paymentMethod l;
     Tx.notes := Some (notes l);
     Tx.staffId := match editingTransaction with
                   | Some e => Tx.staffId e
                   | None => None
                   end |}.

Definition handleSubmit (now : Z) (editingTransaction : option Transaction)
    (l : Local) : list Call * Local :=
  if JS.falsy (amount l) || JS.isNaN (JS.Number (amount l)) then ([], l)
  else
    ([onAdd (transactionData now editingTransaction l)],
     match editingTransaction with
     | Some _ => l
     | None =>
         {| type := type l; amount := ""; category := category l;
            paymentMethod := paymentMethod l; notes := "" |}
     end).

Section Sync.

Variable NumberToString : JS.number -> string.

(** [CATEGORIES.INCOME[0]] of [constants.ts]. *)
Variable firstIncomeCategory : string.

(** The effect that runs when [editingTransaction] changes: the content
    of the form after it. *)
Definition sync (editingTransaction : option Transaction) : Local :=
  match editingTransaction with
  | Some e =>
      {| type := Tx.type e;
         amount := NumberToString (Tx.amount e);
         category := Tx.category e;
         paymentMethod := Tx.paymentMethod e;
         notes := JS.orEmpty (Tx.notes e) |}
  | None =>
      {| type := INCOME;
         amount := "";
         category := firstIncomeCategory;
         paymentMethod := CASH;
         notes := "" |}
  end.

End Sync.

End TransactionForm.

(** ** [services/geminiService.ts]

    [getBusinessInsights] up to the request it sends: the figures of the
    prompt and the transactions it lists. *)

Module GeminiService.

Record Summary : Type := { income : JS.number; expenses : JS.number }.

Definition summary (transactions : list Transaction) : Summary :=
  fold_left
    (fun acc curr =>
       if String.eqb (typeName (Tx.type curr)) "INCOME" then
         {| income := (income acc + Tx.amount curr)%float;
            expenses := expenses acc |}
       else
         {| income := income acc;
            expenses := (expenses acc + Tx.amount curr)%float |})
    transactions
    {| income := 0%float; expenses := 0%float |}.

(** [transactions.slice(-5)], listed under "Recent Transactions". *)
Definition recentTransactions (transactions : list Transaction)
    : list Transaction :=
  JS.sliceLast 5 transactions.

End GeminiService.

(** ** [App.tsx]: the state, its handlers and the report reductions *)

Module App.

Inductive Tab : Type := dashboard | logs | reports | staffTab | settings.

Record State : Type := {
  transactions : list Transaction;
  staff : list StaffMember;
  editingTransaction : option Transaction;
  activeTab : Tab
}.

Definition initial : State :=
  {| transactions := []; staff := []; editingTransaction := None;
     activeTab := dashboard |}.

Definition setTransactions (f : list Transaction -> list Transaction)
    (st : State) : State :=
  {| transactions := f (transactions st); staff := staff st;
     editingTransaction := editingTransaction st;
     activeTab := activeTab st |}.

Definition setStaff (f : list StaffMember -> list StaffMember)
    (st : State) : State :=
  {| transactions := transactions st; staff := f (staff st);
     editingTransaction := editingTransaction st;
     activeTab := activeTab st |}.

Definition setEditingTransaction (e : option Transaction)
    (st : State) : State :=
  {| transactions := transactions st; staff := staff st;
     editingTransaction := e; activeTab := activeTab st |}.

Definition setActiveTab (tab : Tab) (st : State) : State :=
  {| transactions := transactions st; staff := staff st;
     editingTransaction := editingTransaction st; activeTab := tab |}.

Definition addTransaction (t : Transaction) (st : State) : State :=
  match editingTransaction st with
  | Some _ =>
      setEditingTransaction None
        (setTransactions
           (fun prev =>
              map (fun item =>
                     if String.eqb (Tx.id item) (Tx.id t) then t else item)
                  prev)
           st)
  | None => setTransactions (fun prev => t :: prev) st
  end.

(** [confirmed] is the answer to [window.confirm]. *)
Definition deleteTransaction (confirmed : bool) (id : string)
    (st : State) : State :=
  if confirmed then
    let st' :=
      setTransactions
        (fun prev => filter (fun t => negb (String.eqb (Tx.id t) id)) prev)
        st in
    match editingTransaction st with
    | Some e =>
        if String.eqb (Tx.id e) id then setEditingTransaction None st'
        else st'
    | None => st'
    end
  else st.

Definition handleEditClick (t : Transaction) (st : State) : State :=
  setActiveTab dashboard (setEditingTransaction (Some t) st).

Definition addStaff (s : StaffMember) (st : State) : State :=
  setStaff (fun prev => (prev ++ [s])%list) st.

Definition updateStaff (updated : StaffMember) (st : State) : State :=
  setStaff
    (fun prev =>
       map (fun s =>
              if String.eqb (Staff.id s) (Staff.id updated) then updated
              else s)
           prev)
    st.

(** *** Reports *)

Record Totals : Type := { income : JS.number; expenses : JS.number }.

Definition totals (transactions : list Transaction) : Totals :=
  fold_left
    (fun acc t =>
       if TransactionType_eqb (Tx.type t) INCOME then
         {| income := (income acc + Tx.amount t)%float;
            expenses := expenses acc |}
       else
         {| income := income acc;
            expenses := (expenses acc + Tx.amount t)%float |})
    transactions
    {| income := 0%float; expenses := 0%float |}.

Definition profit (transactions : list Transaction) : JS.number :=
  (income (totals transactions) - expenses (totals transactions))%float.

(** [l.reduce((sum, t) => sum + t.amount, 0)] *)
Definition sumAmounts (l : list Transaction) : JS.number :=
  fold_left (fun sum t => (sum + Tx.amount t)%float) l 0%float.

(** Every addition of [l.reduce((sum, t) => sum + t.amount, sum)] is
    exact. *)
Fixpoint exactSum (l : list Transaction) (sum : JS.number) : bool :=
  match l with
  | [] => true
  | t :: rest =>
      JS.exactAdd sum (Tx.amount t)
      && exactSum rest (sum + Tx.amount t)%float
  end.

(** The amount of a transaction in units of [2^-1074]. *)
Definition unitsOf (t : Transaction) : Z :=
  match JS.units (Tx.amount t) with Some b => b | None => 0 end.

Definition ofType (ty : TransactionType) (l : list Transaction)
    : list Transaction :=
  filter (fun t => TransactionType_eqb (Tx.type t) ty) l.

(** The transactions that the [else] branch of the totals reduction
    takes. *)
Definition notIncome (t : Transaction) : bool :=
  negb (TransactionType_eqb (Tx.type t) INCOME).

Module Point.
Record t : Type := mk {
  date : string;
  income : JS.number;
  expense : JS.number
}.
End Point.

(** All the entries, or [None] when one of them is: a [toISOString] on
    an invalid date throws. *)
Fixpoint allValid {A} (l : list (option A)) : option (list A) :=
  match l with
  | [] => Some []
  | Some a :: r => option_map (cons a) (allValid r)
  | None :: _ => None
  end.

Definition last7Days (tz : JSDate.TimeZone) (now : Z)
    : list (option string) :=
  rev (map (fun i =>
              option_map
                (fun d => hd "" (JS.split "T" (JSDate.toISOString d)))
                (JSDate.setDate tz now
                   (JSDate.getDate tz now - Z.of_nat i)))
           (seq 0 7)).

(** The [YYYY-MM-DD] of the UTC day number [d]. *)
Definition utcDate (d : Z) : string :=
  JSDate.isoDate (d * JSDate.msPerDay).

Definition dayPoint (transactions : list Transaction) (date : string)
    : Point.t :=
  let dayT := filter (fun t => JS.startsWith (Tx.date t) date) transactions in
  {| Point.date := JS.join "/" (JS.slice1 (JS.split "-" date));
     Point.income := sumAmounts (ofType INCOME dayT);
     Point.expense := sumAmounts (ofType EXPENSE dayT) |}.

Definition dailyChartData (tz : JSDate.TimeZone) (now : Z)
    (transactions : list Transaction) : option (list Point.t) :=
  option_map (map (dayPoint transactions)) (allValid (last7Days tz now)).

(** The payment breakdown.  [counts] is an object used as a map from
    the payment method to a number: its entries are kept in the order
    in which the keys were first assigned, which is the order of
    [Object.entries]. *)
Definition Counts : Type := list (PaymentMethod * JS.number).

(** [acc[k]] *)
Fixpoint lookup (k : PaymentMethod) (acc : Counts) : option JS.number :=
  match acc with
  | [] => None
  | (k', v) :: rest =>
      if PaymentMethod_eqb k' k then Some v else lookup k rest
  end.

(** [acc[k] = v] *)
Fixpoint assign (k : PaymentMethod) (v : JS.number) (acc : Counts)
    : Counts :=
  match acc with
  | [] => [(k, v)]
  | (k', v') :: rest =>
      if PaymentMethod_eqb k' k then (k', v) :: rest
      else (k', v') :: assign k v rest
  end.

(** The callback of the reduction. *)
Definition countStep (acc : Counts) (t : Transaction) : Counts :=
  if TransactionType_eqb (Tx.type t) INCOME then
    assign (Tx.paymentMethod t)
      (JS.orZero (lookup (Tx.paymentMethod t) acc) + Tx.amount t)%float acc
  else acc.

Definition counts (transactions : list Transaction) : Counts :=
  fold_left countStep transactions [].

Module Slice.
Record t : Type := mk {
  name : string;
  value : JS.number
}.
End Slice.

Definition paymentData (transactions : list Transaction) : list Slice.t :=
  map (fun entry : PaymentMethod * JS.number =>
         let (name, value) := entry in
         {| Slice.name := methodName name; Slice.value := value |})
      (counts transactions).

(** The transactions that the reduction counts under the method [m]:
    the INCOME transactions paid by it. *)
Definition incomeBy (m : PaymentMethod) (t : Transaction) : bool :=
  TransactionType_eqb (Tx.type t) INCOME
  && PaymentMethod_eqb (Tx.paymentMethod t) m.

(** The dashboard's recent activity: [transactions.slice(0, 5)]. *)
Definition recentActivity (transactions : list Transaction)
    : list Transaction :=
  firstn 5 transactions.

(** [fetchInsights]: the transactions that are passed to
    [getBusinessInsights], or [None] when the handler returns before the
    call. *)
Definition fetchInsights (transactions : list Transaction)
    : option (list Transaction) :=
  if (List.length transactions <? 3)%nat then None else Some transactions.

Section CsvExport.
Variable NumberToString : JS.number -> string.

(** One row of the export of the reports tab. *)
Definition csvRow (t : Transaction) : string :=
  Tx.date t ++ "," ++ typeName (Tx.type t) ++ ","
  ++ NumberToString (Tx.amount t) ++ "," ++ Tx.category t ++ ","
  ++ methodName (Tx.paymentMethod t) ++ ","
  ++ JS.quote ++ JS.orEmpty (Tx.notes t) ++ JS.quote.

(** The content of [TeaStall_Records.csv]. *)
Definition exportCsv (transactions : list Transaction) : string :=
  let csv := JS.join JS.lineFeed (map csvRow transactions) in
  "Date,Type,Amount,Category,PaymentMethod,Notes" ++ JS.lineFeed ++ csv.

End CsvExport.

(** *** The setup view

    The shop profile and [handleComplete] of [SetupView]; [App] shows the
    setup view instead of the tabs while the profile is not configured. *)

Module Location.
Record t : Type := mk { latitude : JS.number; longitude : JS.number }.
End Location.

Module User.
Record t : Type := mk {
  name : string;
  email : string;
  businessName : string;
  businessAddress : string;
  location : option Location.t;
  shopImage : option string;
  isAuthenticated : bool;
  isConfigured : bool
}.
End User.
Abbreviation UserProfile := User.t.

Definition initialUser : UserProfile :=
  {| User.name := ""; User.email := ""; User.businessName := "";
     User.businessAddress := ""; User.location := None;
     User.shopImage := None; User.isAuthenticated := false;
     User.isConfigured := false |}.

(** The state of the setup view: the two texts, the captured location
    [{lat, lng}] and the photo, [null] until they are taken. *)
Record Setup : Type := {
  shopName : string;
  shopAddress : string;
  location : option (JS.number * JS.number);
  image : option string
}.

(** The alert, if any, and the profile after [handleComplete]. *)
Definition handleComplete (v : Setup) (user : UserProfile)
    : option string * UserProfile :=
  if JS.falsy (shopName v) || JS.falsy (shopAddress v) then
    (Some "Shop name and address required.", user)
  else
    (None,
     {| User.name := User.name user;
        User.email := User.email user;
        User.businessName := shopName v;
        User.businessAddress := shopAddress v;
        User.location :=
          match location v with
          | Some (lat, lng) =>
              Some {| Location.latitude := lat; Location.longitude := lng |}
          | None => None
          end;
        User.shopImage :=
          match image v with
          | Some i => if JS.falsy i then None else Some i
          | None => None
          end;
        User.isAuthenticated := true;
        User.isConfigured := true |}).

(** The button of the settings tab: [{...user, isConfigured: false}]
    when the question is confirmed. *)
Definition resetConfiguration (confirmed : bool) (user : UserProfile)
    : UserProfile :=
  if confirmed then
    {| User.name := User.name user;
       User.email := User.email user;
       User.businessName := User.businessName user;
       User.businessAddress := User.businessAddress user;
       User.location := User.location user;
       User.shopImage := User.shopImage user;
       User.isAuthenticated := User.isAuthenticated user;
       User.isConfigured := false |}
  else user.

(** [if (!user.isConfigured) return <SetupView />] *)
Definition showsSetup (user : UserProfile) : bool :=
  negb (User.isConfigured user).

(** *** The components as mounted by [App]

    [<TransactionForm onAdd={addTransaction}
       editingTransaction={editingTransaction} ... />] and
    [<StaffManager onAddStaff={addStaff} onUpdateStaff={updateStaff}
       onAddTransaction={addTransaction} ... />]. *)

Definition staffManagerCall (c : StaffManager.Call) (st : State) : State :=
  match c with
  | StaffManager.onAddStaff s => addStaff s st
  | StaffManager.onUpdateStaff s => updateStaff s st
  | StaffManager.onAddTransaction t => addTransaction t st
  | StaffManager.alert _ => st
  end.

Definition transactionFormCall (c : TransactionForm.Call) (st : State)
    : State :=
  match c with
  | TransactionForm.onAdd t => addTransaction t st
  end.

Definition run {C} (perform : C -> State -> State) (calls : list C)
    (st : State) : State :=
  fold_left (fun acc c => perform c acc) calls st.

Definition handleSubmit (now : Z) (form : TransactionForm.Local)
    (st : State) : State :=
  run transactionFormCall
    (fst (TransactionForm.handleSubmit now (editingTransaction st) form))
    st.

Definition handleAddStaff (now : Z) (form : StaffManager.NewStaff)
    (st : State) : State :=
  run staffManagerCall
    (fst (StaffManager.handleAddStaff now
            {| StaffManager.showAddForm := true;
               StaffManager.newStaff := form |}))
    st.

Section Payroll.
Variable NumberToString : JS.number -> string.

Definition processWeeklyPay (now : Z) (s : StaffMember) (st : State)
    : State :=
  run staffManagerCall
    (StaffManager.processWeeklyPay NumberToString now s) st.

Definition settleMonthlyHold (now : Z) (s : StaffMember) (st : State)
    : State :=
  run staffManagerCall
    (StaffManager.settleMonthlyHold NumberToString now s) st.
End Payroll.

End App.

(** ** User sessions

    What the user can do on the screen, with the payload each action
    carries: the content of a form, the record a button belongs to, the
    clock reading taken by the handler.  An action is possible only on the
    tab that shows its button. *)

Module Session.
Import App.

Inductive Event : Type :=
| Submit (now : Z) (form : TransactionForm.Local)
| CancelEdit
| EditClick (t : Transaction)
| DeleteClick (confirmed : bool) (t : Transaction)
| SelectTab (tab : Tab)
| Register (now : Z) (form : StaffManager.NewStaff)
| WeeklyPay (now : Z) (s : StaffMember)
| Settle (now : Z) (s : StaffMember).

Section Steps.
Variable NumberToString : JS.number -> string.

Definition step (e : Event) (st : State) : State :=
  match e with
  | Submit now form => handleSubmit now form st
  | CancelEdit => setEditingTransaction None st
  | EditClick t => handleEditClick t st
  | DeleteClick confirmed t => deleteTransaction confirmed (Tx.id t) st
  | SelectTab tab => setActiveTab tab st
  | Register now form => handleAddStaff now form st
  | WeeklyPay now s => processWeeklyPay NumberToString now s st
  | Settle now s => settleMonthlyHold NumberToString now s st
  end.

(** The button or form of the action is on the screen.  The edit
    buttons are on the dashboard (five latest entries) and in the
    ledger tab; a registration draws its id from a clock that has
    moved on since the previous registration. *)
Definition possible (e : Event) (st : State) : Prop :=
  match e with
  | Submit _ _ => activeTab st = dashboard
  | CancelEdit => activeTab st = dashboard /\ editingTransaction st <> None
  | EditClick t =>
      (activeTab st = dashboard /\ In t (firstn 5 (transactions st)))
      \/ (activeTab st = logs /\ In t (transactions st))
  | DeleteClick _ t => activeTab st = logs /\ In t (transactions st)
  | SelectTab _ => True
  | Register now _ =>
      activeTab st = staffTab
      /\ ~ In (JS.intToString now) (map Staff.id (staff st))
  | WeeklyPay _ s => activeTab st = staffTab /\ In s (staff st)
  | Settle _ s => activeTab st = staffTab /\ In s (staff st)
  end.

(** The states of a session, with the actions that led there, oldest
    first. *)
Inductive Reachable : list Event -> State -> Prop :=
| Reachable_initial : Reachable [] initial
| Reachable_step (history : list Event) (st : State) (e : Event) :
    Reachable history st ->
    possible e st ->
    Reachable (history ++ [e]) (step e st).

(** The escrow account of the staff member [id] as the payroll actions
    of a session leave it: a weekly payout adds the held fraction of
    the base pay, a settlement that passes the guard empties it. *)
Definition escrowStep (id : string) (balance : JS.number) (e : Event)
    : JS.number :=
  match e with
  | WeeklyPay _ s =>
      if String.eqb (Staff.id s) id then
        (balance + Staff.weeklyBasePay s * 0.60)%float
      else balance
  | Settle _ s =>
      if String.eqb (Staff.id s) id
         && negb (Staff.totalHeldBalance s <=? 0)%float
      then 0%float
      else balance
  | _ => balance
  end.

Definition escrow (id : string) (history : list Event) : JS.number :=
  fold_left (escrowStep id) history 0%float.

(** The registrations of a session that passed the guard of the form,
    oldest first, each with the clock reading its id was drawn from. *)
Definition accepted (form : StaffManager.NewStaff) : bool :=
  negb (JS.falsy (StaffManager.name form)
        || JS.falsy (StaffManager.pay form)
        || JS.falsy (StaffManager.phone form)).

Definition registrations (history : list Event)
    : list (Z * StaffManager.NewStaff) :=
  flat_map
    (fun e =>
       match e with
       | Register now form => if accepted form then [(now, form)] else []
       | _ => []
       end)
    history.

(** The staff record of a registration once the payroll actions of
    [history] have run. *)
Definition staffRecord (history : list Event)
    (r : Z * StaffManager.NewStaff) : StaffMember :=
  Staff.withTotalHeldBalance
    (StaffManager.registered (fst r) (snd r))
    (escrow (JS.intToString (fst r)) history).



(** Replaying a list of actions from a state, and the condition that
    each of them is possible when its turn comes. *)
Definition replay (history : list Event) (st : State) : State :=
  fold_left (fun acc e => step e acc) history st.

Fixpoint allPossible (history : list Event) (st : State) : Prop :=
  match history with
  | [] => True
  | e :: rest => possible e st /\ allPossible rest (step e st)
  end.

End Steps.

End Session.

(** * Properties *)

(** ** Binary64 facts: sums and products of non-negative numbers *)

Section FloatSign.

Lemma shr_1_nonneg (mrs : shr_record) :
  0 <= shr_m mrs -> 0 <= shr_m (shr_1 mrs).
Proof.
  destruct mrs as [m r s]. cbn [shr_m]. intros H.
  destruct m as [|[p|p|]|p]; cbn; lia.
Qed.

Lemma iter_shr_1_nonneg (p : positive) (mrs : shr_record) :
  0 <= shr_m mrs -> 0 <= shr_m (iter_pos shr_1 p mrs).
Proof.
  revert mrs. induction p as [p IH|p IH|]; intros mrs H; cbn [iter_pos].
  - apply IH, IH, shr_1_nonneg, H.
  - apply IH, IH, H.
  - apply shr_1_nonneg, H.
Qed.

Lemma shr_fexp_nonneg (m e : Z) (l : location) :
  0 <= m -> 0 <= shr_m (fst (shr_fexp prec emax m e l)).
Proof.
  intros H. unfold shr_fexp, shr.
  assert (0 <= shr_m (shr_record_of_loc m l)) as H0.
  { destruct l as [|[]]; exact H. }
  destruct (fexp prec emax (Zdigits2 m + e) - e); cbn [fst]; auto.
  now apply iter_shr_1_nonneg.
Qed.

Lemma round_nearest_even_nonneg (m : Z) (l : location) :
  0 <= m -> 0 <= round_nearest_even m l.
Proof.
  intros H. destruct l as [|[]]; cbn; try lia.
  destruct (Z.even m); lia.
Qed.

(** Rounding a non-negative mantissa with a positive sign gives [+0], a
    positive finite number or [+infinity], never [NaN]. *)
Lemma binary_round_aux_nonneg (m e : Z) (l : location) :
  0 <= m ->
  SFleb (S754_zero false) (binary_round_aux prec emax false m e l) = true.
Proof.
  intros H. unfold binary_round_aux.
  pose proof (shr_fexp_nonneg m e l H) as H1.
  destruct (shr_fexp prec emax m e l) as [mrs' e']. cbn [fst] in H1.
  pose proof (shr_fexp_nonneg _ e' loc_Exact
                (round_nearest_even_nonneg _ (loc_of_shr_record mrs') H1))
    as H2.
  destruct (shr_fexp prec emax _ e' loc_Exact) as [mrs'' e''].
  cbn [fst] in H2.
  destruct (shr_m mrs''); [reflexivity | | lia].
  now destruct (e'' <=? emax - prec).
Qed.

Lemma binary_round_nonneg (m : positive) (e : Z) :
  SFleb (S754_zero false) (binary_round prec emax false m e) = true.
Proof.
  unfold binary_round. destruct (shl_align _ _ _) as [mz ez].
  now apply binary_round_aux_nonneg.
Qed.

Lemma SFadd_nonneg (x y : spec_float) :
  SFleb (S754_zero false) x = true ->
  SFleb (S754_zero false) y = true ->
  SFleb (S754_zero false) (SFadd prec emax x y) = true.
Proof.
  destruct x as [sx|sx| |sx mx ex], y as [sy|sy| |sy my ey];
    try destruct sx; try destruct sy; cbn; intros H1 H2;
    try discriminate; try reflexivity.
  apply binary_round_nonneg.
Qed.

Lemma SFmul_nonneg (x : spec_float) (my : positive) (ey : Z) :
  SFleb (S754_zero false) x = true ->
  SFleb (S754_zero false)
    (SFmul prec emax x (S754_finite false my ey)) = true.
Proof.
  destruct x as [sx|sx| |sx mx ex];
    try destruct sx; cbn; intros H1;
    try discriminate; try reflexivity.
  now apply binary_round_aux_nonneg.
Qed.

Lemma zero_spec : Prim2SF 0%float = S754_zero false.
Proof. reflexivity. Qed.

(** [0 <= a] and [0 <= b] give [0 <= a + b], rounding included. *)
Lemma leb_zero_add (a b : float) :
  (0 <=? a)%float = true -> (0 <=? b)%float = true ->
  (0 <=? a + b)%float = true.
Proof.
  rewrite !leb_spec, add_spec, zero_spec. apply SFadd_nonneg.
Qed.

(** [0 <= w] gives [0 <= w * 0.60]. *)
Lemma leb_zero_held (w : float) :
  (0 <=? w)%float = true -> (0 <=? w * 0.60)%float = true.
Proof.
  rewrite !leb_spec, mul_spec, zero_spec. intros H.
  assert (Prim2SF 0.60%float = S754_finite false 5404319552844595 (-53))
    as -> by reflexivity.
  now apply SFmul_nonneg.
Qed.

(** [0 < b] excludes [b <= 0]. *)
Lemma ltb_zero_leb (b : float) :
  (0 <? b)%float = true -> (b <=? 0)%float = false.
Proof.
  rewrite ltb_spec, leb_spec, zero_spec.
  destruct (Prim2SF b) as [s|s| |s m e]; try destruct s; cbn; congruence.
Qed.

End FloatSign.

(** ** Binary64 facts: whole numbers add exactly *)

Section ExactIntegers.

Lemma digits2_log2 (p : positive) :
  Z.pos (digits2_pos p) = Z.log2 (Z.pos p) + 1.
Proof.
  assert (forall q, digits2_pos q = Pos.size q) as Hsize
    by (induction q; cbn; congruence).
  destruct p; cbn [digits2_pos Z.log2]; rewrite ?Hsize; lia.
Qed.

Lemma digits2_le_53 (p : positive) :
  Z.pos p < 2 ^ 53 -> Z.pos (digits2_pos p) <= 53.
Proof.
  intros H. rewrite digits2_log2.
  apply Z.log2_lt_pow2 in H; lia.
Qed.

Lemma digits2_mono (p q : positive) :
  (p <= q)%positive -> Z.pos (digits2_pos p) <= Z.pos (digits2_pos q).
Proof.
  intros H. rewrite !digits2_log2.
  pose proof (Z.log2_le_mono (Z.pos p) (Z.pos q)). lia.
Qed.

Lemma digits2_shl (p : positive) (k : nat) :
  Z.pos (digits2_pos (Nat.iter k xO p)) = Z.pos (digits2_pos p) + Z.of_nat k.
Proof.
  induction k as [|k IH]; [cbn; lia|].
  rewrite Nat.iter_succ. cbn [digits2_pos]. rewrite Pos2Z.inj_succ, IH. lia.
Qed.

Lemma iter_pos_nat {A : Type} (f : A -> A) (p : positive) (x : A) :
  iter_pos f p x = Nat.iter (Pos.to_nat p) f x.
Proof.
  revert x. induction p as [p IH|p IH|]; intros x; cbn [iter_pos].
  - rewrite !IH, Pos2Nat.inj_xI, Nat.iter_succ_r.
    replace (2 * Pos.to_nat p)%nat with (Pos.to_nat p + Pos.to_nat p)%nat by lia.
    now rewrite Nat.iter_add.
  - rewrite !IH, Pos2Nat.inj_xO.
    replace (2 * Pos.to_nat p)%nat with (Pos.to_nat p + Pos.to_nat p)%nat by lia.
    now rewrite Nat.iter_add.
  - reflexivity.
Qed.

Lemma shr_1_shl (q : positive) (k : nat) :
  Nat.iter k shr_1
    (Build_shr_record (Z.pos (Nat.iter k xO q)) false false)
  = Build_shr_record (Z.pos q) false false.
Proof.
  induction k as [|k IH]; [reflexivity|].
  rewrite Nat.iter_succ_r, Nat.iter_succ. cbn [shr_1 orb]. exact IH.
Qed.

Lemma shr_shl (q : positive) (k : nat) (e : Z) :
  shr (Build_shr_record (Z.pos (Nat.iter k xO q)) false false) e (Z.of_nat k)
  = (Build_shr_record (Z.pos q) false false, e + Z.of_nat k).
Proof.
  unfold shr. destruct k as [|k].
  - cbn. now rewrite Z.add_0_r.
  - cbn [Z.of_nat]. rewrite iter_pos_nat, SuccNat2Pos.id_succ.
    now rewrite shr_1_shl.
Qed.

Lemma shl_align_shl (p : positive) (e e' : Z) :
  e' <= e ->
  shl_align p e e' = (Nat.iter (Z.to_nat (e - e')) xO p, e').
Proof.
  intros H. unfold shl_align.
  destruct (e' - e) as [|d|d] eqn:E; try lia.
  - replace e' with e by lia. now rewrite Z.sub_diag.
  - rewrite Pos2Nat.inj_iter.
    replace (Z.to_nat (e - e')) with (Pos.to_nat d) by lia. reflexivity.
Qed.

Lemma shl_add (a b : positive) (k : nat) :
  (Nat.iter k xO a + Nat.iter k xO b)%positive = Nat.iter k xO (a + b)%positive.
Proof.
  induction k as [|k IH]; [reflexivity|].
  rewrite !Nat.iter_succ, <- IH. reflexivity.
Qed.

Lemma fexp_small (x : Z) : 1 <= x <= 53 -> fexp prec emax x = x - 53.
Proof. unfold fexp, SpecFloat.emin, prec, emax. lia. Qed.

Lemma binary_round_aux_canonical (m : positive) (e : Z) :
  fexp prec emax (Z.pos (digits2_pos m) + e) = e -> e <= emax - prec ->
  binary_round_aux prec emax false (Z.pos m) e loc_Exact
  = S754_finite false m e.
Proof.
  intros Hc He. unfold binary_round_aux, shr_fexp.
  cbn [Zdigits2 shr_record_of_loc]. rewrite Hc, Z.sub_diag.
  cbn [shr shr_m loc_of_shr_record round_nearest_even Zdigits2
         shr_record_of_loc].
  rewrite Hc, Z.sub_diag. cbn [shr shr_m].
  destruct (Z.leb_spec e (emax - prec)); [reflexivity | lia].
Qed.

Lemma normalInteger_canonical (n : positive) :
  Z.pos (digits2_pos n) <= 53 ->
  fexp prec emax
    (Z.pos (digits2_pos (Nat.iter (Z.to_nat (53 - Z.pos (digits2_pos n))) xO n))
     + (Z.pos (digits2_pos n) - 53))
  = Z.pos (digits2_pos n) - 53.
Proof.
  intros H. rewrite digits2_shl, Z2Nat.id by lia.
  set (d := Z.pos (digits2_pos n)) in *.
  replace (d + (53 - d) + (d - 53)) with d by lia.
  apply fexp_small. unfold d. lia.
Qed.

Lemma binary_round_int (n : positive) (j : nat) :
  Z.pos (digits2_pos n) <= 53 ->
  binary_round prec emax false (Nat.iter j xO n) (- Z.of_nat j) = JS.normalInteger n.
Proof.
  intros Hd. unfold binary_round, JS.normalInteger.
  set (d := Z.pos (digits2_pos n)) in *.
  rewrite digits2_shl. fold d.
  replace (d + Z.of_nat j + - Z.of_nat j) with d by lia.
  rewrite fexp_small by lia.
  destruct (Z.le_gt_cases (d - 53) (- Z.of_nat j)) as [Hle|Hgt].
  - rewrite shl_align_shl by assumption.
    rewrite <- Nat.iter_add.
    replace (Z.to_nat (- Z.of_nat j - (d - 53)) + j)%nat
      with (Z.to_nat (53 - d)) by lia.
    apply binary_round_aux_canonical; [now apply normalInteger_canonical|].
    unfold emax, prec. lia.
  - unfold shl_align.
    destruct (d - 53 - - Z.of_nat j) as [|k|k] eqn:E; try lia.
    unfold binary_round_aux, shr_fexp. cbn [Zdigits2 shr_record_of_loc].
    rewrite digits2_shl. fold d.
    replace (d + Z.of_nat j + - Z.of_nat j) with d by lia.
    rewrite fexp_small by lia.
    replace (Nat.iter j xO n)
      with (Nat.iter (Z.to_nat (d - 53 + Z.of_nat j)) xO
              (Nat.iter (Z.to_nat (53 - d)) xO n)).
    2:{ rewrite <- Nat.iter_add. f_equal. lia. }
    replace (d - 53 - - Z.of_nat j)
      with (Z.of_nat (Z.to_nat (d - 53 + Z.of_nat j))) by lia.
    rewrite shr_shl.
    cbn [shr_m loc_of_shr_record round_nearest_even Zdigits2
           shr_record_of_loc].
    replace (- Z.of_nat j + Z.of_nat (Z.to_nat (d - 53 + Z.of_nat j)))
      with (d - 53) by lia.
    unfold d. rewrite normalInteger_canonical, Z.sub_diag by assumption.
    cbn [shr shr_m].
    destruct (Z.leb_spec (Z.pos (digits2_pos n) - 53) (emax - prec));
      [reflexivity | unfold emax, prec in *; lia].
Qed.

Lemma binary_normalize_int (n : positive) :
  Z.pos (digits2_pos n) <= 53 ->
  binary_normalize prec emax (Z.pos n) 0 false = JS.normalInteger n.
Proof. intros H. apply (binary_round_int n 0 H). Qed.

Lemma SFadd_normalInteger (a b : positive) :
  Z.pos (digits2_pos (a + b)) <= 53 ->
  SFadd prec emax (JS.normalInteger a) (JS.normalInteger b) = JS.normalInteger (a + b).
Proof.
  intros Hd.
  pose proof (digits2_mono a (a + b)%positive ltac:(lia)) as Ha.
  pose proof (digits2_mono b (a + b)%positive ltac:(lia)) as Hb.
  unfold JS.normalInteger at 1 2. cbn [SFadd].
  set (da := Z.pos (digits2_pos a)) in *.
  set (db := Z.pos (digits2_pos b)) in *.
  set (ez := Z.min (da - 53) (db - 53)).
  rewrite !shl_align_shl by lia. cbn [fst cond_Zopp].
  rewrite <- !Nat.iter_add.
  replace (Z.to_nat (da - 53 - ez) + Z.to_nat (53 - da))%nat
    with (Z.to_nat (- ez)) by lia.
  replace (Z.to_nat (db - 53 - ez) + Z.to_nat (53 - db))%nat
    with (Z.to_nat (- ez)) by lia.
  rewrite <- Pos2Z.inj_add, shl_add. cbn [binary_normalize].
  replace ez with (- Z.of_nat (Z.to_nat (- ez))) at 2 by lia.
  now apply binary_round_int.
Qed.

Lemma valid_normalInteger (n : positive) :
  Z.pos (digits2_pos n) <= 53 -> valid_binary (JS.normalInteger n) = true.
Proof.
  intros H. unfold JS.normalInteger. cbn [SpecFloat.valid_binary]. unfold bounded, canonical_mantissa.
  rewrite normalInteger_canonical, Z.eqb_refl by assumption. cbn [andb].
  apply Z.leb_le. unfold emax, prec. lia.
Qed.

Lemma Prim2SF_ofInteger (n : Z) :
  0 <= n < 2 ^ 53 ->
  Prim2SF (JS.ofInteger n) = binary_normalize prec emax n 0 false.
Proof.
  intros H. unfold JS.ofInteger. apply Prim2SF_SF2Prim.
  destruct n as [|p|p]; [reflexivity| |lia].
  assert (Z.pos (digits2_pos p) <= 53) as Hd by (apply digits2_le_53; apply H).
  rewrite binary_normalize_int by assumption.
  apply valid_normalInteger. assumption.
Qed.

(** Adding two non-negative integers whose sum is below [2^53] is exact. *)
Lemma ofInteger_add (a b : Z) :
  0 <= a -> 0 <= b -> a + b < 2 ^ 53 ->
  (JS.ofInteger a + JS.ofInteger b)%float = JS.ofInteger (a + b).
Proof.
  intros Ha Hb Hab. apply Prim2SF_inj.
  rewrite add_spec, !Prim2SF_ofInteger by lia. unfold SF64add.
  destruct a as [|p|p]; [|destruct b as [|q|q]|]; try lia.
  - rewrite Z.add_0_l. destruct b as [|q|q]; [reflexivity| |lia].
    rewrite binary_normalize_int by (apply digits2_le_53; lia). reflexivity.
  - rewrite Z.add_0_r.
    rewrite binary_normalize_int by (apply digits2_le_53; lia). reflexivity.
  - assert (Z.pos (digits2_pos (p + q)) <= 53) as Hd
      by (apply digits2_le_53; lia).
    pose proof (digits2_mono q (p + q)%positive ltac:(lia)) as Hq.
    pose proof (digits2_mono p (p + q)%positive ltac:(lia)) as Hp.
    change (Z.pos p + Z.pos q) with (Z.pos (p + q)).
    rewrite !binary_normalize_int by lia.
    apply SFadd_normalInteger. assumption.
Qed.

End ExactIntegers.

(** ** The calendar and the ISO format *)

Section Calendar.
Import JSDate.

Lemma YearFromDay_spec (d : Z) :
  DayFromYear (YearFromDay d) <= d < DayFromYear (YearFromDay d + 1).
Proof.
  unfold YearFromDay.
  destruct (Z.ltb_spec d (DayFromYear (1970 + d * 400 / 146097))).
  - unfold DayFromYear in *. Z.to_euclidean_division_equations; lia.
  - destruct (Z.leb_spec (DayFromYear (1970 + d * 400 / 146097 + 1)) d).
    + unfold DayFromYear in *. Z.to_euclidean_division_equations; lia.
    + lia.
Qed.

Lemma DaysInYear_spec (y : Z) :
  DayFromYear (y + 1) - DayFromYear y = DaysInYear y.
Proof.
  unfold DaysInYear, DayFromYear.
  destruct (Z.eqb_spec (y mod 4) 0); cbn [negb];
  [destruct (Z.eqb_spec (y mod 100) 0); cbn [negb];
   [destruct (Z.eqb_spec (y mod 400) 0); cbn [negb]|]|];
  Z.to_euclidean_division_equations; lia.
Qed.

Lemma DayWithinYear_range (t : Z) :
  0 <= DayWithinYear t < 365 + InLeapYear t.
Proof.
  unfold DayWithinYear, InLeapYear, YearFromTime.
  pose proof (YearFromDay_spec (Day t)) as H.
  pose proof (DaysInYear_spec (YearFromDay (Day t))) as H1.
  assert (DaysInYear (YearFromDay (Day t)) = 365 \/ DaysInYear (YearFromDay (Day t)) = 366) as [E|E].
  { unfold DaysInYear. repeat match goal with |- context [negb ?b] => destruct b; cbn [negb] end; auto. }
  - rewrite E in *. cbn. lia.
  - rewrite E in *. cbn. lia.
Qed.

Lemma monthOfDay_range (leap d : Z) : 0 <= monthOfDay leap d <= 11.
Proof.
  unfold monthOfDay.
  repeat match goal with |- context [if ?b then _ else _] => destruct b end; lia.
Qed.

Lemma MonthFromTime_range t : 0 <= MonthFromTime t <= 11.
Proof. apply monthOfDay_range. Qed.

Lemma InLeapYear_cases t : InLeapYear t = 0 \/ InLeapYear t = 1.
Proof. unfold InLeapYear. destruct (_ =? _); auto. Qed.

Lemma DateFromTime_range (t : Z) : 1 <= DateFromTime t <= 31.
Proof.
  unfold DateFromTime, MonthFromTime.
  pose proof (DayWithinYear_range t) as H.
  generalize dependent (DayWithinYear t). intros d H.
  destruct (InLeapYear_cases t) as [E | E]; rewrite E in *; clear E;
  unfold monthOfDay;
  repeat match goal with
         | |- context [?a <? ?b] => destruct (Z.ltb_spec a b)
         end; cbn in *; lia.
Qed.

Lemma MakeDay_of_date (t k : Z) :
  MakeDay (YearFromTime t) (MonthFromTime t) (DateFromTime t - k) = Day t - k.
Proof.
  pose proof (MonthFromTime_range t) as Hm.
  unfold MakeDay. rewrite Z.div_small, Z.mod_small, Z.add_0_r by lia.
  unfold DateFromTime, DayWithinYear.
  fold (InLeapYear t). lia.
Qed.

Lemma setDate_fixedZone (offset now k : Z) :
  setDate (fixedZone offset) now (getDate (fixedZone offset) now - k)
  = TimeClip (now - k * msPerDay).
Proof.
  unfold setDate, getDate. rewrite MakeDay_of_date.
  unfold MakeDate, TimeWithinDay, UTC, LocalTime, Day. cbn [fixedZone offsetAtUTC offsetAtLocal].
  f_equal. pose proof (Z.div_mod (now + offset) msPerDay). unfold msPerDay in *. lia.
Qed.

Lemma YearFromTime_fourDigit (t : Z) :
  fourDigitYear t -> 0 <= YearFromTime t <= 9999.
Proof.
  unfold fourDigitYear, YearFromTime. intros H.
  pose proof (YearFromDay_spec (Day t)) as Hy.
  assert (-719528 <= Day t < 2932897) as Hd.
  { unfold Day, msPerDay. Z.to_euclidean_division_equations; lia. }
  generalize dependent (YearFromDay (Day t)). intros y Hy.
  unfold DayFromYear in Hy. Z.to_euclidean_division_equations; lia.
Qed.

Lemma isoDate_of_Day (u v : Z) : Day u = Day v -> isoDate u = isoDate v.
Proof.
  unfold isoDate, MonthFromTime, DateFromTime, MonthFromTime, InLeapYear,
    DayWithinYear, YearFromTime.
  now intros ->.
Qed.

Lemma Day_of_fields (t : Z) :
  Day t = DayFromYear (YearFromTime t)
          + monthStart (if DaysInYear (YearFromTime t) =? 366 then 1 else 0)
              (MonthFromTime t)
          + DateFromTime t - 1.
Proof. unfold DateFromTime, DayWithinYear, InLeapYear. lia. Qed.

Lemma digit_inj (x y : Z) :
  0 <= x <= 9 -> 0 <= y <= 9 -> digit x = digit y -> x = y.
Proof.
  intros Hx Hy H. apply (f_equal nat_of_ascii) in H. unfold digit in H.
  rewrite !nat_ascii_embedding in H by lia. lia.
Qed.

Lemma digit_not_T (x : Z) : 0 <= x <= 9 -> digit x <> "T"%char.
Proof.
  intros Hx H. apply (f_equal nat_of_ascii) in H. unfold digit in H.
  rewrite nat_ascii_embedding in H by lia. cbn in H. lia.
Qed.

Lemma pad2_inj (a b : Z) :
  0 <= a < 100 -> 0 <= b < 100 -> pad2 a = pad2 b -> a = b.
Proof.
  intros Ha Hb H. unfold pad2 in H. injection H as H1 H2.
  apply digit_inj in H1, H2; Z.to_euclidean_division_equations; lia.
Qed.

Lemma pad4_inj (a b : Z) :
  0 <= a < 10000 -> 0 <= b < 10000 -> pad4 a = pad4 b -> a = b.
Proof.
  intros Ha Hb H. unfold pad4, pad3, pad2 in H. injection H as H1 H2 H3 H4.
  apply digit_inj in H1, H2, H3, H4; Z.to_euclidean_division_equations; lia.
Qed.

Lemma isoDate_fourDigit (t : Z) :
  fourDigitYear t ->
  isoDate t = pad4 (YearFromTime t) ++ "-" ++ pad2 (MonthFromTime t + 1)
              ++ "-" ++ pad2 (DateFromTime t).
Proof.
  intros H. apply YearFromTime_fourDigit in H. unfold isoDate, isoYear.
  destruct (Z.leb_spec 0 (YearFromTime t)); [|lia].
  destruct (Z.leb_spec (YearFromTime t) 9999); [|lia]. reflexivity.
Qed.

Lemma isoDate_inj (u v : Z) :
  fourDigitYear u -> fourDigitYear v -> isoDate u = isoDate v -> Day u = Day v.
Proof.
  intros Hu Hv H. rewrite !isoDate_fourDigit in H by assumption.
  pose proof (YearFromTime_fourDigit u Hu) as Hyu.
  pose proof (YearFromTime_fourDigit v Hv) as Hyv.
  pose proof (MonthFromTime_range u) as Hmu.
  pose proof (MonthFromTime_range v) as Hmv.
  pose proof (DateFromTime_range u) as Hdu.
  pose proof (DateFromTime_range v) as Hdv.
  rewrite (Day_of_fields u), (Day_of_fields v).
  set (yu := YearFromTime u) in *. set (yv := YearFromTime v) in *.
  set (mu := MonthFromTime u) in *. set (mv := MonthFromTime v) in *.
  set (du := DateFromTime u) in *. set (dv := DateFromTime v) in *.
  clearbody yu yv mu mv du dv.
  assert (pad4 yu = pad4 yv /\ pad2 (mu + 1) = pad2 (mv + 1)
          /\ pad2 du = pad2 dv) as (Hy & Hm & Hd).
  { unfold pad4, pad3, pad2 in *. cbn [append] in H.
    injection H as -> -> -> -> -> -> -> ->. auto. }
  apply pad4_inj in Hy; [|lia..]. apply pad2_inj in Hm, Hd; [|lia..].
  assert (mu = mv) as -> by lia. now subst.
Qed.

Lemma split_hd (c : ascii) (s r : string) :
  (forall a, In a (list_ascii_of_string s) -> a <> c) ->
  hd "" (JS.split c (s ++ String c r)) = s.
Proof.
  induction s as [|a s IH]; intros H; cbn [append JS.split].
  - now rewrite Ascii.eqb_refl.
  - assert (a <> c) as Ha by (apply H; now left).
    apply Ascii.eqb_neq in Ha. rewrite Ha.
    assert (hd "" (JS.split c (s ++ String c r)) = s) as Hs.
    { apply IH. intros b Hb. apply H. now right. }
    destruct (JS.split c (s ++ String c r)); cbn in *; now subst.
Qed.

Lemma prefix_same_length (p q r : string) :
  String.length p = String.length q ->
  String.prefix p (q ++ r) = true <-> p = q.
Proof.
  revert q. induction p as [|a p IH]; intros [|b q] Hlen;
    try discriminate Hlen; cbn [String.prefix append].
  - destruct r; split; auto.
  - injection Hlen as Hlen. destruct (ascii_dec a b) as [<-|Hab].
    + rewrite (IH q Hlen). split; [now intros -> | now intros [= ->]].
    + split; [discriminate | intros [= -> _]; contradiction].
Qed.

Lemma isoDate_chars (t : Z) (a : ascii) :
  fourDigitYear t -> In a (list_ascii_of_string (isoDate t)) -> a <> "T"%char.
Proof.
  intros Ht. rewrite isoDate_fourDigit by assumption.
  unfold pad4, pad3, pad2. cbn [append list_ascii_of_string In].
  intros H.
  repeat (destruct H as [<- | H];
          [first [discriminate
                 | apply digit_not_T; Z.to_euclidean_division_equations; lia]|]).
  contradiction.
Qed.

Lemma isoDate_length (t : Z) :
  fourDigitYear t -> String.length (isoDate t) = 10%nat.
Proof. intros Ht. now rewrite isoDate_fourDigit. Qed.

Lemma toISOString_date (t : Z) :
  fourDigitYear t -> hd "" (JS.split "T" (toISOString t)) = isoDate t.
Proof.
  intros Ht. unfold toISOString. cbn [append].
  apply split_hd. intros a. now apply isoDate_chars.
Qed.

Lemma startsWith_utc_day (u v : Z) :
  fourDigitYear u -> fourDigitYear v ->
  JS.startsWith (toISOString u) (isoDate v) = true <-> Day u = Day v.
Proof.
  intros Hu Hv. unfold JS.startsWith, toISOString.
  rewrite prefix_same_length by now rewrite !isoDate_length.
  split.
  - intros H. symmetry. now apply isoDate_inj.
  - intros H. now apply isoDate_of_Day.
Qed.

End Calendar.

(** ** Totals *)

Section Totals.
Import App.

Lemma totals_from (l : list Transaction) (acc : Totals) :
  fold_left
    (fun acc t =>
       if TransactionType_eqb (Tx.type t) INCOME then
         {| income := (income acc + Tx.amount t)%float;
            expenses := expenses acc |}
       else
         {| income := income acc;
            expenses := (expenses acc + Tx.amount t)%float |})
    l acc
  = {| income :=
         fold_left (fun sum t => (sum + Tx.amount t)%float)
           (ofType INCOME l) (income acc);
       expenses :=
         fold_left (fun sum t => (sum + Tx.amount t)%float)
           (filter notIncome l) (expenses acc) |}.
Proof.
  revert acc. induction l as [|t l IH]; intros acc.
  - destruct acc; reflexivity.
  - cbn [fold_left ofType filter]. unfold notIncome at 1.
    destruct (TransactionType_eqb (Tx.type t) INCOME); cbn [negb];
      rewrite IH; reflexivity.
Qed.

Lemma totals_split (l : list Transaction) :
  totals l = {| income := sumAmounts (ofType INCOME l);
                expenses := sumAmounts (filter notIncome l) |}.
Proof. unfold totals. now rewrite totals_from. Qed.

Lemma notIncome_is_expense (l : list Transaction) :
  filter notIncome l = ofType EXPENSE l.
Proof.
  apply filter_ext. intros t. unfold notIncome.
  now destruct (Tx.type t).
Qed.

Lemma partition_by_type (l : list Transaction) :
  Permutation (ofType INCOME l ++ filter notIncome l) l.
Proof.
  induction l as [|t l IH]; [constructor|].
  cbn [ofType filter]. unfold notIncome at 1.
  destruct (TransactionType_eqb (Tx.type t) INCOME); cbn [negb].
  - cbn. now constructor.
  - symmetry. apply Permutation_cons_app. now symmetry.
Qed.

End Totals.

(** C5. The totals are the sum of the amounts of the INCOME transactions
    and the sum of the amounts of the EXPENSE transactions, taken over the
    whole ledger in ledger order with no filter on dates; the profit is
    their difference; on the empty ledger the three figures are zero. *)
Theorem computeTotals_sums_by_type (l : list Transaction) :
  App.income (App.totals l) = App.sumAmounts (App.ofType INCOME l)
  /\ App.expenses (App.totals l) = App.sumAmounts (App.ofType EXPENSE l)
  /\ App.profit l
     = (App.income (App.totals l) - App.expenses (App.totals l))%float
  /\ App.income (App.totals []) = 0%float
  /\ App.expenses (App.totals []) = 0%float
  /\ App.profit [] = 0%float.
Proof.
  unfold App.profit.
  rewrite totals_split, notIncome_is_expense. cbn [App.income App.expenses].
  repeat split; reflexivity.
Qed.

(** C10, as stated, fails on binary64 amounts: a sale of 10.1 and two
    expenses of 20.2 and 30.3 give income + expenses = 60.6 while the
    amounts summed in ledger order give 60.599999999999994. *)
Lemma totals_partition_rounding_counterexample :
  let sale := Tx.mk "1" "2024-01-02T04:30:00.000Z" 10.1%float "Tea Sales"
                INCOME CASH None None in
  let milk := Tx.mk "2" "2024-01-02T05:00:00.000Z" 20.2%float "Milk"
                EXPENSE CASH None None in
  let sugar := Tx.mk "3" "2024-01-02T05:30:00.000Z" 30.3%float "Sugar"
                 EXPENSE CASH None None in
  let ledger := [sale; milk; sugar] in
  (App.income (App.totals ledger) + App.expenses (App.totals ledger))%float
  <> App.sumAmounts ledger.
Proof.
  intros sale milk sugar ledger H.
  apply (f_equal (fun x => PrimFloat.eqb x 60.6%float)) in H.
  vm_compute in H. discriminate H.
Qed.

(** Whole amounts sum exactly: a ledger-order sum of non-negative
    integers is the integer sum, as long as it stays below [2^53]. *)
Lemma sum_of_whole_amounts (n : Transaction -> Z) (l : list Transaction)
    (acc : Z) :
  0 <= acc ->
  (forall t, In t l -> 0 <= n t /\ Tx.amount t = JS.ofInteger (n t)) ->
  acc + fold_right Z.add 0 (map n l) < 2 ^ 53 ->
  fold_left (fun sum t => (sum + Tx.amount t)%float) l (JS.ofInteger acc)
  = JS.ofInteger (acc + fold_right Z.add 0 (map n l)).
Proof.
  revert acc. induction l as [|t l IH]; intros acc Hacc Hl Hsum.
  - cbn. now rewrite Z.add_0_r.
  - cbn [map fold_right fold_left] in *.
    destruct (Hl t (or_introl eq_refl)) as [Ht ->].
    assert (0 <= fold_right Z.add 0 (map n l)) as Hrest.
    { clear - Hl. induction l as [|u l IH]; [cbn; lia|]. cbn [map fold_right].
      destruct (Hl u (or_intror (or_introl eq_refl))) as [Hu _].
      assert (0 <= fold_right Z.add 0 (map n l)); [|lia].
      apply IH. intros v [<- | Hv]; apply Hl; [now left | now right; right]. }
    rewrite ofInteger_add by lia.
    rewrite IH; [f_equal; lia | lia | | lia].
    intros u Hu. apply Hl. now right.
Qed.

Lemma whole_amounts_by_type (n : Transaction -> Z) (l : list Transaction) :
  (forall t, In t l -> 0 <= n t) ->
  0 <= fold_right Z.add 0 (map n (App.ofType INCOME l))
  /\ 0 <= fold_right Z.add 0 (map n (filter App.notIncome l))
  /\ fold_right Z.add 0 (map n (App.ofType INCOME l))
     + fold_right Z.add 0 (map n (filter App.notIncome l))
     = fold_right Z.add 0 (map n l).
Proof.
  induction l as [|t l IH]; intros Hl; [cbn; lia|].
  destruct IH as (H1 & H2 & H3); [intros u Hu; apply Hl; now right|].
  pose proof (Hl t (or_introl eq_refl)) as Ht.
  unfold App.ofType in *. cbn [filter].
  change (App.notIncome t)
    with (negb (TransactionType_eqb (Tx.type t) INCOME)).
  destruct (TransactionType_eqb (Tx.type t) INCOME);
    cbn [negb map fold_right]; lia.
Qed.

(** Exact sums: when every addition of a reduction is exact, its result
    is the number whose value is the sum of the values of the amounts,
    and two reductions over the same amounts agree whatever their
    order. *)

Section ExactSums.

Lemma finite_canonical (x : float) (s : bool) (m : positive) (e : Z) :
  Prim2SF x = S754_finite s m e ->
  Z.max (Z.log2 (Z.pos m) + 1 + e - 53) (-1074) = e.
Proof.
  intros H. pose proof (Prim2SF_valid x) as V. rewrite H in V.
  unfold valid_binary, bounded, canonical_mantissa in V.
  apply andb_prop in V. destruct V as [V _].
  apply Z.eqb_eq in V. rewrite digits2_log2 in V.
  unfold fexp, emin in V. exact V.
Qed.

Lemma finite_units (x : float) (s : bool) (m : positive) (e : Z) :
  Prim2SF x = S754_finite s m e ->
  -1074 <= e
  /\ JS.units x = Some (cond_Zopp s (Z.pos m) * 2 ^ (e + 1074))
  /\ cond_Zopp s (Z.pos m) * 2 ^ (e + 1074) <> 0.
Proof.
  intros H. pose proof (finite_canonical x s m e H) as C.
  assert (-1074 <= e) by lia.
  split; [assumption|]. split; [unfold JS.units; now rewrite H|].
  assert (0 < 2 ^ (e + 1074)) by (apply Z.pow_pos_nonneg; lia).
  destruct s; cbn [cond_Zopp]; nia.
Qed.

Lemma units_inj (x y : float) (u : Z) :
  JS.units x = Some u -> JS.units y = Some u ->
  Prim2SF x <> S754_zero true -> Prim2SF y <> S754_zero true ->
  x = y.
Proof.
  intros Hx Hy Nx Ny. apply Prim2SF_inj.
  destruct (Prim2SF x) as [sx|sx| |sx mx ex] eqn:Ex;
    destruct (Prim2SF y) as [sy|sy| |sy my ey] eqn:Ey;
    unfold JS.units in Hx, Hy; rewrite Ex in Hx; rewrite Ey in Hy;
    try discriminate.
  - destruct sx, sy; congruence.
  - exfalso. destruct (finite_units y sy my ey Ey) as [_ [U N]].
    congruence.
  - exfalso. destruct (finite_units x sx mx ex Ex) as [_ [U N]].
    congruence.
  - destruct (finite_units x sx mx ex Ex) as [Lx _].
    destruct (finite_units y sy my ey Ey) as [Ly _].
    pose proof (finite_canonical x sx mx ex Ex) as Cx.
    pose proof (finite_canonical y sy my ey Ey) as Cy.
    assert (E : cond_Zopp sx (Z.pos mx) * 2 ^ (ex + 1074)
                = cond_Zopp sy (Z.pos my) * 2 ^ (ey + 1074)) by congruence.
    assert (0 < 2 ^ (ex + 1074)) by (apply Z.pow_pos_nonneg; lia).
    assert (0 < 2 ^ (ey + 1074)) by (apply Z.pow_pos_nonneg; lia).
    assert (sx = sy) as ->.
    { destruct sx, sy; cbn [cond_Zopp] in E; try reflexivity; nia. }
    assert (E' : Z.pos mx * 2 ^ (ex + 1074) = Z.pos my * 2 ^ (ey + 1074)).
    { destruct sy; cbn [cond_Zopp] in E; lia. }
    assert (L : Z.log2 (Z.pos mx) + ex = Z.log2 (Z.pos my) + ey).
    { apply (f_equal Z.log2) in E'.
      rewrite !Z.log2_mul_pow2 in E' by lia. lia. }
    assert (ex = ey) as -> by lia.
    assert (Z.pos mx = Z.pos my) by nia.
    congruence.
Qed.

Lemma Zpos_iter_xO (p : positive) (k : nat) :
  Z.pos (Nat.iter k xO p) = Z.pos p * 2 ^ Z.of_nat k.
Proof.
  induction k as [|k IH]; [cbn; lia|].
  rewrite Nat.iter_succ, Pos2Z.inj_xO, IH, Nat2Z.inj_succ, Z.pow_succ_r by lia.
  lia.
Qed.

Lemma aligned_units (s : bool) (m : positive) (e ez : Z) :
  -1074 <= ez -> ez <= e ->
  cond_Zopp s (Z.pos (fst (shl_align m e ez))) * 2 ^ (ez + 1074)
  = cond_Zopp s (Z.pos m) * 2 ^ (e + 1074).
Proof.
  intros Hz He. rewrite shl_align_shl by exact He. cbn [fst].
  rewrite Zpos_iter_xO, Z2Nat.id by lia.
  replace (e + 1074) with ((e - ez) + (ez + 1074)) by lia.
  rewrite (Z.pow_add_r 2 (e - ez) (ez + 1074)) by lia.
  destruct s; cbn [cond_Zopp]; ring.
Qed.

(** An exact sum that is zero is [+0], unless both operands are [-0]. *)
Lemma exactAdd_neg_zero (x y : float) :
  JS.exactAdd x y = true ->
  Prim2SF (x + y) = S754_zero true -> Prim2SF x = S754_zero true.
Proof.
  intros E Hz. unfold JS.exactAdd in E.
  destruct (JS.units x) as [a|] eqn:Ua; [|discriminate].
  destruct (JS.units y) as [b|] eqn:Ub; [|discriminate].
  assert (Uz : JS.units (x + y)%float = Some 0)
    by (unfold JS.units; now rewrite Hz).
  rewrite Uz in E. apply Z.eqb_eq in E.
  rewrite add_spec in Hz. unfold SF64add, SFadd in Hz.
  destruct (Prim2SF x) as [sx|sx| |sx mx ex] eqn:Ex;
    destruct (Prim2SF y) as [sy|sy| |sy my ey] eqn:Ey;
    try discriminate Hz;
    try (unfold JS.units in Ua; rewrite Ex in Ua; discriminate Ua);
    try (unfold JS.units in Ub; rewrite Ey in Ub; discriminate Ub).
  - destruct sx, sy; congruence.
  - exfalso.
    destruct (finite_units x sx mx ex Ex) as [Lx [Ux _]].
    destruct (finite_units y sy my ey Ey) as [Ly [Uy _]].
    rewrite Ux in Ua. rewrite Uy in Ub.
    injection Ua as <-. injection Ub as <-.
    set (ez := IntDef.Z.min ex ey) in Hz.
    assert (Hez : ez = Z.min ex ey) by reflexivity.
    pose proof (aligned_units sx mx ex ez) as Ax.
    pose proof (aligned_units sy my ey ez) as Ay.
    assert (0 < 2 ^ (ez + 1074)) by (apply Z.pow_pos_nonneg; lia).
    assert (M : cond_Zopp sx (Z.pos (fst (shl_align mx ex ez)))
                + cond_Zopp sy (Z.pos (fst (shl_align my ey ez))) = 0)
      by nia.
    rewrite M in Hz. discriminate Hz.
Qed.

Lemma exactSum_units (l : list Transaction) (acc : JS.number) (a : Z) :
  JS.units acc = Some a -> App.exactSum l acc = true ->
  JS.units (fold_left (fun sum t => (sum + Tx.amount t)%float) l acc)
  = Some (a + fold_right Z.add 0 (map App.unitsOf l)).
Proof.
  revert acc a. induction l as [|t l IH]; intros acc a Ha E.
  - cbn. now rewrite Z.add_0_r.
  - cbn [App.exactSum] in E. apply andb_prop in E. destruct E as [E1 E2].
    cbn [fold_left map fold_right].
    unfold JS.exactAdd in E1. rewrite Ha in E1.
    destruct (JS.units (Tx.amount t)) as [b|] eqn:Ub; [|discriminate].
    destruct (JS.units (acc + Tx.amount t)%float) as [c|] eqn:Uc;
      [|discriminate].
    apply Z.eqb_eq in E1. subst c.
    rewrite (IH _ (a + b) Uc E2). unfold App.unitsOf at 2. rewrite Ub.
    f_equal. lia.
Qed.

Lemma exactSum_not_neg_zero (l : list Transaction) (acc : JS.number) :
  Prim2SF acc <> S754_zero true -> App.exactSum l acc = true ->
  Prim2SF (fold_left (fun sum t => (sum + Tx.amount t)%float) l acc)
  <> S754_zero true.
Proof.
  revert acc. induction l as [|t l IH]; intros acc Ha E; [exact Ha|].
  cbn [App.exactSum] in E. apply andb_prop in E. destruct E as [E1 E2].
  cbn [fold_left]. apply IH; [|exact E2].
  intros Hz. apply Ha. now apply (exactAdd_neg_zero acc (Tx.amount t)).
Qed.

Lemma sum_filter_split (n : Transaction -> Z) (f : Transaction -> bool)
    (l : list Transaction) :
  fold_right Z.add 0 (map n (filter f l))
  + fold_right Z.add 0 (map n (filter (fun t => negb (f t)) l))
  = fold_right Z.add 0 (map n l).
Proof.
  induction l as [|t l IH]; [reflexivity|]. cbn [filter map fold_right].
  destruct (f t); cbn [negb map fold_right]; lia.
Qed.

Lemma exact_totals (l : list Transaction) :
  App.exactSum (App.ofType INCOME l) 0%float = true ->
  App.exactSum (filter App.notIncome l) 0%float = true ->
  JS.exactAdd (App.income (App.totals l)) (App.expenses (App.totals l))
  = true ->
  App.exactSum l 0%float = true ->
  (App.income (App.totals l) + App.expenses (App.totals l))%float
  = App.sumAmounts l.
Proof.
  rewrite totals_split. cbn [App.income App.expenses].
  intros Ei Ee Ea El.
  assert (U0 : JS.units 0%float = Some 0) by reflexivity.
  assert (N0 : Prim2SF 0%float <> S754_zero true) by (cbn; discriminate).
  pose proof (exactSum_units _ _ _ U0 Ei) as Ui.
  pose proof (exactSum_units _ _ _ U0 Ee) as Ue.
  pose proof (exactSum_units _ _ _ U0 El) as Ul.
  fold (App.sumAmounts (App.ofType INCOME l)) in Ui.
  fold (App.sumAmounts (filter App.notIncome l)) in Ue.
  fold (App.sumAmounts l) in Ul.
  pose proof (sum_filter_split App.unitsOf
                (fun t => TransactionType_eqb (Tx.type t) INCOME) l) as P.
  apply (units_inj _ _ (fold_right Z.add 0 (map App.unitsOf l))).
  - unfold JS.exactAdd in Ea. rewrite Ui, Ue in Ea.
    destruct (JS.units
                (App.sumAmounts (App.ofType INCOME l)
                 + App.sumAmounts (filter App.notIncome l))%float) as [c|];
      [|discriminate].
    apply Z.eqb_eq in Ea. f_equal. unfold App.ofType, App.notIncome in *.
    lia.
  - rewrite Ul. now rewrite Z.add_0_l.
  - intros Hz. apply (exactAdd_neg_zero _ _ Ea) in Hz.
    revert Hz. now apply exactSum_not_neg_zero.
  - now apply exactSum_not_neg_zero.
Qed.

Lemma units_ofInteger (n : Z) :
  0 <= n < 2 ^ 53 -> JS.units (JS.ofInteger n) = Some (n * 2 ^ 1074).
Proof.
  intros Hn. destruct n as [|p|p]; [reflexivity| |lia].
  assert (Hd : Z.pos (digits2_pos p) <= 53)
    by (apply digits2_le_53; lia).
  unfold JS.units. rewrite Prim2SF_ofInteger by lia.
  rewrite binary_normalize_int by exact Hd.
  unfold JS.normalInteger. cbn [cond_Zopp]. f_equal.
  rewrite Zpos_iter_xO, Z2Nat.id by lia.
  rewrite <- Z.mul_assoc, <- Z.pow_add_r by lia.
  f_equal. f_equal. lia.
Qed.

Lemma exactAdd_ofInteger (a b : Z) :
  0 <= a -> 0 <= b -> a + b < 2 ^ 53 ->
  JS.exactAdd (JS.ofInteger a) (JS.ofInteger b) = true.
Proof.
  intros Ha Hb Hab. unfold JS.exactAdd.
  rewrite ofInteger_add by assumption.
  rewrite !units_ofInteger by lia.
  apply Z.eqb_eq. lia.
Qed.

Lemma exactSum_whole (n : Transaction -> Z) (l : list Transaction)
    (acc : Z) :
  0 <= acc ->
  (forall t, In t l -> 0 <= n t /\ Tx.amount t = JS.ofInteger (n t)) ->
  acc + fold_right Z.add 0 (map n l) < 2 ^ 53 ->
  App.exactSum l (JS.ofInteger acc) = true.
Proof.
  revert acc. induction l as [|t l IH]; intros acc Hacc Hl Hsum;
    [reflexivity|].
  cbn [map fold_right App.exactSum] in *.
  destruct (Hl t (or_introl eq_refl)) as [Ht Ea].
  assert (0 <= fold_right Z.add 0 (map n l)) as Hrest.
  { clear - Hl. induction l as [|u l IH]; [cbn; lia|]. cbn [map fold_right].
    destruct (Hl u (or_intror (or_introl eq_refl))) as [Hu _].
    assert (0 <= fold_right Z.add 0 (map n l)); [|lia].
    apply IH. intros v [<- | Hv]; apply Hl; [now left | now right; right]. }
  rewrite Ea, exactAdd_ofInteger by lia. cbn [andb].
  rewrite ofInteger_add by lia.
  apply IH; [lia | | lia]. intros u Hu. apply Hl. now right.
Qed.

End ExactSums.

(** C10, amended.  The reduction counts every transaction in exactly one of
    the two totals and drops none: the income is the sum of the amounts of
    the INCOME transactions, the expenses the sum of the amounts of all the
    others, and the two groups together are a rearrangement of the ledger.
    Income plus expenses is the ledger-order sum of all the amounts
    whenever the additions are exact, that is whenever each addition of
    the two totals, of their sum and of the ledger-order sum gives the sum
    of its operands and not a rounding of it.  They are exact, in
    particular, when the amounts are non-negative whole numbers with a
    total below [2^53]. *)
Theorem totals_partition_ledger (l : list Transaction) :
  App.income (App.totals l) = App.sumAmounts (App.ofType INCOME l)
  /\ App.expenses (App.totals l) = App.sumAmounts (filter App.notIncome l)
  /\ Permutation (App.ofType INCOME l ++ filter App.notIncome l) l
  /\ (App.exactSum (App.ofType INCOME l) 0%float = true ->
      App.exactSum (filter App.notIncome l) 0%float = true ->
      JS.exactAdd (App.income (App.totals l)) (App.expenses (App.totals l))
      = true ->
      App.exactSum l 0%float = true ->
      (App.income (App.totals l) + App.expenses (App.totals l))%float
      = App.sumAmounts l)
  /\ (forall n : Transaction -> Z,
        (forall t, In t l -> 0 <= n t /\ Tx.amount t = JS.ofInteger (n t)) ->
        fold_right Z.add 0 (map n l) < 2 ^ 53 ->
        App.exactSum (App.ofType INCOME l) 0%float = true
        /\ App.exactSum (filter App.notIncome l) 0%float = true
        /\ JS.exactAdd (App.income (App.totals l))
             (App.expenses (App.totals l)) = true
        /\ App.exactSum l 0%float = true
        /\ (App.income (App.totals l) + App.expenses (App.totals l))%float
           = App.sumAmounts l).
Proof.
  split; [now rewrite totals_split|]. split; [now rewrite totals_split|].
  split; [apply partition_by_type|]. split; [apply exact_totals|].
  intros n Hl Hsum.
  destruct (whole_amounts_by_type n l) as (Hi & He & Hie);
    [intros t Ht; now apply Hl|].
  assert (forall l', (forall t, In t l' -> In t l) ->
            fold_right Z.add 0 (map n l') < 2 ^ 53 ->
            App.sumAmounts l'
            = JS.ofInteger (fold_right Z.add 0 (map n l'))
            /\ App.exactSum l' 0%float = true) as Hexact.
  { intros l' Hsub Hlt.
    assert (forall t, In t l' ->
              0 <= n t /\ Tx.amount t = JS.ofInteger (n t)) as Hl'
      by (intros t Ht; now apply Hl, Hsub).
    split.
    - unfold App.sumAmounts. change 0%float with (JS.ofInteger 0).
      rewrite (sum_of_whole_amounts n l' 0); [reflexivity | lia | | lia].
      exact Hl'.
    - change 0%float with (JS.ofInteger 0).
      apply (exactSum_whole n); [lia | exact Hl' | lia]. }
  destruct (Hexact (App.ofType INCOME l)) as [Si Xi];
    [intros t Ht; unfold App.ofType in Ht; now apply filter_In in Ht
    | lia |].
  destruct (Hexact (filter App.notIncome l)) as [Se Xe];
    [intros t Ht; now apply filter_In in Ht | lia |].
  destruct (Hexact l) as [Sl Xl]; [tauto | lia |].
  assert (Xa : JS.exactAdd (App.income (App.totals l))
                 (App.expenses (App.totals l)) = true).
  { rewrite totals_split. cbn [App.income App.expenses]. rewrite Si, Se.
    apply exactAdd_ofInteger; lia. }
  split; [exact Xi|]. split; [exact Xe|]. split; [exact Xa|].
  split; [exact Xl|]. now apply exact_totals.
Qed.

Lemma totals_partition_ledger_witness :
  let sale := Tx.mk "1" "2024-01-02T04:30:00.000Z" 500%float "Tea Sales"
                INCOME CASH None None in
  let milk := Tx.mk "2" "2024-01-02T05:00:00.000Z" 120%float "Milk"
                EXPENSE CASH None None in
  let sugar := Tx.mk "3" "2024-01-02T05:30:00.000Z" 80%float "Sugar"
                 EXPENSE CASH None None in
  let ledger := [sale; milk; sugar] in
  let n := fun t : Transaction =>
             if String.eqb (Tx.id t) "1" then 500
             else if String.eqb (Tx.id t) "2" then 120 else 80 in
  let cup := Tx.mk "4" "2024-01-02T06:00:00.000Z" 12.5%float "Tea Sales"
               INCOME CASH None None in
  let biscuit := Tx.mk "5" "2024-01-02T06:10:00.000Z" 7.75%float "Snacks"
                   INCOME GPAY None None in
  let ginger := Tx.mk "6" "2024-01-02T06:20:00.000Z" 0.25%float "Ginger"
                  EXPENSE CASH None None in
  let refund := Tx.mk "7" "2024-01-02T06:30:00.000Z" (-5)%float "Refund"
                  EXPENSE CASH None None in
  let fractions := [cup; ginger; biscuit; refund] in
  ((forall t, In t ledger -> 0 <= n t /\ Tx.amount t = JS.ofInteger (n t))
   /\ fold_right Z.add 0 (map n ledger) < 2 ^ 53
   /\ (App.income (App.totals ledger)
       + App.expenses (App.totals ledger))%float
      = App.sumAmounts ledger
   /\ App.sumAmounts ledger = 700%float)
  /\ (App.exactSum fractions 0%float = true
      /\ (App.income (App.totals fractions)
          + App.expenses (App.totals fractions))%float
         = App.sumAmounts fractions
      /\ App.sumAmounts fractions = 15.5%float).
Proof.
  intros sale milk sugar ledger n cup biscuit ginger refund fractions.
  assert (forall t, In t ledger ->
            0 <= n t /\ Tx.amount t = JS.ofInteger (n t)) as Hl.
  { intros t [<- | [<- | [<- | []]]]; split; cbn; try lia; reflexivity. }
  assert (fold_right Z.add 0 (map n ledger) < 2 ^ 53) as Hsum
    by (cbn; lia).
  destruct (totals_partition_ledger ledger) as (_ & _ & _ & _ & H).
  destruct (totals_partition_ledger fractions) as (_ & _ & _ & G & _).
  assert (App.exactSum fractions 0%float = true) as Xl
    by (vm_compute; reflexivity).
  split.
  - split; [exact Hl|]. split; [exact Hsum|].
    split; [exact (proj2 (proj2 (proj2 (proj2 (H n Hl Hsum)))))|].
    reflexivity.
  - split; [exact Xl|]. split; [|vm_compute; reflexivity].
    apply G; [vm_compute; reflexivity .. | exact Xl].
Defined.

(** ** The ledger store: insertion and update *)

Section LedgerStore.
Import App.

Lemma addTransaction_new (t : Transaction) (st : State) :
  editingTransaction st = None ->
  addTransaction t st = setTransactions (cons t) st.
Proof. unfold addTransaction. now intros ->. Qed.

Lemma addTransaction_editing (t e : Transaction) (st : State) :
  editingTransaction st = Some e ->
  addTransaction t st
  = setEditingTransaction None
      (setTransactions
         (map (fun item =>
                 if String.eqb (Tx.id item) (Tx.id t) then t else item))
         st).
Proof. unfold addTransaction. now intros ->. Qed.

Lemma map_replace_absent (t : Transaction) (l : list Transaction) :
  (forall item, In item l -> Tx.id item <> Tx.id t) ->
  map (fun item => if String.eqb (Tx.id item) (Tx.id t) then t else item) l
  = l.
Proof.
  intros H. rewrite <- (map_id l) at 2. apply map_ext_in.
  intros item Hin. apply H in Hin.
  now apply String.eqb_neq in Hin as ->.
Qed.

Lemma handleSubmit_accepts (now : Z) (editing : option Transaction)
    (form : TransactionForm.Local) :
  JS.falsy (TransactionForm.amount form) = false ->
  JS.isNaN (JS.Number (TransactionForm.amount form)) = false ->
  fst (TransactionForm.handleSubmit now editing form)
  = [TransactionForm.onAdd (TransactionForm.transactionData now editing form)].
Proof.
  intros H1 H2. unfold TransactionForm.handleSubmit.
  now rewrite H1, H2.
Qed.

Lemma handleSubmit_rejects (now : Z) (editing : option Transaction)
    (form : TransactionForm.Local) :
  JS.falsy (TransactionForm.amount form) = true
  \/ JS.isNaN (JS.Number (TransactionForm.amount form)) = true ->
  TransactionForm.handleSubmit now editing form = ([], form).
Proof.
  intros H. unfold TransactionForm.handleSubmit.
  destruct H as [-> | ->]; [reflexivity | now rewrite orb_true_r].
Qed.

End LedgerStore.

(** C9. Outside edit mode [addTransaction] puts the record at the front of
    the ledger: the list is one longer and starts with the record as given.
    For the form, every input that passes the guard is stored with its
    amount, category, type, payment method and notes as entered and no
    staff id; the date is the clock reading when not editing and the date
    of the edited record otherwise. *)
Theorem addTransaction_inserts_at_front (st : App.State) (t : Transaction)
    (now : Z) (form : TransactionForm.Local) :
  App.editingTransaction st = None ->
  (App.transactions (App.addTransaction t st) = t :: App.transactions st
   /\ List.length (App.transactions (App.addTransaction t st))
      = S (List.length (App.transactions st)))
  /\ (JS.falsy (TransactionForm.amount form) = false ->
      JS.isNaN (JS.Number (TransactionForm.amount form)) = false ->
      App.transactions (App.handleSubmit now form st)
      = {| Tx.id := JS.intToString now;
           Tx.date := JSDate.toISOString now;
           Tx.amount := JS.Number (TransactionForm.amount form);
           Tx.category := TransactionForm.category form;
           Tx.type := TransactionForm.type form;
           Tx.paymentMethod := TransactionForm.paymentMethod form;
           Tx.notes := Some (TransactionForm.notes form);
           Tx.staffId := None |} :: App.transactions st
      /\ forall e : Transaction,
          exists t',
            fst (TransactionForm.handleSubmit now (Some e) form)
            = [TransactionForm.onAdd t']
            /\ Tx.date t' = Tx.date e).
Proof.
  intros Hnew. split.
  - rewrite addTransaction_new by assumption. cbn. auto.
  - intros H1 H2. split.
    + unfold App.handleSubmit. rewrite Hnew, handleSubmit_accepts by assumption.
      cbn [App.run fold_left App.transactionFormCall].
      now rewrite addTransaction_new by assumption.
    + intros e. eexists. rewrite handleSubmit_accepts by assumption.
      split; reflexivity.
Qed.

Lemma addTransaction_inserts_at_front_witness :
  let form := {| TransactionForm.type := INCOME;
                 TransactionForm.amount := "12.50";
                 TransactionForm.category := "Tea Sales";
                 TransactionForm.paymentMethod := GPAY;
                 TransactionForm.notes := "morning" |} in
  let t := Tx.mk "1" "2024-01-02T04:30:00.000Z" 500%float "Tea Sales"
             INCOME CASH None None in
  App.editingTransaction App.initial = None
  /\ App.transactions (App.addTransaction t App.initial) = [t]
  /\ App.transactions (App.handleSubmit 1704169800000 form App.initial)
     = [Tx.mk "1704169800000" "2024-01-02T04:30:00.000Z" 12.5%float
          "Tea Sales" INCOME GPAY (Some "morning") None].
Proof.
  intros form t.
  destruct (addTransaction_inserts_at_front App.initial t 1704169800000 form
              eq_refl) as [[H1 _] H2].
  split; [reflexivity|]. split; [exact H1|].
  destruct (H2 eq_refl eq_refl) as [H3 _]. exact H3.
Defined.

(** C7, as stated, fails: with an edit pending, a record whose id is not in
    the ledger (here the weekly payout of a staff member) is taken by the
    update branch, which returns as usual: the ledger is as it was, the
    edit mode is left, and no error is raised. *)
Lemma update_unknown_id_counterexample :
  let sale := Tx.mk "1704169800000" "2024-01-02T04:30:00.000Z" 500%float
                "Tea Sales" INCOME CASH (Some "") None in
  let payout := Tx.mk "pay-1704170000000-1704160000000"
                  "2024-01-02T04:33:20.000Z" 400%float "Staff - Weekly"
                  EXPENSE CASH None (Some "1704160000000") in
  let st := {| App.transactions := [sale]; App.staff := [];
               App.editingTransaction := Some sale;
               App.activeTab := App.staffTab |} in
  (forall item, In item (App.transactions st) -> Tx.id item <> Tx.id payout)
  /\ App.addTransaction payout st
     = {| App.transactions := [sale]; App.staff := [];
          App.editingTransaction := None;
          App.activeTab := App.staffTab |}.
Proof.
  intros sale payout st. split; [|reflexivity].
  intros item [<- | []]. discriminate.
Qed.

(** C7, amended.  In edit mode [addTransaction] replaces, in place, every
    record whose id is that of the given record and leaves every other
    record as it is; when no record has that id the ledger is unchanged,
    the edit mode is left and nothing is raised. *)
Theorem update_replaces_matching_id (st : App.State) (t e : Transaction) :
  App.editingTransaction st = Some e ->
  (forall (i : nat) (item : Transaction),
      nth_error (App.transactions st) i = Some item ->
      nth_error (App.transactions (App.addTransaction t st)) i
      = Some (if String.eqb (Tx.id item) (Tx.id t) then t else item))
  /\ List.length (App.transactions (App.addTransaction t st))
     = List.length (App.transactions st)
  /\ ((forall item, In item (App.transactions st) -> Tx.id item <> Tx.id t) ->
      App.addTransaction t st = App.setEditingTransaction None st).
Proof.
  intros He. rewrite (addTransaction_editing t e) by assumption.
  cbn [App.transactions App.setEditingTransaction App.setTransactions].
  repeat split.
  - intros i item Hi. rewrite nth_error_map, Hi. reflexivity.
  - apply length_map.
  - intros Habs. unfold App.setEditingTransaction, App.setTransactions.
    cbn [App.transactions App.staff App.activeTab].
    rewrite map_replace_absent by assumption. reflexivity.
Qed.

Lemma update_replaces_matching_id_witness :
  let old := Tx.mk "7" "2024-01-02T04:30:00.000Z" 500%float "Tea Sales"
               INCOME CASH (Some "") None in
  let other := Tx.mk "8" "2024-01-02T05:30:00.000Z" 90%float "Milk"
                 EXPENSE CASH (Some "") None in
  let new := Tx.mk "7" "2024-01-02T04:30:00.000Z" 550%float "Tea Sales"
               INCOME GPAY (Some "corrected") None in
  let st := {| App.transactions := [other; old]; App.staff := [];
               App.editingTransaction := Some old;
               App.activeTab := App.dashboard |} in
  App.editingTransaction st = Some old
  /\ nth_error (App.transactions (App.addTransaction new st)) 1 = Some new
  /\ nth_error (App.transactions (App.addTransaction new st)) 0 = Some other.
Proof.
  intros old other new st.
  destruct (update_replaces_matching_id st new old eq_refl) as [H _].
  split; [reflexivity|]. split.
  - exact (H 1%nat old eq_refl).
  - exact (H 0%nat other eq_refl).
Defined.

(** C6, as stated, fails: the form accepts the amount text [-5] and the
    ledger gains a record with a negative amount. *)
Lemma add_negative_amount_counterexample :
  let form := {| TransactionForm.type := EXPENSE;
                 TransactionForm.amount := "-5";
                 TransactionForm.category := "Milk";
                 TransactionForm.paymentMethod := CASH;
                 TransactionForm.notes := "" |} in
  (JS.Number (TransactionForm.amount form) <? 0)%float = true
  /\ App.transactions (App.handleSubmit 1704169800000 form App.initial)
     = [Tx.mk "1704169800000" "2024-01-02T04:30:00.000Z" (-5)%float "Milk"
          EXPENSE CASH (Some "") None]
  /\ App.transactions (App.handleSubmit 1704169800000 form App.initial)
     <> App.transactions App.initial.
Proof.
  intros form. split; [reflexivity|]. split; [reflexivity|].
  vm_compute. discriminate.
Qed.

(** C6, amended.  The form ignores a submission, leaving the state as it
    is and raising nothing, when the amount text is empty or does not
    convert to a number; every other submission outside edit mode is put
    at the front of the ledger, whatever the sign or size of the amount;
    [addTransaction] itself checks nothing. *)
Theorem handleSubmit_guard (now : Z) (form : TransactionForm.Local)
    (st : App.State) :
  (JS.falsy (TransactionForm.amount form) = true
   \/ JS.isNaN (JS.Number (TransactionForm.amount form)) = true ->
   fst (TransactionForm.handleSubmit now (App.editingTransaction st) form) = []
   /\ App.handleSubmit now form st = st)
  /\ (JS.falsy (TransactionForm.amount form) = false ->
      JS.isNaN (JS.Number (TransactionForm.amount form)) = false ->
      App.editingTransaction st = None ->
      App.transactions (App.handleSubmit now form st)
      = TransactionForm.transactionData now None form :: App.transactions st)
  /\ (forall t : Transaction,
        App.editingTransaction st = None ->
        App.transactions (App.addTransaction t st) = t :: App.transactions st).
Proof.
  repeat split.
  - now rewrite handleSubmit_rejects.
  - unfold App.handleSubmit. now rewrite handleSubmit_rejects.
  - intros H1 H2 Hnew. unfold App.handleSubmit.
    rewrite Hnew, handleSubmit_accepts by assumption.
    cbn [App.run fold_left App.transactionFormCall].
    now rewrite addTransaction_new by assumption.
  - intros t Hnew. now rewrite addTransaction_new by assumption.
Qed.

Lemma handleSubmit_guard_witness :
  let blank := {| TransactionForm.type := INCOME;
                  TransactionForm.amount := "";
                  TransactionForm.category := "Tea Sales";
                  TransactionForm.paymentMethod := CASH;
                  TransactionForm.notes := "" |} in
  let huge := {| TransactionForm.type := INCOME;
                 TransactionForm.amount := "1e310";
                 TransactionForm.category := "Tea Sales";
                 TransactionForm.paymentMethod := CASH;
                 TransactionForm.notes := "" |} in
  (JS.falsy (TransactionForm.amount blank) = true
   /\ App.handleSubmit 1704169800000 blank App.initial = App.initial)
  /\ (JS.falsy (TransactionForm.amount huge) = false
      /\ JS.isNaN (JS.Number (TransactionForm.amount huge)) = false
      /\ App.editingTransaction App.initial = None
      /\ App.transactions (App.handleSubmit 1704169800000 huge App.initial)
         = [Tx.mk "1704169800000" "2024-01-02T04:30:00.000Z" infinity
              "Tea Sales" INCOME CASH (Some "") None]).
Proof.
  intros blank huge. split.
  - split; [reflexivity|].
    apply (handleSubmit_guard 1704169800000 blank App.initial).
    left. reflexivity.
  - assert (JS.isNaN (JS.Number (TransactionForm.amount huge)) = false)
      as Hnum by (vm_compute; reflexivity).
    split; [reflexivity|]. split; [exact Hnum|]. split; [reflexivity|].
    destruct (handleSubmit_guard 1704169800000 huge App.initial)
      as (_ & H & _).
    rewrite (H eq_refl Hnum eq_refl). vm_compute. reflexivity.
Defined.

(** ** Staff registration *)

(** C8, as stated, fails: a registration with the pay text [-500] goes
    through and the staff collection gains a record with that base pay. *)
Lemma register_nonpositive_pay_counterexample :
  let form := {| StaffManager.name := "Ravi";
                 StaffManager.phone := "9876543210";
                 StaffManager.address := "";
                 StaffManager.aadhaar := "";
                 StaffManager.pay := "-500" |} in
  (JS.Number (StaffManager.pay form) <=? 0)%float = true
  /\ App.staff (App.handleAddStaff 1704160000000 form App.initial)
     = [Staff.mk "1704160000000" "Ravi" "9876543210" "" "" (-500)%float
          0%float "2024-01-02T01:46:40.000Z"]
  /\ App.staff (App.handleAddStaff 1704160000000 form App.initial)
     <> App.staff App.initial.
Proof.
  intros form. split; [reflexivity|]. split; [reflexivity|].
  vm_compute. discriminate.
Qed.

(** C8, amended.  A registration is refused, with an alert and the state
    as it was, when the name, the phone or the pay text is empty; any other
    registration goes through, whatever the pay text converts to, and adds
    at the end of the staff collection a record with a zero held balance,
    the clock reading as joining date and [Number(pay)] as weekly pay. *)
Theorem handleAddStaff_guard (now : Z) (form : StaffManager.NewStaff)
    (st : App.State) :
  (JS.falsy (StaffManager.name form) = true
   \/ JS.falsy (StaffManager.phone form) = true
   \/ JS.falsy (StaffManager.pay form) = true ->
   fst (StaffManager.handleAddStaff now
          {| StaffManager.showAddForm := true;
             StaffManager.newStaff := form |})
   = [StaffManager.alert "Please fill in at least Name, Phone, and Salary"]
   /\ App.handleAddStaff now form st = st)
  /\ (JS.falsy (StaffManager.name form) = false ->
      JS.falsy (StaffManager.phone form) = false ->
      JS.falsy (StaffManager.pay form) = false ->
      App.staff (App.handleAddStaff now form st)
      = (App.staff st ++ [StaffManager.registered now form])%list
      /\ Staff.totalHeldBalance (StaffManager.registered now form) = 0%float
      /\ Staff.joinedDate (StaffManager.registered now form)
         = JSDate.toISOString now
      /\ Staff.weeklyBasePay (StaffManager.registered now form)
         = JS.Number (StaffManager.pay form)).
Proof.
  unfold App.handleAddStaff, StaffManager.handleAddStaff.
  cbn [StaffManager.newStaff]. split.
  - intros H.
    assert (JS.falsy (StaffManager.name form)
            || JS.falsy (StaffManager.pay form)
            || JS.falsy (StaffManager.phone form) = true) as ->.
    { destruct H as [-> | [-> | ->]]; rewrite ?orb_true_r; reflexivity. }
    split; reflexivity.
  - intros -> -> ->. cbn. repeat split.
Qed.

Lemma handleAddStaff_guard_witness :
  let nameless := {| StaffManager.name := "";
                     StaffManager.phone := "9876543210";
                     StaffManager.address := "";
                     StaffManager.aadhaar := "";
                     StaffManager.pay := "1000" |} in
  let ravi := {| StaffManager.name := "Ravi";
                 StaffManager.phone := "9876543210";
                 StaffManager.address := "";
                 StaffManager.aadhaar := "";
                 StaffManager.pay := "1000" |} in
  (JS.falsy (StaffManager.name nameless) = true
   /\ App.handleAddStaff 1704160000000 nameless App.initial = App.initial)
  /\ (JS.falsy (StaffManager.name ravi) = false
      /\ JS.falsy (StaffManager.phone ravi) = false
      /\ JS.falsy (StaffManager.pay ravi) = false
      /\ App.staff (App.handleAddStaff 1704160000000 ravi App.initial)
         = [Staff.mk "1704160000000" "Ravi" "9876543210" "" "" 1000%float
              0%float "2024-01-02T01:46:40.000Z"]).
Proof.
  intros nameless ravi. split.
  - split; [reflexivity|].
    apply (handleAddStaff_guard 1704160000000 nameless App.initial).
    left. reflexivity.
  - split; [reflexivity|]. split; [reflexivity|]. split; [reflexivity|].
    destruct (handleAddStaff_guard 1704160000000 ravi App.initial)
      as (_ & H).
    destruct (H eq_refl eq_refl eq_refl) as (H1 & _). exact H1.
Defined.

(** ** Payroll *)

Section PayrollFacts.
Import App.
Variable NumberToString : JS.number -> string.

Lemma processWeeklyPay_unfold (now : Z) (s : StaffMember) (st : State) :
  processWeeklyPay NumberToString now s st
  = updateStaff
      (Staff.withTotalHeldBalance s
         (Staff.totalHeldBalance s + Staff.weeklyBasePay s * 0.60)%float)
      (addTransaction (StaffManager.weeklyPayment NumberToString now s) st).
Proof. reflexivity. Qed.

Lemma settleMonthlyHold_unfold (now : Z) (s : StaffMember) (st : State) :
  settleMonthlyHold NumberToString now s st
  = if (Staff.totalHeldBalance s <=? 0)%float then st
    else updateStaff (Staff.withTotalHeldBalance s 0%float)
           (addTransaction (StaffManager.settlement now s) st).
Proof.
  unfold settleMonthlyHold, StaffManager.settleMonthlyHold.
  now destruct (Staff.totalHeldBalance s <=? 0)%float.
Qed.

Lemma staff_addTransaction (t : Transaction) (st : State) :
  staff (addTransaction t st) = staff st.
Proof. unfold addTransaction. now destruct (editingTransaction st). Qed.

Lemma transactions_updateStaff (u : StaffMember) (st : State) :
  transactions (updateStaff u st) = transactions st.
Proof. reflexivity. Qed.

(** Outside edit mode the weekly payout does what the specification
    says: one EXPENSE record of 40% of the base pay at the front of the
    ledger, and 60% of the base pay added to the held balance of the
    staff member. *)
Lemma processWeeklyPay_outside_edit_mode (now : Z) (s : StaffMember)
    (st : State) :
  editingTransaction st = None ->
  let t := StaffManager.weeklyPayment NumberToString now s in
  transactions (processWeeklyPay NumberToString now s st)
  = t :: transactions st
  /\ Tx.amount t = (Staff.weeklyBasePay s * 0.40)%float
  /\ Tx.category t = "Staff - Weekly"
  /\ Tx.type t = EXPENSE
  /\ Tx.paymentMethod t = CASH
  /\ Tx.staffId t = Some (Staff.id s)
  /\ staff (processWeeklyPay NumberToString now s st)
     = map (fun x =>
              if String.eqb (Staff.id x) (Staff.id s) then
                Staff.withTotalHeldBalance s
                  (Staff.totalHeldBalance s
                   + Staff.weeklyBasePay s * 0.60)%float
              else x)
           (staff st).
Proof.
  intros Hnew t. rewrite processWeeklyPay_unfold.
  rewrite addTransaction_new by assumption.
  repeat split.
Qed.

(** With a weekly base pay of 1000 the payout is 400 and the held
    fraction 600, both exactly. *)
Lemma processWeeklyPay_of_1000 (now : Z) (s : StaffMember) :
  Staff.weeklyBasePay s = 1000%float ->
  Tx.amount (StaffManager.weeklyPayment NumberToString now s) = 400%float
  /\ Staff.totalHeldBalance (StaffManager.afterWeeklyPay s)
     = (Staff.totalHeldBalance s + 600)%float.
Proof.
  intros H. unfold StaffManager.weeklyPayment, StaffManager.afterWeeklyPay.
  cbn [Tx.amount Staff.totalHeldBalance Staff.withTotalHeldBalance].
  rewrite H. split; reflexivity.
Qed.

(** With an edit pending, the payout record is taken for an update: unless
    a ledger record happens to bear its id, the ledger stays as it is,
    while the held balance is raised all the same. *)
Lemma processWeeklyPay_in_edit_mode (now : Z) (s : StaffMember)
    (e : Transaction) (st : State) :
  editingTransaction st = Some e ->
  (forall item, In item (transactions st) ->
     Tx.id item
     <> Tx.id (StaffManager.weeklyPayment NumberToString now s)) ->
  transactions (processWeeklyPay NumberToString now s st) = transactions st
  /\ editingTransaction (processWeeklyPay NumberToString now s st) = None
  /\ staff (processWeeklyPay NumberToString now s st)
     = map (fun x =>
              if String.eqb (Staff.id x) (Staff.id s) then
                StaffManager.afterWeeklyPay s
              else x)
           (staff st).
Proof.
  intros He Habs. rewrite processWeeklyPay_unfold.
  rewrite (addTransaction_editing _ e) by assumption.
  cbn [updateStaff setStaff setEditingTransaction setTransactions
         transactions staff editingTransaction].
  rewrite map_replace_absent by assumption. repeat split.
Qed.

(** Outside edit mode a settlement of a positive balance records one
    EXPENSE of the whole balance and resets the balance; with a zero
    balance, in any mode, nothing happens. *)
Lemma settleMonthlyHold_outside_edit_mode (now : Z) (s : StaffMember)
    (st : State) :
  editingTransaction st = None ->
  (0 <? Staff.totalHeldBalance s)%float = true ->
  let t := StaffManager.settlement now s in
  transactions (settleMonthlyHold NumberToString now s st)
  = t :: transactions st
  /\ Tx.amount t = Staff.totalHeldBalance s
  /\ Tx.category t = "Staff - Month End"
  /\ Tx.type t = EXPENSE
  /\ staff (settleMonthlyHold NumberToString now s st)
     = map (fun x =>
              if String.eqb (Staff.id x) (Staff.id s) then
                Staff.withTotalHeldBalance s 0%float
              else x)
           (staff st).
Proof.
  intros Hnew Hpos t. rewrite settleMonthlyHold_unfold.
  rewrite (ltb_zero_leb _ Hpos).
  rewrite addTransaction_new by assumption.
  repeat split.
Qed.

Lemma settleMonthlyHold_zero_balance (now : Z) (s : StaffMember)
    (st : State) :
  (Staff.totalHeldBalance s <=? 0)%float = true ->
  StaffManager.settleMonthlyHold NumberToString now s = []
  /\ settleMonthlyHold NumberToString now s st = st.
Proof.
  intros H. rewrite settleMonthlyHold_unfold.
  unfold StaffManager.settleMonthlyHold. now rewrite H.
Qed.

(** *** Sessions *)

Lemma Reachable_replay (h0 h : list Session.Event) (st0 : State) :
  Session.Reachable NumberToString h0 st0 ->
  Session.allPossible NumberToString h st0 ->
  Session.Reachable NumberToString (h0 ++ h)
    (Session.replay NumberToString h st0).
Proof.
  revert h0 st0. induction h as [|e h IH]; intros h0 st0 H0 Hp.
  - now rewrite app_nil_r.
  - destruct Hp as [He Hp]. cbn [Session.replay fold_left].
    change (h0 ++ e :: h)%list with (h0 ++ [e] ++ h)%list.
    rewrite app_assoc. apply IH; [|exact Hp].
    now constructor.
Qed.

End PayrollFacts.

(** A concrete session is reachable when each of its actions is possible
    in turn: replay it from the initial state and evaluate the conditions. *)
Ltac replay_session N history :=
  apply (Reachable_replay N [] history App.initial);
  [constructor | vm_compute; tauto].

(** C1 at the failing input.  Ravi is registered with a weekly pay of 1000;
    a sale is entered and its edit button pressed; the user then opens the
    staff tab and pays Ravi.  The edit is still pending, so [addTransaction]
    takes the payout record for an update of a record that does not exist:
    the ledger still holds the sale only, while the held balance of Ravi
    has gone from 0 to 600. *)
Theorem processWeeklyPay_loses_payout_while_editing
    (NumberToString : JS.number -> string) :
  let raviForm := {| StaffManager.name := "Ravi";
                     StaffManager.phone := "9876543210";
                     StaffManager.address := "";
                     StaffManager.aadhaar := "";
                     StaffManager.pay := "1000" |} in
  let saleForm := {| TransactionForm.type := INCOME;
                     TransactionForm.amount := "500";
                     TransactionForm.category := "Tea Sales";
                     TransactionForm.paymentMethod := CASH;
                     TransactionForm.notes := "" |} in
  let ravi := Staff.mk "1704160000000" "Ravi" "9876543210" "" "" 1000%float
                0%float "2024-01-02T01:46:40.000Z" in
  let sale := Tx.mk "1704169800000" "2024-01-02T04:30:00.000Z" 500%float
                "Tea Sales" INCOME CASH (Some "") None in
  let history := [Session.SelectTab App.staffTab;
                  Session.Register 1704160000000 raviForm;
                  Session.SelectTab App.dashboard;
                  Session.Submit 1704169800000 saleForm;
                  Session.EditClick sale;
                  Session.SelectTab App.staffTab] in
  let st := {| App.transactions := [sale]; App.staff := [ravi];
               App.editingTransaction := Some sale;
               App.activeTab := App.staffTab |} in
  Session.Reachable NumberToString history st
  /\ Session.possible (Session.WeeklyPay 1704170000000 ravi) st
  /\ App.processWeeklyPay NumberToString 1704170000000 ravi st
     = {| App.transactions := [sale];
          App.staff := [Staff.withTotalHeldBalance ravi 600%float];
          App.editingTransaction := None;
          App.activeTab := App.staffTab |}.
Proof.
  intros raviForm saleForm ravi sale history st. split; [|split].
  - change st with (Session.replay NumberToString history App.initial).
    replay_session NumberToString history.
  - vm_compute. tauto.
  - reflexivity.
Qed.

(** C2 at the failing input.  After three weekly payouts Ravi has 1800 in
    escrow; the user presses the edit button of a ledger entry, returns to
    the staff tab and settles.  The settlement record is taken for an
    update and lost: the ledger shows the three payouts only, and the held
    balance is reset to zero.  Same defect as in C1. *)
Theorem settleMonthlyHold_loses_settlement_while_editing
    (NumberToString : JS.number -> string) :
  let raviForm := {| StaffManager.name := "Ravi";
                     StaffManager.phone := "9876543210";
                     StaffManager.address := "";
                     StaffManager.aadhaar := "";
                     StaffManager.pay := "1000" |} in
  let ravi := Staff.mk "1704160000000" "Ravi" "9876543210" "" "" 1000%float
                0%float "2024-01-02T01:46:40.000Z" in
  let held b := Staff.withTotalHeldBalance ravi b in
  let week1 := StaffManager.weeklyPayment NumberToString 1704170000000
                 ravi in
  let week2 := StaffManager.weeklyPayment NumberToString 1704774800000
                 (held 600%float) in
  let week3 := StaffManager.weeklyPayment NumberToString 1705379600000
                 (held 1200%float) in
  let history := [Session.SelectTab App.staffTab;
                  Session.Register 1704160000000 raviForm;
                  Session.WeeklyPay 1704170000000 ravi;
                  Session.WeeklyPay 1704774800000 (held 600%float);
                  Session.WeeklyPay 1705379600000 (held 1200%float);
                  Session.SelectTab App.logs;
                  Session.EditClick week3;
                  Session.SelectTab App.staffTab] in
  let st := {| App.transactions := [week3; week2; week1];
               App.staff := [held 1800%float];
               App.editingTransaction := Some week3;
               App.activeTab := App.staffTab |} in
  Session.Reachable NumberToString history st
  /\ Session.possible (Session.Settle 1706500000000 (held 1800%float)) st
  /\ (0 <? Staff.totalHeldBalance (held 1800%float))%float = true
  /\ App.settleMonthlyHold NumberToString 1706500000000 (held 1800%float) st
     = {| App.transactions := [week3; week2; week1];
          App.staff := [held 0%float];
          App.editingTransaction := None;
          App.activeTab := App.staffTab |}.
Proof.
  intros raviForm ravi held week1 week2 week3 history st.
  split; [|split; [|split]].
  - change st with (Session.replay NumberToString history App.initial).
    replay_session NumberToString history.
  - vm_compute. tauto.
  - reflexivity.
  - reflexivity.
Qed.

(** ** The held balance over a session *)

Section Escrow.
Import App.
Variable NumberToString : JS.number -> string.

Lemma staff_processWeeklyPay (now : Z) (s : StaffMember) (st : State) :
  staff (processWeeklyPay NumberToString now s st)
  = map (fun x => if String.eqb (Staff.id x) (Staff.id s) then StaffManager.afterWeeklyPay s
              else x)
      (staff st).
Proof.
  rewrite processWeeklyPay_unfold. cbn [updateStaff setStaff staff].
  now rewrite staff_addTransaction.
Qed.

Lemma staff_settleMonthlyHold (now : Z) (s : StaffMember) (st : State) :
  staff (settleMonthlyHold NumberToString now s st)
  = if (Staff.totalHeldBalance s <=? 0)%float then staff st
    else map (fun x =>
                if String.eqb (Staff.id x) (Staff.id s) then
                  Staff.withTotalHeldBalance s 0%float
                else x)
           (staff st).
Proof.
  rewrite settleMonthlyHold_unfold.
  destruct (Staff.totalHeldBalance s <=? 0)%float; [reflexivity|].
  cbn [updateStaff setStaff staff]. now rewrite staff_addTransaction.
Qed.

Lemma staff_handleAddStaff (now : Z) (form : StaffManager.NewStaff)
    (st : State) :
  staff (handleAddStaff now form st)
  = if JS.falsy (StaffManager.name form) || JS.falsy (StaffManager.pay form)
       || JS.falsy (StaffManager.phone form)
    then staff st
    else (staff st ++ [StaffManager.registered now form])%list.
Proof.
  unfold handleAddStaff, StaffManager.handleAddStaff.
  cbn [StaffManager.newStaff].
  now destruct (JS.falsy (StaffManager.name form)
                || JS.falsy (StaffManager.pay form)
                || JS.falsy (StaffManager.phone form)).
Qed.

Lemma staff_handleSubmit (now : Z) (form : TransactionForm.Local)
    (st : State) :
  staff (handleSubmit now form st) = staff st.
Proof.
  unfold handleSubmit, TransactionForm.handleSubmit.
  destruct (JS.falsy (TransactionForm.amount form)
            || JS.isNaN (JS.Number (TransactionForm.amount form)));
    [reflexivity|].
  cbn [fst run fold_left transactionFormCall]. apply staff_addTransaction.
Qed.

Lemma staff_deleteTransaction (confirmed : bool) (id : string) (st : State) :
  staff (deleteTransaction confirmed id st) = staff st.
Proof.
  unfold deleteTransaction. destruct confirmed; [|reflexivity].
  destruct (editingTransaction st) as [e|]; [|reflexivity].
  now destruct (String.eqb (Tx.id e) id).
Qed.

Lemma escrow_snoc (id : string) (history : list Session.Event)
    (e : Session.Event) :
  Session.escrow id (history ++ [e])
  = Session.escrowStep id (Session.escrow id history) e.
Proof. unfold Session.escrow. now rewrite fold_left_app. Qed.

Lemma ids_replace (id : string) (u : StaffMember) (l : list StaffMember) :
  Staff.id u = id ->
  map Staff.id (map (fun x => if String.eqb (Staff.id x) id then u else x) l)
  = map Staff.id l.
Proof.
  intros Hu. rewrite map_map. apply map_ext. intros x.
  destruct (String.eqb_spec (Staff.id x) id); congruence.
Qed.

(** The three facts carried along a session: every record shows the escrow
    of its id; an id that no record bears has an empty escrow; a record
    with a non-negative base pay has a non-negative balance. *)
Lemma session_invariant (history : list Session.Event) (st : State) :
  Session.Reachable NumberToString history st ->
  (forall s, In s (staff st) ->
     Staff.totalHeldBalance s = Session.escrow (Staff.id s) history)
  /\ (forall id, ~ In id (map Staff.id (staff st)) ->
        Session.escrow id history = 0%float)
  /\ (forall s, In s (staff st) ->
        (0 <=? Staff.weeklyBasePay s)%float = true ->
        (0 <=? Staff.totalHeldBalance s)%float = true).
Proof.
  induction 1 as [|history st e Hreach (Hbal & Hfresh & Hsign) Hposs].
  - repeat split; intros; try contradiction; reflexivity.
  - assert (forall id, Session.escrowStep id (Session.escrow id history) e
                       = Session.escrow id history ->
                       Session.escrow id (history ++ [e])
                       = Session.escrow id history) as Hsame.
    { intros id Hid. now rewrite escrow_snoc. }
    destruct e as [now form| |t|confirmed t|tab|now form|now s|now s];
      cbn [Session.step Session.possible] in *.
    + rewrite staff_handleSubmit.
      repeat split; intros; rewrite ?Hsame by reflexivity; auto.
    + repeat split; intros; rewrite ?Hsame by reflexivity; auto.
    + repeat split; intros; rewrite ?Hsame by reflexivity; auto.
    + rewrite staff_deleteTransaction.
      repeat split; intros; rewrite ?Hsame by reflexivity; auto.
    + repeat split; intros; rewrite ?Hsame by reflexivity; auto.
    + (* registration *)
      destruct Hposs as [_ Hnew]. rewrite staff_handleAddStaff.
      destruct (JS.falsy (StaffManager.name form)
                || JS.falsy (StaffManager.pay form)
                || JS.falsy (StaffManager.phone form)).
      * repeat split; intros; rewrite ?Hsame by reflexivity; auto.
      * repeat split.
        -- intros s [Hs | [<- | []]]%in_app_or;
             rewrite Hsame by reflexivity; [auto|].
           cbn [StaffManager.registered Staff.totalHeldBalance Staff.id].
           symmetry. now apply Hfresh.
        -- intros id Hid. rewrite Hsame by reflexivity. apply Hfresh.
           intros Hin. apply Hid. rewrite map_app. apply in_or_app. now left.
        -- intros s [Hs | [<- | []]]%in_app_or; [auto|]. reflexivity.
    + (* weekly payout *)
      destruct Hposs as [_ Hs]. rewrite staff_processWeeklyPay.
      repeat split.
      * intros x' (x & <- & Hx)%in_map_iff. rewrite escrow_snoc.
        cbn [Session.escrowStep].
        destruct (String.eqb_spec (Staff.id x) (Staff.id s)) as [E|E].
        -- cbn [StaffManager.afterWeeklyPay Staff.withTotalHeldBalance
                  Staff.id Staff.totalHeldBalance].
           rewrite String.eqb_refl. now rewrite <- Hbal.
        -- apply not_eq_sym, String.eqb_neq in E. rewrite E. auto.
      * intros id Hid. rewrite ids_replace in Hid by reflexivity.
        rewrite escrow_snoc. cbn [Session.escrowStep].
        destruct (String.eqb_spec (Staff.id s) id) as [<-|E]; [|auto].
        exfalso. apply Hid. now apply in_map.
      * intros x' (x & <- & Hx)%in_map_iff.
        destruct (String.eqb (Staff.id x) (Staff.id s)); [|auto].
        cbn [StaffManager.afterWeeklyPay Staff.withTotalHeldBalance
               Staff.weeklyBasePay Staff.totalHeldBalance].
        intros Hw. apply leb_zero_add; [auto | now apply leb_zero_held].
    + (* settlement *)
      destruct Hposs as [_ Hs]. rewrite staff_settleMonthlyHold.
      destruct (Staff.totalHeldBalance s <=? 0)%float eqn:Hguard.
      * assert (forall id, Session.escrow id
                             (history ++ [Session.Settle now s])
                           = Session.escrow id history) as Hsame'.
        { intros id. rewrite escrow_snoc. cbn [Session.escrowStep].
          now rewrite Hguard, andb_false_r. }
        repeat split; intros; rewrite ?Hsame'; auto.
      * repeat split.
        -- intros x' (x & <- & Hx)%in_map_iff. rewrite escrow_snoc.
           cbn [Session.escrowStep]. rewrite Hguard, andb_true_r.
           destruct (String.eqb_spec (Staff.id x) (Staff.id s)) as [E|E].
           ++ cbn [Staff.withTotalHeldBalance Staff.id
                     Staff.totalHeldBalance].
              now rewrite String.eqb_refl.
           ++ apply not_eq_sym, String.eqb_neq in E. rewrite E. auto.
        -- intros id Hid. rewrite ids_replace in Hid by reflexivity.
           rewrite escrow_snoc. cbn [Session.escrowStep].
           destruct (String.eqb_spec (Staff.id s) id) as [<-|E];
             cbn [andb]; [|auto].
           exfalso. apply Hid. now apply in_map.
        -- intros x' (x & <- & Hx)%in_map_iff.
           destruct (String.eqb (Staff.id x) (Staff.id s)); [|auto].
           reflexivity.
Qed.

End Escrow.

(** C3, as stated, fails: the registration form takes the pay text [-500],
    and one weekly payout then leaves Ravi with a held balance of -300. *)
Lemma held_balance_negative_counterexample :
  let form := {| StaffManager.name := "Ravi";
                 StaffManager.phone := "9876543210";
                 StaffManager.address := "";
                 StaffManager.aadhaar := "";
                 StaffManager.pay := "-500" |} in
  let ravi := Staff.mk "1704160000000" "Ravi" "9876543210" "" ""
                (-500)%float 0%float "2024-01-02T01:46:40.000Z" in
  let history := [Session.SelectTab App.staffTab;
                  Session.Register 1704160000000 form;
                  Session.WeeklyPay 1704170000000 ravi] in
  exists st,
    Session.Reachable (fun _ => "") history st
    /\ App.staff st = [Staff.withTotalHeldBalance ravi (-300)%float]
    /\ (Staff.totalHeldBalance (Staff.withTotalHeldBalance ravi (-300)%float)
        <? 0)%float = true.
Proof.
  intros form ravi history.
  exists (Session.replay (fun _ => "") history App.initial).
  split; [|split; reflexivity].
  replay_session (fun _ : JS.number => "") history.
Qed.

(** C3, amended.  In every state of a session, the held balance of every
    staff member is the escrow that the payroll actions on its id have
    built up: the held fractions (0.60 of the base pay) of its weekly
    payouts, less its settlements, each of which pays out the whole
    balance; and the balance is non-negative for every record whose weekly
    base pay is non-negative. *)
Theorem held_balance_is_escrow (NumberToString : JS.number -> string)
    (history : list Session.Event) (st : App.State) (s : StaffMember) :
  Session.Reachable NumberToString history st ->
  In s (App.staff st) ->
  Staff.totalHeldBalance s = Session.escrow (Staff.id s) history
  /\ ((0 <=? Staff.weeklyBasePay s)%float = true ->
      (0 <=? Staff.totalHeldBalance s)%float = true).
Proof.
  intros Hreach Hs.
  destruct (session_invariant NumberToString history st Hreach)
    as (Hbal & _ & Hsign).
  split; auto.
Qed.

Lemma held_balance_is_escrow_witness :
  let form := {| StaffManager.name := "Ravi";
                 StaffManager.phone := "9876543210";
                 StaffManager.address := "";
                 StaffManager.aadhaar := "";
                 StaffManager.pay := "1000" |} in
  let ravi := Staff.mk "1704160000000" "Ravi" "9876543210" "" ""
                1000%float 0%float "2024-01-02T01:46:40.000Z" in
  let history := [Session.SelectTab App.staffTab;
                  Session.Register 1704160000000 form;
                  Session.WeeklyPay 1704170000000 ravi;
                  Session.WeeklyPay 1704774800000
                    (Staff.withTotalHeldBalance ravi 600%float)] in
  let st := Session.replay (fun _ => "") history App.initial in
  let s := Staff.withTotalHeldBalance ravi 1200%float in
  Session.Reachable (fun _ => "") history st
  /\ In s (App.staff st)
  /\ Staff.totalHeldBalance s = Session.escrow (Staff.id s) history
  /\ (0 <=? Staff.totalHeldBalance s)%float = true.
Proof.
  intros form ravi history st s.
  assert (Session.Reachable (fun _ => "") history st) as Hreach.
  { replay_session (fun _ : JS.number => "") history. }
  assert (In s (App.staff st)) as Hs by (left; reflexivity).
  destruct (held_balance_is_escrow (fun _ => "") history st s Hreach Hs)
    as [Hbal Hsign].
  split; [exact Hreach|]. split; [exact Hs|]. split; [exact Hbal|].
  apply Hsign. reflexivity.
Defined.

(** ** The daily trend *)

Section DailyTrend.
Import JSDate.

Lemma TimeClip_fourDigit (t : Z) : fourDigitYear t -> TimeClip t = Some t.
Proof.
  unfold fourDigitYear, TimeClip. intros H.
  destruct (Z.leb_spec (Z.abs t) 8640000000000000); [reflexivity | lia].
Qed.

Lemma Day_shift (now k : Z) : Day (now - k * msPerDay) = Day now - k.
Proof.
  unfold Day. replace (now - k * msPerDay) with (now + (- k) * msPerDay) by lia.
  rewrite Z.div_add by (unfold msPerDay; lia). lia.
Qed.

Lemma Day_utc (d : Z) : Day (d * msPerDay) = d.
Proof. unfold Day. apply Z.div_mul. unfold msPerDay. lia. Qed.

Lemma fourDigitYear_between (lo hi t : Z) :
  fourDigitYear lo -> fourDigitYear hi -> lo <= t <= hi -> fourDigitYear t.
Proof. unfold fourDigitYear. lia. Qed.

Lemma fourDigitYear_day (t : Z) :
  fourDigitYear t -> fourDigitYear (Day t * msPerDay).
Proof.
  unfold fourDigitYear, Day, msPerDay.
  intros H. Z.to_euclidean_division_equations; lia.
Qed.

(** One entry of [last7Days]: [k] days back. *)
Lemma bucket_date (offset now k : Z) :
  fourDigitYear (now - 6 * msPerDay) -> fourDigitYear now -> 0 <= k <= 6 ->
  option_map (fun d => hd "" (JS.split "T" (toISOString d)))
    (setDate (fixedZone offset) now (getDate (fixedZone offset) now - k))
  = Some (App.utcDate (Day now - k)).
Proof.
  intros Hlo Hhi Hk.
  assert (fourDigitYear (now - k * msPerDay)) as Hd.
  { apply (fourDigitYear_between (now - 6 * msPerDay) now); auto.
    unfold msPerDay. lia. }
  rewrite setDate_fixedZone, TimeClip_fourDigit by assumption.
  cbn [option_map]. rewrite toISOString_date by assumption.
  f_equal. apply isoDate_of_Day. now rewrite Day_utc, Day_shift.
Qed.

Lemma last7Days_fixedZone (offset now : Z) :
  fourDigitYear (now - 6 * msPerDay) -> fourDigitYear now ->
  App.allValid (App.last7Days (fixedZone offset) now)
  = Some (map (fun i => App.utcDate (Day now - 6 + Z.of_nat i)) (seq 0 7)).
Proof.
  intros Hlo Hhi. unfold App.last7Days. cbn [seq map Z.of_nat].
  rewrite !bucket_date by (auto; cbn; lia).
  cbn [rev app App.allValid option_map Z.of_nat Pos.of_succ_nat Pos.succ].
  replace (Day now - 6 + 0) with (Day now - 6) by lia.
  replace (Day now - 6 + 1) with (Day now - 5) by lia.
  replace (Day now - 6 + 2) with (Day now - 4) by lia.
  replace (Day now - 6 + 3) with (Day now - 3) by lia.
  replace (Day now - 6 + 4) with (Day now - 2) by lia.
  replace (Day now - 6 + 5) with (Day now - 1) by lia.
  replace (Day now - 6 + 6) with (Day now - 0) by lia.
  reflexivity.
Qed.

Lemma bucket_fourDigit (now : Z) (i : nat) :
  fourDigitYear (now - 6 * msPerDay) -> fourDigitYear now -> (i < 7)%nat ->
  fourDigitYear ((Day now - 6 + Z.of_nat i) * msPerDay).
Proof.
  unfold fourDigitYear, Day, msPerDay. intros Hlo Hhi Hi.
  Z.to_euclidean_division_equations; lia.
Qed.

(** A date written by the application falls in the bucket of day [d]
    exactly when its UTC day number is [d]. *)
Lemma startsWith_bucket (u d : Z) :
  fourDigitYear u -> fourDigitYear (d * msPerDay) ->
  JS.startsWith (toISOString u) (App.utcDate d) = true <-> Day u = d.
Proof.
  intros Hu Hd. unfold App.utcDate.
  rewrite startsWith_utc_day by assumption. now rewrite Day_utc.
Qed.

Lemma dayPoint_empty (ledger : list Transaction) (date : string) :
  (forall t, In t ledger -> JS.startsWith (Tx.date t) date = false) ->
  App.dayPoint ledger date
  = {| App.Point.date := JS.join "/" (JS.slice1 (JS.split "-" date));
       App.Point.income := 0%float;
       App.Point.expense := 0%float |}.
Proof.
  intros H. unfold App.dayPoint.
  assert (filter (fun t => JS.startsWith (Tx.date t) date) ledger = []) as ->.
  { induction ledger as [|t l IH]; [reflexivity|]. cbn [filter].
    rewrite H by now left. apply IH. intros t' Ht'. apply H. now right. }
  reflexivity.
Qed.

(** Whatever the device zone, a chart that is produced has seven points. *)
Lemma dailyChartData_length (tz : TimeZone) (now : Z)
    (ledger : list Transaction) (points : list App.Point.t) :
  App.dailyChartData tz now ledger = Some points ->
  List.length points = 7%nat.
Proof.
  unfold App.dailyChartData, App.last7Days. cbn [seq map rev app].
  repeat match goal with
         | |- context [option_map ?f (setDate ?z ?n ?d)] =>
             destruct (option_map f (setDate z n d))
         end; cbn; try discriminate.
  now intros [= <-].
Qed.

End DailyTrend.

(** Why the offset has to be fixed: on the evening of a day on which the
    clocks went forward, "one local day back" lands on the same UTC day, so
    the last two points are for the same date and a sale of that date is
    counted in both. *)
Lemma dailyChartData_daylight_saving_repeats_a_day :
  let now := 1710113400000 in
  let sale := Tx.mk (JS.intToString now) (JSDate.toISOString now)
                500%float "Tea Sales" INCOME CASH (Some "") None in
  App.dailyChartData JSDate.easternMarch2024 now [sale]
  = Some [App.Point.mk "03/05" 0%float 0%float;
          App.Point.mk "03/06" 0%float 0%float;
          App.Point.mk "03/07" 0%float 0%float;
          App.Point.mk "03/08" 0%float 0%float;
          App.Point.mk "03/09" 0%float 0%float;
          App.Point.mk "03/10" 500%float 0%float;
          App.Point.mk "03/10" 500%float 0%float].
Proof. vm_compute. reflexivity. Qed.

(** C4, as stated, fails.  The device is on Indian time (UTC+5:30).  A sale
    of 500 is entered at 02:00 on 2 January, local time, and the chart is
    drawn at 10:00 the same local day.  The sale is dated today in the
    local zone, yet its ISO date is 1 January: the chart shows it in the
    last point but one, and the point of today is zero. *)
Lemma dailyChartData_local_day_counterexample :
  let tz := JSDate.fixedZone 19800000 in
  let entered := 1704141000000 in
  let now := 1704169800000 in
  let sale := Tx.mk (JS.intToString entered) (JSDate.toISOString entered)
                500%float "Tea Sales" INCOME CASH (Some "") None in
  JSDate.Day (JSDate.LocalTime tz entered) = JSDate.Day (JSDate.LocalTime tz now)
  /\ App.dailyChartData tz now [sale]
     = Some [App.Point.mk "12/27" 0%float 0%float;
             App.Point.mk "12/28" 0%float 0%float;
             App.Point.mk "12/29" 0%float 0%float;
             App.Point.mk "12/30" 0%float 0%float;
             App.Point.mk "12/31" 0%float 0%float;
             App.Point.mk "01/01" 500%float 0%float;
             App.Point.mk "01/02" 0%float 0%float].
Proof. split; vm_compute; reflexivity. Qed.

(** C4, amended.  On a device with a fixed offset from UTC, and with the
    clock in the years that the ISO format writes with four digits, the
    daily trend has exactly seven points, one for each of the seven UTC
    calendar days that end with the UTC day of the clock reading, oldest
    first.  A transaction is counted in a point when its date string starts
    with the [YYYY-MM-DD] of the point, which for a date written by the
    application means that its UTC calendar day is the day of the point;
    the income of a point is the sum of the amounts of its INCOME
    transactions and the expense that of its EXPENSE transactions; a day
    without transactions gives 0 and 0; and a ledger with a single INCOME
    transaction of 500 dated on the UTC day of the clock reading gives six
    zero points followed by (500, 0). *)
Theorem dailyChartData_by_utc_day (offset now : Z)
    (ledger : list Transaction) :
  JSDate.fourDigitYear (now - 6 * JSDate.msPerDay) ->
  JSDate.fourDigitYear now ->
  let day := fun i : nat => JSDate.Day now - 6 + Z.of_nat i in
  let points := map (fun i => App.dayPoint ledger (App.utcDate (day i)))
                  (seq 0 7) in
  App.dailyChartData (JSDate.fixedZone offset) now ledger = Some points
  /\ List.length points = 7%nat
  /\ (forall (i : nat) (t : Transaction) (u : Z),
        (i < 7)%nat -> JSDate.fourDigitYear u ->
        Tx.date t = JSDate.toISOString u ->
        JS.startsWith (Tx.date t) (App.utcDate (day i)) = true
        <-> JSDate.Day u = day i)
  /\ (forall date : string,
        App.Point.income (App.dayPoint ledger date)
        = App.sumAmounts
            (App.ofType INCOME
               (filter (fun t => JS.startsWith (Tx.date t) date) ledger))
        /\ App.Point.expense (App.dayPoint ledger date)
           = App.sumAmounts
               (App.ofType EXPENSE
                  (filter (fun t => JS.startsWith (Tx.date t) date) ledger)))
  /\ (forall date : string,
        (forall t, In t ledger -> JS.startsWith (Tx.date t) date = false) ->
        App.Point.income (App.dayPoint ledger date) = 0%float
        /\ App.Point.expense (App.dayPoint ledger date) = 0%float)
  /\ (forall (t : Transaction) (u : Z),
        ledger = [t] -> Tx.type t = INCOME -> Tx.amount t = 500%float ->
        JSDate.fourDigitYear u -> JSDate.Day u = JSDate.Day now ->
        Tx.date t = JSDate.toISOString u ->
        map (fun p => (App.Point.income p, App.Point.expense p)) points
        = [(0, 0); (0, 0); (0, 0); (0, 0); (0, 0); (0, 0); (500, 0)]%float).
Proof.
  intros Hlo Hhi day points.
  assert (forall (i : nat) (u : Z),
             (i < 7)%nat -> JSDate.fourDigitYear u ->
             JS.startsWith (JSDate.toISOString u) (App.utcDate (day i)) = true
             <-> JSDate.Day u = day i) as Hbucket.
  { intros i u Hi Hu. apply startsWith_bucket; [assumption|].
    now apply bucket_fourDigit. }
  split; [|split; [|split; [|split; [|split]]]].
  - unfold App.dailyChartData. now rewrite last7Days_fixedZone.
  - reflexivity.
  - intros i t u Hi Hu ->. now apply Hbucket.
  - intros date. split; reflexivity.
  - intros date H. now rewrite dayPoint_empty.
  - intros t u -> Hty Hamt Hu Hday Hdate.
    assert (forall i : nat, (i < 6)%nat ->
              App.dayPoint [t] (App.utcDate (day i))
              = {| App.Point.date :=
                     JS.join "/"
                       (JS.slice1 (JS.split "-" (App.utcDate (day i))));
                   App.Point.income := 0%float;
                   App.Point.expense := 0%float |}) as Hzero.
    { intros i Hi. apply dayPoint_empty. intros t' [<- | []].
      rewrite Hdate.
      destruct (JS.startsWith _ _) eqn:E; [|reflexivity].
      apply Hbucket in E; [|lia|assumption]. unfold day in E. lia. }
    assert (JS.startsWith (Tx.date t) (App.utcDate (day 6%nat)) = true)
      as Htoday.
    { rewrite Hdate. apply Hbucket; [lia|assumption|]. unfold day. lia. }
    unfold points. cbn [seq map].
    rewrite !Hzero by lia. unfold App.dayPoint. cbn [filter].
    rewrite Htoday. unfold App.ofType. cbn [filter].
    rewrite Hty. cbn [TransactionType_eqb App.sumAmounts fold_left
                        App.Point.income App.Point.expense].
    rewrite Hamt. reflexivity.
Qed.

Lemma dailyChartData_by_utc_day_witness :
  let now := 1704169800000 in
  let sale := Tx.mk (JS.intToString now) (JSDate.toISOString now)
                500%float "Tea Sales" INCOME CASH (Some "") None in
  JSDate.fourDigitYear (now - 6 * JSDate.msPerDay)
  /\ JSDate.fourDigitYear now
  /\ App.dailyChartData (JSDate.fixedZone 19800000) now [sale]
     = Some (map (fun i =>
                    App.dayPoint [sale]
                      (App.utcDate (JSDate.Day now - 6 + Z.of_nat i)))
               (seq 0 7))
  /\ map (fun p => (App.Point.income p, App.Point.expense p))
       (map (fun i =>
               App.dayPoint [sale]
                 (App.utcDate (JSDate.Day now - 6 + Z.of_nat i)))
          (seq 0 7))
     = [(0, 0); (0, 0); (0, 0); (0, 0); (0, 0); (0, 0); (500, 0)]%float.
Proof.
  intros now sale.
  assert (JSDate.fourDigitYear (now - 6 * JSDate.msPerDay)) as Hlo
    by (unfold JSDate.fourDigitYear; cbn; lia).
  assert (JSDate.fourDigitYear now) as Hhi
    by (unfold JSDate.fourDigitYear; cbn; lia).
  destruct (dailyChartData_by_utc_day 19800000 now [sale] Hlo Hhi)
    as (H1 & _ & _ & _ & _ & H6).
  split; [exact Hlo|]. split; [exact Hhi|]. split; [exact H1|].
  exact (H6 sale now eq_refl eq_refl eq_refl Hhi eq_refl eq_refl).
Defined.

(** * Further properties of the handlers and reports *)

(** ** Deleting and editing ledger records *)

Section LedgerEdits.
Import App.

Lemma filter_keeps_all {A} (f : A -> bool) (l : list A) :
  (forall x, In x l -> f x = true) -> filter f l = l.
Proof.
  induction l as [|a l IH]; intros H; cbn; [reflexivity|].
  rewrite (H a (or_introl eq_refl)), IH; [reflexivity|].
  intros x Hx. apply H. now right.
Qed.

Lemma transactions_deleteTransaction (id : string) (st : State) :
  transactions (deleteTransaction true id st)
  = filter (fun t => negb (String.eqb (Tx.id t) id)) (transactions st).
Proof.
  unfold deleteTransaction.
  destruct (editingTransaction st) as [e|]; [|reflexivity].
  destruct (String.eqb (Tx.id e) id); reflexivity.
Qed.

Lemma editing_deleteTransaction (id : string) (st : State) :
  editingTransaction (deleteTransaction true id st)
  = match editingTransaction st with
    | Some e => if String.eqb (Tx.id e) id then None else Some e
    | None => None
    end.
Proof.
  unfold deleteTransaction.
  destruct (editingTransaction st) as [e|] eqn:E; cbn; [|exact E].
  destruct (String.eqb (Tx.id e) id); cbn; [reflexivity | exact E].
Qed.

Lemma State_eq (a b : State) :
  transactions a = transactions b -> staff a = staff b ->
  editingTransaction a = editingTransaction b -> activeTab a = activeTab b ->
  a = b.
Proof.
  destruct a, b; cbn; intros; subst; reflexivity.
Qed.

Lemma handleSubmit_valid (now : Z) (form : TransactionForm.Local)
    (st : State) :
  JS.falsy (TransactionForm.amount form) = false ->
  JS.isNaN (JS.Number (TransactionForm.amount form)) = false ->
  handleSubmit now form st
  = addTransaction
      (TransactionForm.transactionData now (editingTransaction st) form) st.
Proof.
  intros H1 H2. unfold handleSubmit.
  rewrite (handleSubmit_accepts now _ form H1 H2). reflexivity.
Qed.

End LedgerEdits.

(** X1.  Deleting an id that no record of the ledger bears changes
    nothing: whatever the answer to the confirmation, the ledger, the
    staff and the tab are as before, and no error is raised. *)
Theorem deleteTransaction_unknown_id (confirmed : bool) (id : string)
    (st : App.State) :
  (forall t, In t (App.transactions st) -> Tx.id t <> id) ->
  App.transactions (App.deleteTransaction confirmed id st)
  = App.transactions st
  /\ App.staff (App.deleteTransaction confirmed id st) = App.staff st
  /\ App.activeTab (App.deleteTransaction confirmed id st) = App.activeTab st.
Proof.
  intros H. destruct confirmed; [|repeat split].
  rewrite transactions_deleteTransaction, staff_deleteTransaction.
  repeat split.
  - apply filter_keeps_all. intros t Ht.
    destruct (String.eqb_spec (Tx.id t) id) as [E|_]; [|reflexivity].
    now apply H in Ht.
  - unfold App.deleteTransaction.
    destruct (App.editingTransaction st) as [e|]; [|reflexivity].
    destruct (String.eqb (Tx.id e) id); reflexivity.
Qed.

Lemma deleteTransaction_unknown_id_witness :
  let sale := Tx.mk "7" "2024-01-02T04:30:00.000Z" 500%float "Tea Sales"
                INCOME CASH (Some "") None in
  let st := {| App.transactions := [sale]; App.staff := [];
               App.editingTransaction := None; App.activeTab := App.logs |} in
  (forall t, In t (App.transactions st) -> Tx.id t <> "8")
  /\ App.transactions (App.deleteTransaction true "8" st) = [sale].
Proof.
  intros sale st.
  assert (H : forall t, In t (App.transactions st) -> Tx.id t <> "8").
  { intros t [<-|[]]. discriminate. }
  split; [exact H|].
  exact (proj1 (deleteTransaction_unknown_id true "8" st H)).
Defined.

(** X2.  A confirmed deletion removes exactly the records that bear the
    id: a record is in the ledger afterwards if and only if it was there
    before and bears another id.  When a single record bears the id, the
    ledger afterwards is the records before it followed by the records
    after it, in their order.  A declined confirmation leaves the whole
    state as it was. *)
Theorem deleteTransaction_removes_the_record (id : string) (st : App.State)
    (before after : list Transaction) (t : Transaction) :
  (forall u, In u (App.transactions (App.deleteTransaction true id st))
             <-> In u (App.transactions st) /\ Tx.id u <> id)
  /\ (App.transactions st = (before ++ t :: after)%list ->
      Tx.id t = id ->
      (forall u, In u (before ++ after)%list -> Tx.id u <> id) ->
      App.transactions (App.deleteTransaction true id st)
      = (before ++ after)%list)
  /\ App.deleteTransaction false id st = st.
Proof.
  rewrite transactions_deleteTransaction. split; [|split].
  - intros u. rewrite filter_In.
    destruct (String.eqb_spec (Tx.id u) id); cbn; intuition congruence.
  - intros -> Hid Hrest. rewrite filter_app. cbn [filter].
    rewrite Hid, String.eqb_refl. cbn [negb].
    rewrite <- filter_app. apply filter_keeps_all. intros u Hu.
    destruct (String.eqb_spec (Tx.id u) id) as [E|_]; [|reflexivity].
    now apply Hrest in Hu.
  - reflexivity.
Qed.

Lemma deleteTransaction_removes_the_record_witness :
  let sale := Tx.mk "7" "2024-01-02T04:30:00.000Z" 500%float "Tea Sales"
                INCOME CASH (Some "") None in
  let milk := Tx.mk "8" "2024-01-02T05:30:00.000Z" 90%float "Milk"
                EXPENSE CASH (Some "") None in
  let sugar := Tx.mk "9" "2024-01-02T06:30:00.000Z" 40%float "Sugar"
                 EXPENSE CASH (Some "") None in
  let st := {| App.transactions := [sugar; milk; sale]; App.staff := [];
               App.editingTransaction := None; App.activeTab := App.logs |} in
  App.transactions (App.deleteTransaction true "8" st) = [sugar; sale].
Proof.
  intros sale milk sugar st.
  apply (proj1 (proj2
           (deleteTransaction_removes_the_record "8" st [sugar] [sale] milk)));
    [reflexivity | reflexivity |].
  intros u [<-|[<-|[]]]; discriminate.
Defined.

(** X3.  Outside edit mode, adding a record whose id no other record
    bears and then deleting that id gives back the state before the
    addition. *)
Theorem delete_undoes_add (t : Transaction) (st : App.State) :
  App.editingTransaction st = None ->
  (forall u, In u (App.transactions st) -> Tx.id u <> Tx.id t) ->
  App.deleteTransaction true (Tx.id t) (App.addTransaction t st) = st.
Proof.
  intros He Hfresh. rewrite (addTransaction_new t st He).
  apply State_eq.
  - rewrite transactions_deleteTransaction. cbn.
    rewrite String.eqb_refl. cbn. apply filter_keeps_all. intros u Hu.
    destruct (String.eqb_spec (Tx.id u) (Tx.id t)) as [E|_]; [|reflexivity].
    now apply Hfresh in Hu.
  - now rewrite staff_deleteTransaction.
  - rewrite editing_deleteTransaction. cbn. now rewrite He.
  - unfold App.deleteTransaction. cbn. rewrite He. reflexivity.
Qed.

Lemma delete_undoes_add_witness :
  let sale := Tx.mk "7" "2024-01-02T04:30:00.000Z" 500%float "Tea Sales"
                INCOME CASH (Some "") None in
  let milk := Tx.mk "8" "2024-01-02T05:30:00.000Z" 90%float "Milk"
                EXPENSE CASH (Some "") None in
  let st := {| App.transactions := [sale]; App.staff := [];
               App.editingTransaction := None; App.activeTab := App.logs |} in
  App.editingTransaction st = None
  /\ App.deleteTransaction true "8" (App.addTransaction milk st) = st.
Proof.
  intros sale milk st. split; [reflexivity|].
  apply (delete_undoes_add milk st); [reflexivity|].
  intros u [<-|[]]. discriminate.
Defined.

(** X4.  Edit and save.  After the edit button of the record [e] and a
    submission of the form that passes its guard, every record of the
    ledger that bears the id of [e] is replaced, in place, by the saved
    record; the saved record keeps the id, the date and the staff id of
    [e] and takes the amount, category, type, payment method and notes of
    the form, and the clock reading is not used.  The ledger keeps its
    length, the record is there when [e] was, the edit mode is left, the
    dashboard is shown and the staff is untouched. *)
Theorem edit_then_save_replaces_in_place (now : Z)
    (form : TransactionForm.Local) (e : Transaction) (st : App.State) :
  JS.falsy (TransactionForm.amount form) = false ->
  JS.isNaN (JS.Number (TransactionForm.amount form)) = false ->
  let saved :=
    {| Tx.id := Tx.id e;
       Tx.date := Tx.date e;
       Tx.amount := JS.Number (TransactionForm.amount form);
       Tx.category := TransactionForm.category form;
       Tx.type := TransactionForm.type form;
       Tx.paymentMethod := TransactionForm.paymentMethod form;
       Tx.notes := Some (TransactionForm.notes form);
       Tx.staffId := Tx.staffId e |} in
  let st' := App.handleSubmit now form (App.handleEditClick e st) in
  App.transactions st'
  = map (fun item => if String.eqb (Tx.id item) (Tx.id e) then saved
                     else item)
      (App.transactions st)
  /\ List.length (App.transactions st') = List.length (App.transactions st)
  /\ (In e (App.transactions st) -> In saved (App.transactions st'))
  /\ App.editingTransaction st' = None
  /\ App.activeTab st' = App.dashboard
  /\ App.staff st' = App.staff st.
Proof.
  intros H1 H2 saved st'.
  assert (E : st' = App.setEditingTransaction None
                      (App.setTransactions
                         (map (fun item =>
                                 if String.eqb (Tx.id item) (Tx.id e)
                                 then saved else item))
                         (App.handleEditClick e st))).
  { unfold st'. rewrite (handleSubmit_valid now form _ H1 H2).
    rewrite (addTransaction_editing
               (TransactionForm.transactionData now
                  (App.editingTransaction (App.handleEditClick e st)) form)
               e (App.handleEditClick e st) eq_refl).
    reflexivity. }
  rewrite E. cbn. repeat split.
  - apply length_map.
  - intros Hin. apply in_map_iff. exists e. split; [|assumption].
    now rewrite String.eqb_refl.
Qed.

Lemma edit_then_save_replaces_in_place_witness :
  let sale := Tx.mk "7" "2024-01-02T04:30:00.000Z" 500%float "Tea Sales"
                INCOME CASH (Some "") None in
  let milk := Tx.mk "8" "2024-01-02T05:30:00.000Z" 90%float "Milk"
                EXPENSE CASH (Some "") None in
  let form := {| TransactionForm.type := INCOME;
                 TransactionForm.amount := "550";
                 TransactionForm.category := "Tea Sales";
                 TransactionForm.paymentMethod := GPAY;
                 TransactionForm.notes := "corrected" |} in
  let st := {| App.transactions := [milk; sale]; App.staff := [];
               App.editingTransaction := None; App.activeTab := App.logs |} in
  App.transactions
    (App.handleSubmit 1704190000000 form (App.handleEditClick sale st))
  = [milk;
     Tx.mk "7" "2024-01-02T04:30:00.000Z" 550%float "Tea Sales" INCOME GPAY
       (Some "corrected") None].
Proof.
  intros sale milk form st.
  assert (H1 : JS.falsy (TransactionForm.amount form) = false)
    by reflexivity.
  assert (H2 : JS.isNaN (JS.Number (TransactionForm.amount form)) = false)
    by (vm_compute; reflexivity).
  rewrite (proj1 (edit_then_save_replaces_in_place 1704190000000 form sale
                    st H1 H2)).
  vm_compute. reflexivity.
Defined.

(** X5.  Saving an edit without touching the form.  The form is filled
    from the record under edit; when the text that the amount is written
    as reads back as the same amount, saving stores the record as it was,
    except that missing notes become the empty text.  When the record has
    notes and every record under its id is the record itself, the ledger
    after the save is the ledger before. *)
Theorem save_unchanged_edit (NumberToString : JS.number -> string)
    (firstIncomeCategory : string) (now : Z) (e : Transaction)
    (st : App.State) :
  JS.falsy (NumberToString (Tx.amount e)) = false ->
  JS.Number (NumberToString (Tx.amount e)) = Tx.amount e ->
  JS.isNaN (Tx.amount e) = false ->
  let form :=
    TransactionForm.sync NumberToString firstIncomeCategory (Some e) in
  let st' := App.handleSubmit now form (App.handleEditClick e st) in
  let e' :=
    {| Tx.id := Tx.id e; Tx.date := Tx.date e; Tx.amount := Tx.amount e;
       Tx.category := Tx.category e; Tx.type := Tx.type e;
       Tx.paymentMethod := Tx.paymentMethod e;
       Tx.notes := Some (match Tx.notes e with Some n => n | None => "" end);
       Tx.staffId := Tx.staffId e |} in
  App.transactions st'
  = map (fun item => if String.eqb (Tx.id item) (Tx.id e) then e' else item)
      (App.transactions st)
  /\ (Tx.notes e <> None ->
      (forall item, In item (App.transactions st) ->
                    Tx.id item = Tx.id e -> item = e) ->
      App.transactions st' = App.transactions st).
Proof.
  intros H1 H2 H3 form st' e'.
  assert (Hn : JS.isNaN (JS.Number (TransactionForm.amount form)) = false).
  { cbn. rewrite H2. exact H3. }
  assert (Hsaved : TransactionForm.transactionData now (Some e) form = e').
  { unfold TransactionForm.transactionData, e', form. cbn.
    rewrite H2. f_equal.
    destruct (Tx.notes e) as [[|c n]|]; reflexivity. }
  assert (E : App.transactions st'
              = map (fun item => if String.eqb (Tx.id item) (Tx.id e)
                                 then e' else item)
                  (App.transactions st)).
  { unfold st'. rewrite (handleSubmit_valid now form _ H1 Hn).
    rewrite (addTransaction_editing
               (TransactionForm.transactionData now
                  (App.editingTransaction (App.handleEditClick e st)) form)
               e (App.handleEditClick e st) eq_refl).
    change (App.editingTransaction (App.handleEditClick e st))
      with (Some e).
    rewrite Hsaved. reflexivity. }
  split; [exact E|].
  intros Hnotes Huniq. rewrite E.
  assert (Ee : e' = e).
  { unfold e'. destruct e as [i d a c ty pm [n|] sid]; cbn in *;
      [reflexivity | contradiction]. }
  rewrite Ee. rewrite <- (map_id (App.transactions st)) at 2.
  apply map_ext_in. intros item Hin.
  destruct (String.eqb_spec (Tx.id item) (Tx.id e)) as [Eid|_];
    [|reflexivity].
  symmetry. now apply Huniq.
Qed.

Lemma save_unchanged_edit_witness :
  let sale := Tx.mk "7" "2024-01-02T04:30:00.000Z" 500%float "Tea Sales"
                INCOME GPAY (Some "morning") None in
  let milk := Tx.mk "8" "2024-01-02T05:30:00.000Z" 90%float "Milk"
                EXPENSE CASH (Some "") None in
  let st := {| App.transactions := [milk; sale]; App.staff := [];
               App.editingTransaction := None; App.activeTab := App.logs |} in
  let N := fun _ : JS.number => "500" in
  JS.Number (N (Tx.amount sale)) = Tx.amount sale
  /\ App.transactions
       (App.handleSubmit 1704190000000
          (TransactionForm.sync N "Tea Sales" (Some sale))
          (App.handleEditClick sale st))
     = [milk; sale].
Proof.
  intros sale milk st N.
  assert (H2 : JS.Number (N (Tx.amount sale)) = Tx.amount sale)
    by (vm_compute; reflexivity).
  split; [exact H2|].
  apply (proj2 (save_unchanged_edit N "Tea Sales" 1704190000000 sale st
                  eq_refl H2 eq_refl)).
  - discriminate.
  - intros item [<-|[<-|[]]]; [discriminate | reflexivity].
Defined.

(** X6.  Deleting the record under edit ends the edit: the next
    submission that passes the guard is inserted at the front as a new
    record, with the id and date of the clock reading, in front of the
    ledger without the deleted record.  Deleting a record with another
    id leaves the edit pending. *)
Theorem delete_record_under_edit (now : Z) (form : TransactionForm.Local)
    (e : Transaction) (st : App.State) :
  App.editingTransaction st = Some e ->
  JS.falsy (TransactionForm.amount form) = false ->
  JS.isNaN (JS.Number (TransactionForm.amount form)) = false ->
  App.editingTransaction (App.deleteTransaction true (Tx.id e) st) = None
  /\ App.transactions
       (App.handleSubmit now form
          (App.deleteTransaction true (Tx.id e) st))
     = TransactionForm.transactionData now None form
       :: filter (fun t => negb (String.eqb (Tx.id t) (Tx.id e)))
            (App.transactions st)
  /\ (forall id, id <> Tx.id e ->
        App.editingTransaction (App.deleteTransaction true id st) = Some e).
Proof.
  intros He H1 H2.
  assert (Hd : App.editingTransaction
                 (App.deleteTransaction true (Tx.id e) st) = None).
  { rewrite editing_deleteTransaction, He. now rewrite String.eqb_refl. }
  split; [exact Hd|]. split.
  - rewrite (handleSubmit_valid now form _ H1 H2), Hd.
    rewrite (addTransaction_new _ _ Hd).
    unfold App.setTransactions. cbn [App.transactions].
    now rewrite transactions_deleteTransaction.
  - intros id Hid. rewrite editing_deleteTransaction, He.
    destruct (String.eqb_spec (Tx.id e) id); [congruence | reflexivity].
Qed.

Lemma delete_record_under_edit_witness :
  let sale := Tx.mk "7" "2024-01-02T04:30:00.000Z" 500%float "Tea Sales"
                INCOME GPAY (Some "morning") None in
  let milk := Tx.mk "8" "2024-01-02T05:30:00.000Z" 90%float "Milk"
                EXPENSE CASH (Some "") None in
  let form := {| TransactionForm.type := INCOME;
                 TransactionForm.amount := "550";
                 TransactionForm.category := "Tea Sales";
                 TransactionForm.paymentMethod := GPAY;
                 TransactionForm.notes := "" |} in
  let st := {| App.transactions := [milk; sale]; App.staff := [];
               App.editingTransaction := Some sale;
               App.activeTab := App.logs |} in
  App.transactions
    (App.handleSubmit 1704190000000 form
       (App.deleteTransaction true "7" st))
  = [Tx.mk "1704190000000" "2024-01-02T10:06:40.000Z" 550%float "Tea Sales"
       INCOME GPAY (Some "") None; milk].
Proof.
  intros sale milk form st.
  assert (H2 : JS.isNaN (JS.Number (TransactionForm.amount form)) = false)
    by (vm_compute; reflexivity).
  refine (eq_trans
            (proj1 (proj2 (delete_record_under_edit 1704190000000 form sale
                             st eq_refl eq_refl H2))) _).
  vm_compute. reflexivity.
Defined.

(** ** Invariants of a session *)

Section SessionFacts.
Import App.
Variable NumberToString : JS.number -> string.

Lemma editing_addTransaction (t : Transaction) (st : State) :
  editingTransaction (addTransaction t st) = None.
Proof.
  unfold addTransaction.
  destruct (editingTransaction st) eqn:E; cbn; [reflexivity | exact E].
Qed.

Lemma handleSubmit_cases (now : Z) (form : TransactionForm.Local)
    (st : State) :
  handleSubmit now form st = st
  \/ handleSubmit now form st
     = addTransaction
         (TransactionForm.transactionData now (editingTransaction st) form)
         st.
Proof.
  unfold handleSubmit, TransactionForm.handleSubmit.
  destruct (JS.falsy (TransactionForm.amount form)
            || JS.isNaN (JS.Number (TransactionForm.amount form)));
    [left | right]; reflexivity.
Qed.

Lemma handleAddStaff_cases (now : Z) (form : StaffManager.NewStaff)
    (st : State) :
  handleAddStaff now form st
  = if Session.accepted form then
      addStaff (StaffManager.registered now form) st
    else st.
Proof.
  unfold handleAddStaff, StaffManager.handleAddStaff, Session.accepted.
  cbn [StaffManager.newStaff].
  destruct (JS.falsy (StaffManager.name form)
            || JS.falsy (StaffManager.pay form)
            || JS.falsy (StaffManager.phone form)); reflexivity.
Qed.

Lemma In_firstn {A} (n : nat) (x : A) (l : list A) :
  In x (firstn n l) -> In x l.
Proof.
  intros H. rewrite <- (firstn_skipn n l). apply in_or_app. now left.
Qed.

Lemma possible_EditClick (t : Transaction) (st : State) :
  Session.possible (Session.EditClick t) st -> In t (transactions st).
Proof.
  intros [[_ H]|[_ H]]; [now apply In_firstn in H | exact H].
Qed.

Lemma edited_record_invariant (history : list Session.Event) (st : State) :
  Session.Reachable NumberToString history st ->
  forall e, editingTransaction st = Some e -> In e (transactions st).
Proof.
  induction 1 as [|history st ev Hreach IH Hposs].
  - discriminate.
  - destruct ev as [now form| |t|confirmed t|tab|now form|now s|now s];
      cbn [Session.step]; intros e He.
    + destruct (handleSubmit_cases now form st) as [E|E]; rewrite E in *.
      * now apply IH.
      * rewrite editing_addTransaction in He. discriminate.
    + discriminate.
    + cbn in He. injection He as <-. cbn.
      now apply possible_EditClick.
    + destruct confirmed; [|now apply IH].
      rewrite editing_deleteTransaction in He.
      rewrite transactions_deleteTransaction.
      destruct (editingTransaction st) as [e0|]; [|discriminate].
      destruct (String.eqb_spec (Tx.id e0) (Tx.id t)) as [Eid|Nid];
        [discriminate|].
      injection He as <-. apply filter_In. split; [now apply IH|].
      now destruct (String.eqb_spec (Tx.id e0) (Tx.id t)).
    + cbn in *. now apply IH.
    + rewrite handleAddStaff_cases in *.
      destruct (Session.accepted form); cbn in *; now apply IH.
    + rewrite processWeeklyPay_unfold in He. cbn in He.
      rewrite editing_addTransaction in He. discriminate.
    + rewrite settleMonthlyHold_unfold in *.
      destruct (Staff.totalHeldBalance s <=? 0)%float; [now apply IH|].
      cbn in He. rewrite editing_addTransaction in He. discriminate.
Qed.

End SessionFacts.

(** X7.  In every state of a session, the record under edit is still
    in the ledger.  So a save of the form that passes the guard is never
    lost: the saved record is in the ledger afterwards, and the ledger
    has the length it had. *)
Theorem saved_edit_is_never_lost (NumberToString : JS.number -> string)
    (history : list Session.Event) (st : App.State) (e : Transaction)
    (now : Z) (form : TransactionForm.Local) :
  Session.Reachable NumberToString history st ->
  App.editingTransaction st = Some e ->
  JS.falsy (TransactionForm.amount form) = false ->
  JS.isNaN (JS.Number (TransactionForm.amount form)) = false ->
  In e (App.transactions st)
  /\ In (TransactionForm.transactionData now (Some e) form)
       (App.transactions (App.handleSubmit now form st))
  /\ List.length (App.transactions (App.handleSubmit now form st))
     = List.length (App.transactions st).
Proof.
  intros Hreach He H1 H2.
  pose proof (edited_record_invariant NumberToString history st Hreach e He)
    as Hin.
  split; [exact Hin|].
  rewrite (handleSubmit_valid now form st H1 H2), He.
  rewrite (addTransaction_editing _ e st He).
  unfold App.setEditingTransaction, App.setTransactions.
  cbn [App.transactions]. split; [|apply length_map].
  apply in_map_iff. exists e. split; [|exact Hin].
  cbn [TransactionForm.transactionData Tx.id].
  now rewrite String.eqb_refl.
Qed.

Lemma saved_edit_is_never_lost_witness :
  let saleForm := {| TransactionForm.type := INCOME;
                     TransactionForm.amount := "500";
                     TransactionForm.category := "Tea Sales";
                     TransactionForm.paymentMethod := CASH;
                     TransactionForm.notes := "" |} in
  let fixForm := {| TransactionForm.type := INCOME;
                    TransactionForm.amount := "550";
                    TransactionForm.category := "Tea Sales";
                    TransactionForm.paymentMethod := GPAY;
                    TransactionForm.notes := "corrected" |} in
  let sale := Tx.mk "1704169800000" "2024-01-02T04:30:00.000Z" 500%float
                "Tea Sales" INCOME CASH (Some "") None in
  let history := [Session.Submit 1704169800000 saleForm;
                  Session.SelectTab App.logs;
                  Session.EditClick sale] in
  let st := Session.replay (fun _ => "") history App.initial in
  Session.Reachable (fun _ => "") history st
  /\ App.editingTransaction st = Some sale
  /\ In (Tx.mk "1704169800000" "2024-01-02T04:30:00.000Z" 550%float
           "Tea Sales" INCOME GPAY (Some "corrected") None)
        (App.transactions (App.handleSubmit 1704190000000 fixForm st)).
Proof.
  intros saleForm fixForm sale history st.
  assert (Session.Reachable (fun _ => "") history st) as Hreach.
  { replay_session (fun _ : JS.number => "") history. }
  assert (He : App.editingTransaction st = Some sale) by reflexivity.
  assert (H2 : JS.isNaN (JS.Number (TransactionForm.amount fixForm)) = false)
    by (vm_compute; reflexivity).
  split; [exact Hreach|]. split; [exact He|].
  exact (proj1 (proj2 (saved_edit_is_never_lost (fun _ => "") history st sale
                         1704190000000 fixForm Hreach He eq_refl H2))).
Defined.

(** ** The staff collection of a session *)

Section StaffFacts.
Import App.
Variable NumberToString : JS.number -> string.

Lemma id_staffRecord (history : list Session.Event)
    (r : Z * StaffManager.NewStaff) :
  Staff.id (Session.staffRecord history r) = JS.intToString (fst r).
Proof. reflexivity. Qed.

Lemma registrations_snoc (history : list Session.Event) (e : Session.Event) :
  Session.registrations (history ++ [e])
  = (Session.registrations history
     ++ match e with
        | Session.Register now form =>
            if Session.accepted form then [(now, form)] else []
        | _ => []
        end)%list.
Proof.
  unfold Session.registrations. rewrite flat_map_app. cbn.
  now rewrite app_nil_r.
Qed.

Lemma staffRecord_snoc (history : list Session.Event) (e : Session.Event)
    (r : Z * StaffManager.NewStaff) :
  Session.staffRecord (history ++ [e]) r
  = Staff.withTotalHeldBalance (Session.staffRecord history r)
      (Session.escrowStep (JS.intToString (fst r))
         (Session.escrow (JS.intToString (fst r)) history) e).
Proof.
  unfold Session.staffRecord. now rewrite escrow_snoc.
Qed.

Lemma withTotalHeldBalance_same (s : StaffMember) :
  Staff.withTotalHeldBalance s (Staff.totalHeldBalance s) = s.
Proof. now destruct s. Qed.

Lemma NoDup_map_inj {A B} (f : A -> B) (l : list A) (a b : A) :
  NoDup (map f l) -> In a l -> In b l -> f a = f b -> a = b.
Proof.
  induction l as [|x l IH]; cbn; intros Hnd Ha Hb E; [contradiction|].
  inversion Hnd as [|? ? Hx Hnd']; subst.
  destruct Ha as [->|Ha], Hb as [->|Hb].
  - reflexivity.
  - exfalso. apply Hx. rewrite E. now apply in_map.
  - exfalso. apply Hx. rewrite <- E. now apply in_map.
  - now apply IH.
Qed.

(** A payroll action on the record [s] of the staff list rewrites the
    list of records member by member. *)
Lemma replace_staffRecord (history : list Session.Event)
    (regs : list (Z * StaffManager.NewStaff)) (s u : StaffMember)
    (step : string -> JS.number) :
  NoDup (map (fun r => JS.intToString (fst r)) regs) ->
  In s (map (Session.staffRecord history) regs) ->
  (forall r, In r regs ->
     if String.eqb (JS.intToString (fst r)) (Staff.id s) then
       u = Staff.withTotalHeldBalance (Session.staffRecord history r)
             (step (JS.intToString (fst r)))
     else
       step (JS.intToString (fst r))
       = Staff.totalHeldBalance (Session.staffRecord history r)) ->
  map (fun x => if String.eqb (Staff.id x) (Staff.id s) then u else x)
    (map (Session.staffRecord history) regs)
  = map (fun r => Staff.withTotalHeldBalance (Session.staffRecord history r)
                    (step (JS.intToString (fst r))))
      regs.
Proof.
  intros Hnd Hs Hstep. rewrite map_map. apply map_ext_in. intros r Hr.
  specialize (Hstep r Hr). rewrite id_staffRecord.
  destruct (String.eqb (JS.intToString (fst r)) (Staff.id s)).
  - exact Hstep.
  - rewrite Hstep. symmetry. apply withTotalHeldBalance_same.
Qed.

Lemma staff_representation (history : list Session.Event) (st : State) :
  Session.Reachable NumberToString history st ->
  staff st = map (Session.staffRecord history) (Session.registrations history)
  /\ NoDup (map (fun r => JS.intToString (fst r))
              (Session.registrations history)).
Proof.
  induction 1 as [|history st ev Hreach [IH Hnd] Hposs].
  - split; [reflexivity | constructor].
  - pose proof (session_invariant NumberToString history st Hreach)
      as [_ [Hfresh _]].
    assert (Hsame : forall r,
               Session.escrowStep (JS.intToString (fst r))
                 (Session.escrow (JS.intToString (fst r)) history) ev
               = Session.escrow (JS.intToString (fst r)) history ->
               Session.staffRecord (history ++ [ev]) r
               = Session.staffRecord history r).
    { intros r E. rewrite staffRecord_snoc, E. reflexivity. }
    assert (Hids : map Staff.id (staff st)
                   = map (fun r => JS.intToString (fst r))
                       (Session.registrations history)).
    { rewrite IH, map_map. reflexivity. }
    rewrite registrations_snoc.
    destruct ev as [now form| |t|confirmed t|tab|now form|now s|now s];
      cbn [Session.step];
      try (rewrite app_nil_r; split; [|exact Hnd]).
    + rewrite staff_handleSubmit, IH. apply map_ext. intros r.
      symmetry. now apply Hsame.
    + cbn. rewrite IH. apply map_ext. intros r. symmetry. now apply Hsame.
    + cbn. rewrite IH. apply map_ext. intros r. symmetry. now apply Hsame.
    + rewrite staff_deleteTransaction, IH. apply map_ext. intros r.
      symmetry. now apply Hsame.
    + cbn. rewrite IH. apply map_ext. intros r. symmetry. now apply Hsame.
    + rewrite handleAddStaff_cases.
      destruct Hposs as [_ Hnew].
      destruct (Session.accepted form).
      * split.
        -- cbn [addStaff setStaff staff]. rewrite map_app, IH. f_equal.
           ++ apply map_ext. intros r. symmetry. now apply Hsame.
           ++ cbn [map]. f_equal. unfold Session.staffRecord. cbn [fst snd].
              rewrite escrow_snoc. cbn [Session.escrowStep].
              rewrite (Hfresh _ Hnew). reflexivity.
        -- rewrite map_app. cbn [map fst]. rewrite <- Hids.
           apply NoDup_app.
           ++ rewrite Hids. exact Hnd.
           ++ repeat constructor. intros [].
           ++ intros x Hx [<-|[]]. now apply Hnew.
      * rewrite app_nil_r. split; [|exact Hnd].
        rewrite IH. apply map_ext. intros r. symmetry. now apply Hsame.
    + destruct Hposs as [_ Hs]. rewrite staff_processWeeklyPay.
      rewrite IH in Hs |- *.
      rewrite (replace_staffRecord history _ s (StaffManager.afterWeeklyPay s)
                 (fun id => Session.escrowStep id (Session.escrow id history)
                              (Session.WeeklyPay now s))
                 Hnd Hs).
      * apply map_ext. intros r. now rewrite staffRecord_snoc.
      * intros r Hr. cbn [Session.escrowStep].
        rewrite (String.eqb_sym (Staff.id s)).
        destruct (String.eqb_spec (JS.intToString (fst r)) (Staff.id s))
          as [E|_]; [|reflexivity].
        apply in_map_iff in Hs. destruct Hs as [r0 [<- Hr0]].
        assert (r0 = r) as ->.
        { apply (NoDup_map_inj (fun r => JS.intToString (fst r)) _ _ _
                   Hnd Hr0 Hr). now rewrite E. }
        reflexivity.
    + destruct Hposs as [_ Hs]. rewrite staff_settleMonthlyHold.
      rewrite IH in Hs |- *.
      destruct (Staff.totalHeldBalance s <=? 0)%float eqn:G.
      * apply map_ext. intros r. symmetry. apply Hsame.
        cbn [Session.escrowStep]. rewrite G, andb_false_r. reflexivity.
      * rewrite (replace_staffRecord history _ s
                   (Staff.withTotalHeldBalance s 0%float)
                   (fun id => Session.escrowStep id
                                (Session.escrow id history)
                                (Session.Settle now s))
                   Hnd Hs).
        -- apply map_ext. intros r. now rewrite staffRecord_snoc.
        -- intros r Hr. cbn [Session.escrowStep].
           rewrite (String.eqb_sym (Staff.id s)), G. cbn [negb].
           rewrite andb_true_r.
           destruct (String.eqb_spec (JS.intToString (fst r)) (Staff.id s))
             as [E|_]; [|reflexivity].
           apply in_map_iff in Hs. destruct Hs as [r0 [<- Hr0]].
           assert (r0 = r) as ->.
           { apply (NoDup_map_inj (fun r => JS.intToString (fst r)) _ _ _
                      Hnd Hr0 Hr). now rewrite E. }
           reflexivity.
Qed.

End StaffFacts.

(** X8.  The staff collection is determined by the session.  In every
    state of a session it holds one record for each registration that
    passed the guard of the form, in the order of the registrations; the
    record has the fields written at registration (id and joining date
    from the clock reading, weekly pay from the pay text) and, as held
    balance, the escrow that the payroll actions on its id have built up.
    No two staff records bear the same id.  Nothing ever removes a staff
    record or changes its name, phone, address, Aadhaar number, weekly
    pay or joining date. *)
Theorem staff_is_determined_by_session
    (NumberToString : JS.number -> string)
    (history : list Session.Event) (st : App.State) :
  Session.Reachable NumberToString history st ->
  App.staff st
  = map (fun r : Z * StaffManager.NewStaff =>
           Staff.withTotalHeldBalance
             (StaffManager.registered (fst r) (snd r))
             (Session.escrow (JS.intToString (fst r)) history))
      (Session.registrations history)
  /\ NoDup (map Staff.id (App.staff st)).
Proof.
  intros Hreach.
  destruct (staff_representation NumberToString history st Hreach)
    as [E Hnd].
  split; [exact E|]. rewrite E, map_map. exact Hnd.
Qed.

Lemma staff_is_determined_by_session_witness :
  let ravi := {| StaffManager.name := "Ravi";
                 StaffManager.phone := "9876543210";
                 StaffManager.address := "";
                 StaffManager.aadhaar := "";
                 StaffManager.pay := "1000" |} in
  let nameless := {| StaffManager.name := "";
                     StaffManager.phone := "9876500000";
                     StaffManager.address := "";
                     StaffManager.aadhaar := "";
                     StaffManager.pay := "800" |} in
  let history := [Session.SelectTab App.staffTab;
                  Session.Register 1704160000000 ravi;
                  Session.Register 1704160005000 nameless;
                  Session.WeeklyPay 1704170000000
                    (StaffManager.registered 1704160000000 ravi)] in
  let st := Session.replay (fun _ => "") history App.initial in
  Session.Reachable (fun _ => "") history st
  /\ App.staff st
     = [Staff.mk "1704160000000" "Ravi" "9876543210" "" "" 1000%float
          600%float "2024-01-02T01:46:40.000Z"].
Proof.
  intros ravi nameless history st.
  assert (Session.Reachable (fun _ => "") history st) as Hreach.
  { apply (Reachable_replay (fun _ => "") [] history App.initial);
      [apply Session.Reachable_initial|].
    vm_compute. intuition discriminate. }
  split; [exact Hreach|].
  rewrite (proj1 (staff_is_determined_by_session (fun _ => "") history st
                    Hreach)).
  vm_compute. reflexivity.
Defined.

(** ** Staff ids in the ledger, and the escrow liability *)

Section Integrity.
Import App.
Variable NumberToString : JS.number -> string.

Lemma In_addTransaction (t x : Transaction) (st : State) :
  In x (transactions (addTransaction t st)) ->
  x = t \/ In x (transactions st).
Proof.
  unfold addTransaction.
  destruct (editingTransaction st); cbn.
  - intros H. apply in_map_iff in H. destruct H as [item [E Hin]].
    destruct (String.eqb (Tx.id item) (Tx.id t)); subst; auto.
  - intros [<-|H]; auto.
Qed.

Lemma ids_staff_step (history : list Session.Event) (st : State)
    (e : Session.Event) (i : string) :
  In i (map Staff.id (staff st)) ->
  In i (map Staff.id (staff (Session.step NumberToString e st))).
Proof.
  intros Hi.
  destruct e as [now form| |t|confirmed t|tab|now form|now s|now s];
    cbn [Session.step].
  - now rewrite staff_handleSubmit.
  - exact Hi.
  - exact Hi.
  - now rewrite staff_deleteTransaction.
  - exact Hi.
  - rewrite staff_handleAddStaff.
    destruct (JS.falsy (StaffManager.name form)
              || JS.falsy (StaffManager.pay form)
              || JS.falsy (StaffManager.phone form)); [exact Hi|].
    rewrite map_app. apply in_or_app. now left.
  - rewrite staff_processWeeklyPay, ids_replace; [exact Hi | reflexivity].
  - rewrite staff_settleMonthlyHold.
    destruct (Staff.totalHeldBalance s <=? 0)%float; [exact Hi|].
    rewrite ids_replace; [exact Hi | reflexivity].
Qed.

Lemma staffId_invariant (history : list Session.Event) (st : State) :
  Session.Reachable NumberToString history st ->
  forall t i, In t (transactions st) -> Tx.staffId t = Some i ->
              In i (map Staff.id (staff st)).
Proof.
  induction 1 as [|history st ev Hreach IH Hposs]; [intros t i []|].
  pose proof (edited_record_invariant NumberToString history st Hreach)
    as Hedit.
  intros t i Ht Hi.
  assert (Hold : In t (transactions st) ->
                 In i (map Staff.id
                         (staff (Session.step NumberToString ev st)))).
  { intros Hin. apply (ids_staff_step history). now apply (IH t). }
  destruct ev as [now form| |t0|confirmed t0|tab|now form|now s|now s];
    cbn [Session.step] in *.
  - destruct (handleSubmit_cases now form st) as [E|E]; rewrite E in *;
      [now apply Hold|].
    apply In_addTransaction in Ht. destruct Ht as [->|Ht];
      [|now apply Hold].
    rewrite staff_addTransaction.
    destruct (editingTransaction st) as [e|] eqn:He; cbn in Hi;
      [|discriminate].
    apply (IH e); [now apply Hedit | exact Hi].
  - now apply Hold.
  - now apply Hold.
  - apply Hold. destruct confirmed; [|exact Ht].
    rewrite transactions_deleteTransaction in Ht.
    now apply filter_In in Ht.
  - now apply Hold.
  - apply Hold. rewrite handleAddStaff_cases in Ht.
    now destruct (Session.accepted form).
  - destruct Hposs as [_ Hs].
    rewrite processWeeklyPay_unfold, transactions_updateStaff in Ht.
    apply In_addTransaction in Ht. destruct Ht as [->|Ht];
      [|now apply Hold].
    cbn in Hi. injection Hi as <-.
    apply (ids_staff_step history st (Session.WeeklyPay now s)).
    now apply in_map.
  - destruct Hposs as [_ Hs].
    rewrite settleMonthlyHold_unfold in Ht.
    destruct (Staff.totalHeldBalance s <=? 0)%float eqn:G;
      [now apply Hold|].
    rewrite transactions_updateStaff in Ht.
    apply In_addTransaction in Ht. destruct Ht as [->|Ht];
      [|now apply Hold].
    cbn in Hi. injection Hi as <-.
    apply (ids_staff_step history st (Session.Settle now s)).
    now apply in_map.
Qed.

Lemma totalEscrowLiability_from (l : list StaffMember) (acc : JS.number) :
  (0 <=? acc)%float = true ->
  (forall s, In s l -> (0 <=? Staff.totalHeldBalance s)%float = true) ->
  (0 <=? fold_left (fun acc curr => (acc + Staff.totalHeldBalance curr)%float)
           l acc)%float = true.
Proof.
  revert acc. induction l as [|s l IH]; intros acc Hacc Hl; [exact Hacc|].
  cbn [fold_left]. apply IH.
  - apply leb_zero_add; [exact Hacc | apply Hl; now left].
  - intros x Hx. apply Hl. now right.
Qed.

End Integrity.

(** X9.  In every state of a session, a transaction that carries a staff
    id refers to a member of the staff collection. *)
Theorem staffId_refers_to_registered_staff
    (NumberToString : JS.number -> string)
    (history : list Session.Event) (st : App.State)
    (t : Transaction) (i : string) :
  Session.Reachable NumberToString history st ->
  In t (App.transactions st) ->
  Tx.staffId t = Some i ->
  exists s, In s (App.staff st) /\ Staff.id s = i.
Proof.
  intros Hreach Ht Hi.
  pose proof (staffId_invariant NumberToString history st Hreach t i Ht Hi)
    as H.
  apply in_map_iff in H. destruct H as [s [E Hs]]. now exists s.
Qed.

Lemma staffId_refers_to_registered_staff_witness :
  let form := {| StaffManager.name := "Ravi";
                 StaffManager.phone := "9876543210";
                 StaffManager.address := "";
                 StaffManager.aadhaar := "";
                 StaffManager.pay := "1000" |} in
  let ravi := StaffManager.registered 1704160000000 form in
  let history := [Session.SelectTab App.staffTab;
                  Session.Register 1704160000000 form;
                  Session.WeeklyPay 1704170000000 ravi] in
  let st := Session.replay (fun _ => "") history App.initial in
  let payout := StaffManager.weeklyPayment (fun _ => "") 1704170000000 ravi in
  Session.Reachable (fun _ => "") history st
  /\ In payout (App.transactions st)
  /\ Tx.staffId payout = Some "1704160000000"
  /\ exists s, In s (App.staff st) /\ Staff.id s = "1704160000000".
Proof.
  intros form ravi history st payout.
  assert (Session.Reachable (fun _ => "") history st) as Hreach.
  { apply (Reachable_replay (fun _ => "") [] history App.initial);
      [apply Session.Reachable_initial|].
    vm_compute. intuition discriminate. }
  assert (Ht : In payout (App.transactions st)) by (left; reflexivity).
  assert (Hi : Tx.staffId payout = Some "1704160000000") by reflexivity.
  split; [exact Hreach|]. split; [exact Ht|]. split; [exact Hi|].
  exact (staffId_refers_to_registered_staff (fun _ => "") history st payout
           "1704160000000" Hreach Ht Hi).
Defined.

(** X10.  The total escrow liability shown under the staff list is not
    negative in any state of a session in which no staff member has a
    negative weekly pay. *)
Theorem totalEscrowLiability_is_not_negative
    (NumberToString : JS.number -> string)
    (history : list Session.Event) (st : App.State) :
  Session.Reachable NumberToString history st ->
  (forall s, In s (App.staff st) ->
     (0 <=? Staff.weeklyBasePay s)%float = true) ->
  (0 <=? StaffManager.totalEscrowLiability (App.staff st))%float = true.
Proof.
  intros Hreach Hpay.
  destruct (session_invariant NumberToString history st Hreach)
    as [_ [_ Hsign]].
  apply totalEscrowLiability_from; [reflexivity|].
  intros s Hs. apply Hsign; [exact Hs | now apply Hpay].
Qed.

Lemma totalEscrowLiability_is_not_negative_witness :
  let ravi := {| StaffManager.name := "Ravi";
                 StaffManager.phone := "9876543210";
                 StaffManager.address := "";
                 StaffManager.aadhaar := "";
                 StaffManager.pay := "1000" |} in
  let devi := {| StaffManager.name := "Devi";
                 StaffManager.phone := "9876500000";
                 StaffManager.address := "";
                 StaffManager.aadhaar := "";
                 StaffManager.pay := "800" |} in
  let history := [Session.SelectTab App.staffTab;
                  Session.Register 1704160000000 ravi;
                  Session.Register 1704160005000 devi;
                  Session.WeeklyPay 1704170000000
                    (StaffManager.registered 1704160000000 ravi);
                  Session.WeeklyPay 1704170001000
                    (StaffManager.registered 1704160005000 devi)] in
  let st := Session.replay (fun _ => "") history App.initial in
  Session.Reachable (fun _ => "") history st
  /\ StaffManager.totalEscrowLiability (App.staff st) = 1080%float
  /\ (0 <=? StaffManager.totalEscrowLiability (App.staff st))%float = true.
Proof.
  intros ravi devi history st.
  assert (Session.Reachable (fun _ => "") history st) as Hreach.
  { apply (Reachable_replay (fun _ => "") [] history App.initial);
      [apply Session.Reachable_initial|].
    vm_compute. intuition discriminate. }
  split; [exact Hreach|]. split; [vm_compute; reflexivity|].
  apply (totalEscrowLiability_is_not_negative (fun _ => "") history st
           Hreach).
  intros s [<-|[<-|[]]]; vm_compute; reflexivity.
Defined.

(** ** Sequences of payroll actions *)

Section PayrollSequences.
Import App.
Variable NumberToString : JS.number -> string.

Lemma editing_processWeeklyPay (now : Z) (s : StaffMember) (st : State) :
  editingTransaction (processWeeklyPay NumberToString now s st) = None.
Proof.
  rewrite processWeeklyPay_unfold. cbn. apply editing_addTransaction.
Qed.

Lemma replace_replace (s u v : StaffMember) (l : list StaffMember) :
  Staff.id u = Staff.id s -> Staff.id v = Staff.id s ->
  map (fun x => if String.eqb (Staff.id x) (Staff.id s) then v else x)
    (map (fun x => if String.eqb (Staff.id x) (Staff.id s) then u else x) l)
  = map (fun x => if String.eqb (Staff.id x) (Staff.id s) then v else x) l.
Proof.
  intros Hu Hv. rewrite map_map. apply map_ext. intros x.
  destruct (String.eqb (Staff.id x) (Staff.id s)) eqn:E.
  - now rewrite Hu, String.eqb_refl.
  - now rewrite E.
Qed.

Lemma replace_one (s u : StaffMember) (before after : list StaffMember) :
  NoDup (map Staff.id (before ++ s :: after)) ->
  map (fun x => if String.eqb (Staff.id x) (Staff.id s) then u else x)
    (before ++ s :: after)
  = (before ++ u :: after)%list.
Proof.
  intros Hnd. rewrite map_app. cbn [map]. rewrite String.eqb_refl.
  rewrite map_app in Hnd. cbn [map] in Hnd.
  apply NoDup_remove_2 in Hnd.
  assert (Hother : forall l, (forall x, In x l -> Staff.id x <> Staff.id s) ->
            map (fun x => if String.eqb (Staff.id x) (Staff.id s)
                          then u else x) l = l).
  { induction l as [|x l IH]; intros H; [reflexivity|]. cbn [map].
    rewrite IH by (intros y Hy; apply H; now right).
    destruct (String.eqb_spec (Staff.id x) (Staff.id s)) as [E|_];
      [|reflexivity].
    exfalso. apply (H x); [now left | exact E]. }
  rewrite !Hother; [reflexivity | |].
  - intros x Hx E. apply Hnd. apply in_or_app. right. rewrite <- E.
    now apply in_map.
  - intros x Hx E. apply Hnd. apply in_or_app. left. rewrite <- E.
    now apply in_map.
Qed.

End PayrollSequences.

(** X11.  Nothing limits how often a staff member is paid.  Outside edit
    mode, paying a staff member twice in a row puts two payout records
    at the front of the ledger, each of 40% of the weekly pay, and adds
    the held 60% to the balance twice. *)
Theorem processWeeklyPay_twice_pays_twice
    (NumberToString : JS.number -> string) (now1 now2 : Z)
    (s : StaffMember) (st : App.State) :
  App.editingTransaction st = None ->
  let s1 := StaffManager.afterWeeklyPay s in
  let st2 :=
    App.processWeeklyPay NumberToString now2 s1
      (App.processWeeklyPay NumberToString now1 s st) in
  App.transactions st2
  = StaffManager.weeklyPayment NumberToString now2 s1
    :: StaffManager.weeklyPayment NumberToString now1 s
    :: App.transactions st
  /\ Tx.amount (StaffManager.weeklyPayment NumberToString now2 s1)
     = (Staff.weeklyBasePay s * 0.40)%float
  /\ Tx.amount (StaffManager.weeklyPayment NumberToString now1 s)
     = (Staff.weeklyBasePay s * 0.40)%float
  /\ App.staff st2
     = map (fun x =>
              if String.eqb (Staff.id x) (Staff.id s) then
                Staff.withTotalHeldBalance s
                  (Staff.totalHeldBalance s + Staff.weeklyBasePay s * 0.60
                   + Staff.weeklyBasePay s * 0.60)%float
              else x)
         (App.staff st).
Proof.
  intros He s1 st2.
  pose proof (processWeeklyPay_outside_edit_mode NumberToString now1 s st He)
    as [T1 _].
  pose proof (processWeeklyPay_outside_edit_mode NumberToString now2 s1 _
                (editing_processWeeklyPay NumberToString now1 s st))
    as [T2 _].
  split; [|split; [reflexivity|split; [reflexivity|]]].
  - unfold st2. rewrite T2, T1. reflexivity.
  - unfold st2. rewrite !staff_processWeeklyPay.
    change (Staff.id s1) with (Staff.id s).
    apply (replace_replace s); reflexivity.
Qed.

Lemma processWeeklyPay_twice_pays_twice_witness :
  let ravi := Staff.mk "1704160000000" "Ravi" "9876543210" "" "" 1000%float
                0%float "2024-01-02T01:46:40.000Z" in
  let st := {| App.transactions := []; App.staff := [ravi];
               App.editingTransaction := None;
               App.activeTab := App.staffTab |} in
  let st2 :=
    App.processWeeklyPay (fun _ => "") 1704170001000
      (StaffManager.afterWeeklyPay ravi)
      (App.processWeeklyPay (fun _ => "") 1704170000000 ravi st) in
  map Tx.amount (App.transactions st2) = [400%float; 400%float]
  /\ map Staff.totalHeldBalance (App.staff st2) = [1200%float].
Proof.
  intros ravi st st2.
  destruct (processWeeklyPay_twice_pays_twice (fun _ => "") 1704170000000
              1704170001000 ravi st eq_refl) as [T [_ [_ S]]].
  fold st2 in T, S. rewrite T, S. split; vm_compute; reflexivity.
Defined.

Section SettleTwice.
Import App.
Variable NumberToString : JS.number -> string.

Lemma In_unique_id (s x : StaffMember) (before after : list StaffMember) :
  NoDup (map Staff.id (before ++ s :: after)) ->
  In x (before ++ s :: after)%list -> Staff.id x = Staff.id s -> x = s.
Proof.
  intros Hnd Hx E. rewrite map_app in Hnd. cbn [map] in Hnd.
  apply NoDup_remove_2 in Hnd.
  apply in_app_or in Hx. destruct Hx as [Hx|[Hx|Hx]].
  - exfalso. apply Hnd. apply in_or_app. left. rewrite <- E.
    now apply in_map.
  - now symmetry.
  - exfalso. apply Hnd. apply in_or_app. right. rewrite <- E.
    now apply in_map.
Qed.

(** The record of the staff member [s] that the staff list holds after
    a settlement of [s]. *)
Lemma record_after_settlement (history : list Session.Event) (st : State)
    (now : Z) (s s1 : StaffMember) :
  Session.Reachable NumberToString history st ->
  In s (staff st) ->
  In s1 (staff (settleMonthlyHold NumberToString now s st)) ->
  Staff.id s1 = Staff.id s ->
  s1 = if (Staff.totalHeldBalance s <=? 0)%float then s
       else Staff.withTotalHeldBalance s 0%float.
Proof.
  intros Hreach Hs Hs1 Eid.
  destruct (staff_representation NumberToString history st Hreach)
    as [E Hnd].
  assert (Hnd' : NoDup (map Staff.id (staff st)))
    by (rewrite E, map_map; exact Hnd).
  destruct (in_split s (staff st) Hs) as [before [after Hsplit]].
  rewrite staff_settleMonthlyHold in Hs1. rewrite Hsplit in Hnd', Hs1.
  destruct (Staff.totalHeldBalance s <=? 0)%float.
  - now apply (In_unique_id s s1 before after).
  - rewrite replace_one in Hs1 by exact Hnd'.
    apply (In_unique_id (Staff.withTotalHeldBalance s 0%float) s1
             before after); [|exact Hs1 | exact Eid].
    rewrite map_app in Hnd' |- *. exact Hnd'.
Qed.

End SettleTwice.

(** X12.  Settling a staff member twice in a row settles once.  In every
    state of a session, after a settlement of a staff member the staff
    list holds one record under that id, and the settlement of that
    record issues no call at all and leaves the state as the first
    settlement left it.  When the balance was positive, the record left
    by the first settlement has balance 0, and outside edit mode the
    ledger after both settlements holds one new record, the settlement
    of the first. *)
Theorem settleMonthlyHold_twice_settles_once
    (NumberToString : JS.number -> string)
    (history : list Session.Event) (st : App.State) (now1 now2 : Z)
    (s s1 : StaffMember) :
  Session.Reachable NumberToString history st ->
  In s (App.staff st) ->
  let st1 := App.settleMonthlyHold NumberToString now1 s st in
  In s1 (App.staff st1) ->
  Staff.id s1 = Staff.id s ->
  StaffManager.settleMonthlyHold NumberToString now2 s1 = []
  /\ App.settleMonthlyHold NumberToString now2 s1 st1 = st1
  /\ ((0 <? Staff.totalHeldBalance s)%float = true ->
      Staff.totalHeldBalance s1 = 0%float
      /\ (App.editingTransaction st = None ->
          App.transactions (App.settleMonthlyHold NumberToString now2 s1 st1)
          = StaffManager.settlement now1 s :: App.transactions st)).
Proof.
  intros Hreach Hs st1 Hs1 Eid.
  pose proof (record_after_settlement NumberToString history st now1 s s1
                Hreach Hs Hs1 Eid) as E1.
  assert (G : (Staff.totalHeldBalance s1 <=? 0)%float = true).
  { rewrite E1.
    destruct (Staff.totalHeldBalance s <=? 0)%float eqn:G;
      [exact G | reflexivity]. }
  destruct (settleMonthlyHold_zero_balance NumberToString now2 s1 st1 G)
    as [C1 C2].
  split; [exact C1|]. split; [exact C2|].
  intros Hpos. rewrite (ltb_zero_leb _ Hpos) in E1. split.
  - now rewrite E1.
  - intros He. rewrite C2. unfold st1.
    now destruct (settleMonthlyHold_outside_edit_mode NumberToString now1 s
                    st He Hpos) as [T _].
Qed.

Lemma settleMonthlyHold_twice_settles_once_witness :
  let form := {| StaffManager.name := "Ravi";
                 StaffManager.phone := "9876543210";
                 StaffManager.address := "";
                 StaffManager.aadhaar := "";
                 StaffManager.pay := "1000" |} in
  let ravi := StaffManager.registered 1704160000000 form in
  let history := [Session.SelectTab App.staffTab;
                  Session.Register 1704160000000 form;
                  Session.WeeklyPay 1704170000000 ravi;
                  Session.WeeklyPay 1704774800000
                    (Staff.withTotalHeldBalance ravi 600%float)] in
  let st := Session.replay (fun _ => "") history App.initial in
  let s := Staff.withTotalHeldBalance ravi 1200%float in
  let st1 := App.settleMonthlyHold (fun _ => "") 1706500000000 s st in
  let s1 := Staff.withTotalHeldBalance ravi 0%float in
  Session.Reachable (fun _ => "") history st
  /\ In s (App.staff st)
  /\ In s1 (App.staff st1)
  /\ List.length (App.transactions st1) = 3%nat
  /\ App.settleMonthlyHold (fun _ => "") 1706500000001 s1 st1 = st1.
Proof.
  intros form ravi history st s st1 s1.
  assert (Session.Reachable (fun _ => "") history st) as Hreach.
  { replay_session (fun _ : JS.number => "") history. }
  assert (Hs : In s (App.staff st)) by (left; reflexivity).
  assert (Hs1 : In s1 (App.staff st1)) by (left; reflexivity).
  split; [exact Hreach|]. split; [exact Hs|]. split; [exact Hs1|].
  split; [reflexivity|].
  exact (proj1 (proj2 (settleMonthlyHold_twice_settles_once (fun _ => "")
                         history st 1706500000000 1706500000001 s s1
                         Hreach Hs Hs1 eq_refl))).
Defined.

(** X13.  In every state of a session, a payroll action on a staff
    member changes the record of that staff member only: the staff list
    keeps its order and all other records, the weekly payout puts the
    record with the raised balance in the place of the old one, and the
    settlement puts the record with balance 0 there (or leaves the list
    as it is when the balance is not positive). *)
Theorem payroll_changes_one_staff_record
    (NumberToString : JS.number -> string)
    (history : list Session.Event) (st : App.State) (now : Z)
    (s : StaffMember) :
  Session.Reachable NumberToString history st ->
  In s (App.staff st) ->
  exists before after,
    App.staff st = (before ++ s :: after)%list
    /\ App.staff (App.processWeeklyPay NumberToString now s st)
       = (before ++ StaffManager.afterWeeklyPay s :: after)%list
    /\ App.staff (App.settleMonthlyHold NumberToString now s st)
       = (before
          ++ (if (Staff.totalHeldBalance s <=? 0)%float then s
              else Staff.withTotalHeldBalance s 0%float) :: after)%list.
Proof.
  intros Hreach Hs.
  destruct (staff_representation NumberToString history st Hreach)
    as [E Hnd].
  assert (Hnd' : NoDup (map Staff.id (App.staff st)))
    by (rewrite E, map_map; exact Hnd).
  destruct (in_split s (App.staff st) Hs) as [before [after Hsplit]].
  exists before, after. split; [exact Hsplit|].
  rewrite staff_processWeeklyPay, staff_settleMonthlyHold.
  rewrite Hsplit in Hnd' |- *. split.
  - now apply replace_one.
  - destruct (Staff.totalHeldBalance s <=? 0)%float; [reflexivity|].
    now apply replace_one.
Qed.

Lemma payroll_changes_one_staff_record_witness :
  let ravi := {| StaffManager.name := "Ravi";
                 StaffManager.phone := "9876543210";
                 StaffManager.address := "";
                 StaffManager.aadhaar := "";
                 StaffManager.pay := "1000" |} in
  let devi := {| StaffManager.name := "Devi";
                 StaffManager.phone := "9876500000";
                 StaffManager.address := "";
                 StaffManager.aadhaar := "";
                 StaffManager.pay := "800" |} in
  let history := [Session.SelectTab App.staffTab;
                  Session.Register 1704160000000 ravi;
                  Session.Register 1704160005000 devi] in
  let st := Session.replay (fun _ => "") history App.initial in
  let s := StaffManager.registered 1704160005000 devi in
  Session.Reachable (fun _ => "") history st
  /\ In s (App.staff st)
  /\ exists before after,
       App.staff st = (before ++ s :: after)%list
       /\ App.staff (App.processWeeklyPay (fun _ => "") 1704170000000 s st)
          = (before ++ StaffManager.afterWeeklyPay s :: after)%list.
Proof.
  intros ravi devi history st s.
  assert (Session.Reachable (fun _ => "") history st) as Hreach.
  { apply (Reachable_replay (fun _ => "") [] history App.initial);
      [apply Session.Reachable_initial|].
    vm_compute. intuition discriminate. }
  assert (Hs : In s (App.staff st)) by (right; left; reflexivity).
  split; [exact Hreach|]. split; [exact Hs|].
  destruct (payroll_changes_one_staff_record (fun _ => "") history st
              1704170000000 s Hreach Hs) as [before [after [E1 [E2 _]]]].
  exists before, after. split; [exact E1 | exact E2].
Defined.

(** X14.  In every state of a session, outside edit mode, settling a
    staff member with a positive balance puts one record at the front of
    the ledger, a [Staff - Month End] expense linked to the staff member
    whose amount is the whole escrow built up by the payroll actions of
    the session on that staff member; the escrow is empty afterwards. *)
Theorem settlement_pays_out_the_escrow
    (NumberToString : JS.number -> string)
    (history : list Session.Event) (st : App.State) (now : Z)
    (s : StaffMember) :
  Session.Reachable NumberToString history st ->
  In s (App.staff st) ->
  App.editingTransaction st = None ->
  (0 <? Staff.totalHeldBalance s)%float = true ->
  let t := StaffManager.settlement now s in
  App.transactions (App.settleMonthlyHold NumberToString now s st)
  = t :: App.transactions st
  /\ Tx.amount t = Session.escrow (Staff.id s) history
  /\ Tx.type t = EXPENSE
  /\ Tx.category t = "Staff - Month End"
  /\ Tx.staffId t = Some (Staff.id s)
  /\ Session.escrow (Staff.id s) (history ++ [Session.Settle now s])
     = 0%float.
Proof.
  intros Hreach Hs He Hpos t.
  destruct (session_invariant NumberToString history st Hreach)
    as [Hbal _].
  destruct (settleMonthlyHold_outside_edit_mode NumberToString now s st
              He Hpos) as [T _].
  split; [exact T|]. split; [exact (Hbal s Hs)|].
  repeat split.
  rewrite escrow_snoc. cbn [Session.escrowStep].
  rewrite String.eqb_refl, (ltb_zero_leb _ Hpos). reflexivity.
Qed.

Lemma settlement_pays_out_the_escrow_witness :
  let form := {| StaffManager.name := "Ravi";
                 StaffManager.phone := "9876543210";
                 StaffManager.address := "";
                 StaffManager.aadhaar := "";
                 StaffManager.pay := "1000" |} in
  let ravi := StaffManager.registered 1704160000000 form in
  let history := [Session.SelectTab App.staffTab;
                  Session.Register 1704160000000 form;
                  Session.WeeklyPay 1704170000000 ravi;
                  Session.WeeklyPay 1704774800000
                    (Staff.withTotalHeldBalance ravi 600%float)] in
  let st := Session.replay (fun _ => "") history App.initial in
  let s := Staff.withTotalHeldBalance ravi 1200%float in
  Session.Reachable (fun _ => "") history st
  /\ In s (App.staff st)
  /\ (0 <? Staff.totalHeldBalance s)%float = true
  /\ Tx.amount (StaffManager.settlement 1706500000000 s)
     = Session.escrow (Staff.id s) history
  /\ Session.escrow (Staff.id s) history = 1200%float.
Proof.
  intros form ravi history st s.
  assert (Session.Reachable (fun _ => "") history st) as Hreach.
  { replay_session (fun _ : JS.number => "") history. }
  assert (Hs : In s (App.staff st)) by (left; reflexivity).
  assert (Hpos : (0 <? Staff.totalHeldBalance s)%float = true)
    by reflexivity.
  split; [exact Hreach|]. split; [exact Hs|]. split; [exact Hpos|].
  split; [|vm_compute; reflexivity].
  exact (proj1 (proj2 (settlement_pays_out_the_escrow (fun _ => "") history
                         st 1706500000000 s Hreach Hs eq_refl Hpos))).
Defined.

(** ** The payment breakdown *)

Section PaymentBreakdown.
Import App.

Lemma PaymentMethod_eqb_spec (a b : PaymentMethod) :
  reflect (a = b) (PaymentMethod_eqb a b).
Proof. destruct a, b; constructor; congruence. Qed.

Lemma methodName_inj (a b : PaymentMethod) :
  methodName a = methodName b -> a = b.
Proof. destruct a, b; cbn; congruence. Qed.

Lemma lookup_assign (k m : PaymentMethod) (v : JS.number) (acc : Counts) :
  lookup m (assign k v acc)
  = if PaymentMethod_eqb k m then Some v else lookup m acc.
Proof.
  induction acc as [|[k' v'] acc IH]; cbn [assign lookup].
  - reflexivity.
  - destruct (PaymentMethod_eqb_spec k' k) as [->|Hk]; cbn [lookup].
    + destruct (PaymentMethod_eqb k m); reflexivity.
    + rewrite IH. destruct (PaymentMethod_eqb_spec k' m) as [->|Hm];
        [|reflexivity].
      destruct (PaymentMethod_eqb_spec k m) as [->|_];
        [contradiction | reflexivity].
Qed.

Lemma keys_assign (k : PaymentMethod) (v : JS.number) (acc : Counts) :
  map fst (assign k v acc)
  = if existsb (PaymentMethod_eqb k) (map fst acc) then map fst acc
    else (map fst acc ++ [k])%list.
Proof.
  induction acc as [|[k' v'] acc IH]; cbn [assign map fst existsb app].
  - reflexivity.
  - destruct (PaymentMethod_eqb_spec k' k) as [->|Hk]; cbn [map fst].
    + destruct (PaymentMethod_eqb_spec k k); [reflexivity | contradiction].
    + destruct (PaymentMethod_eqb_spec k k') as [->|_]; [contradiction|].
      cbn [orb]. rewrite IH.
      destruct (existsb (PaymentMethod_eqb k) (map fst acc)); reflexivity.
Qed.

Lemma existsb_key (k : PaymentMethod) (l : list PaymentMethod) :
  existsb (PaymentMethod_eqb k) l = true <-> In k l.
Proof.
  rewrite existsb_exists. split.
  - intros [x [Hx E]]. now destruct (PaymentMethod_eqb_spec k x) as [->|].
  - intros H. exists k. split; [exact H|].
    now destruct (PaymentMethod_eqb_spec k k).
Qed.

Lemma In_keys_assign (k m : PaymentMethod) (v : JS.number) (acc : Counts) :
  In m (map fst (assign k v acc)) <-> m = k \/ In m (map fst acc).
Proof.
  rewrite keys_assign.
  destruct (existsb (PaymentMethod_eqb k) (map fst acc)) eqn:E.
  - apply existsb_key in E. split; [auto | intros [->|H]; assumption].
  - rewrite in_app_iff. cbn. intuition congruence.
Qed.

Lemma NoDup_keys_assign (k : PaymentMethod) (v : JS.number) (acc : Counts) :
  NoDup (map fst acc) -> NoDup (map fst (assign k v acc)).
Proof.
  intros H. rewrite keys_assign.
  destruct (existsb (PaymentMethod_eqb k) (map fst acc)) eqn:E;
    [exact H|].
  apply NoDup_app; [exact H | repeat constructor; intros [] |].
  intros x Hx [<-|[]].
  apply existsb_key in Hx. congruence.
Qed.

Lemma counts_keys (l : list Transaction) (acc : Counts) :
  NoDup (map fst acc) ->
  NoDup (map fst (fold_left countStep l acc))
  /\ forall m, In m (map fst (fold_left countStep l acc))
               <-> In m (map fst acc)
                   \/ exists t, In t l /\ Tx.type t = INCOME
                                /\ Tx.paymentMethod t = m.
Proof.
  revert acc. induction l as [|t l IH]; intros acc Hnd; cbn [fold_left].
  - split; [exact Hnd|]. intros m. split; [auto|].
    intros [H|[t [[] _]]]. exact H.
  - assert (Hnd' : NoDup (map fst (countStep acc t))).
    { unfold countStep.
      destruct (TransactionType_eqb (Tx.type t) INCOME);
        [now apply NoDup_keys_assign | exact Hnd]. }
    destruct (IH _ Hnd') as [H1 H2]. split; [exact H1|].
    intros m. rewrite H2. unfold countStep.
    destruct (Tx.type t) eqn:Ety; cbn [TransactionType_eqb].
    + rewrite In_keys_assign. split.
      * intros [[->|H]|[u [Hu [Hty Hm]]]].
        -- right. exists t. cbn. auto.
        -- now left.
        -- right. exists u. cbn. auto.
      * intros [H|[u [[<-|Hu] [Hty Hm]]]].
        -- left. now right.
        -- left. left. now symmetry.
        -- right. now exists u.
    + split.
      * intros [H|[u [Hu [Hty Hm]]]]; [now left|].
        right. exists u. cbn. auto.
      * intros [H|[u [[<-|Hu] [Hty Hm]]]]; [now left | congruence |].
        right. now exists u.
Qed.

Lemma counts_lookup (m : PaymentMethod) (l : list Transaction)
    (acc : Counts) :
  lookup m (fold_left countStep l acc)
  = fold_left (fun v t => Some (JS.orZero v + Tx.amount t)%float)
      (filter (incomeBy m) l) (lookup m acc).
Proof.
  revert acc. induction l as [|t l IH]; intros acc; cbn [fold_left filter].
  - reflexivity.
  - rewrite IH. unfold countStep, incomeBy.
    destruct (TransactionType_eqb (Tx.type t) INCOME); cbn [andb];
      [|reflexivity].
    rewrite lookup_assign.
    destruct (PaymentMethod_eqb_spec (Tx.paymentMethod t) m) as [->|_];
      reflexivity.
Qed.

Lemma lookup_In (m : PaymentMethod) (v : JS.number) (acc : Counts) :
  NoDup (map fst acc) ->
  In (m, v) acc <-> lookup m acc = Some v.
Proof.
  induction acc as [|[k w] acc IH]; cbn [map fst lookup In]; intros Hnd.
  - split; [contradiction | discriminate].
  - inversion Hnd as [|? ? Hk Hnd']; subst.
    destruct (PaymentMethod_eqb_spec k m) as [->|Hkm].
    + split.
      * intros [[= ->]|H]; [reflexivity|].
        exfalso. apply Hk. change m with (fst (m, v)). now apply in_map.
      * intros [= ->]. now left.
    + rewrite <- (IH Hnd'). split; [|auto].
      intros [[= -> _]|H]; [contradiction | exact H].
Qed.

Lemma In_paymentData (m : PaymentMethod) (v : JS.number)
    (l : list Transaction) :
  In {| Slice.name := methodName m; Slice.value := v |} (paymentData l)
  <-> In (m, v) (counts l).
Proof.
  unfold paymentData. rewrite in_map_iff. split.
  - intros [[k w] [E H]]. injection E as E ->.
    apply methodName_inj in E. now subst.
  - intros H. now exists (m, v).
Qed.

Lemma names_paymentData (l : list Transaction) :
  map Slice.name (paymentData l) = map methodName (map fst (counts l)).
Proof.
  unfold paymentData. rewrite !map_map. apply map_ext. now intros [k v].
Qed.

End PaymentBreakdown.

(** X15.  The payment breakdown has one entry for each payment method
    by which some INCOME transaction of the ledger was paid, and no
    other: the names of the entries are pairwise distinct, a method has
    an entry if and only if the ledger holds an INCOME transaction paid
    by it, there are at most four entries, and a ledger of expenses only
    gives the empty breakdown. *)
Theorem paymentData_lists_the_methods_of_the_income
    (transactions : list Transaction) :
  NoDup (map App.Slice.name (App.paymentData transactions))
  /\ (forall m : PaymentMethod,
        In (methodName m)
           (map App.Slice.name (App.paymentData transactions))
        <-> exists t, In t transactions /\ Tx.type t = INCOME
                      /\ Tx.paymentMethod t = m)
  /\ (List.length (App.paymentData transactions) <= 4)%nat
  /\ ((forall t, In t transactions -> Tx.type t = EXPENSE) ->
      App.paymentData transactions = []).
Proof.
  destruct (counts_keys transactions [] (NoDup_nil _)) as [Hnd Hin].
  fold (App.counts transactions) in Hnd, Hin.
  assert (Hmem : forall m,
             In (methodName m)
                (map App.Slice.name (App.paymentData transactions))
             <-> exists t, In t transactions /\ Tx.type t = INCOME
                           /\ Tx.paymentMethod t = m).
  { intros m. rewrite names_paymentData, in_map_iff. split.
    - intros [k [E Hk]]. apply methodName_inj in E. subst k.
      apply Hin in Hk. destruct Hk as [[]|Hk]. exact Hk.
    - intros H. exists m. split; [reflexivity|]. apply Hin. now right. }
  split; [|split; [exact Hmem|split]].
  - rewrite names_paymentData.
    apply Finite.Injective_map_NoDup; [|exact Hnd].
    intros a b. apply methodName_inj.
  - unfold App.paymentData. rewrite length_map.
    rewrite <- (length_map fst).
    apply (NoDup_incl_length (l' := [CASH; GPAY; PHONEPE; OTHER]) Hnd).
    intros []; cbn; auto.
  - intros Hexp.
    assert (Hk : forall k, ~ In k (map fst (App.counts transactions))).
    { intros k Hk. apply Hin in Hk. destruct Hk as [[]|[t [Ht [Hty _]]]].
      rewrite (Hexp t Ht) in Hty. discriminate. }
    unfold App.paymentData.
    destruct (App.counts transactions) as [|[k v] c]; [reflexivity|].
    exfalso. apply (Hk k). now left.
Qed.

(** X16.  The value of the entry of a payment method depends on the
    INCOME transactions paid by that method only: it is the result of
    adding their amounts in ledger order, where a running value that is
    [NaN] or zero counts as 0 before each addition (the [|| 0] of the
    reduction).  Expenses and the income of other methods do not enter
    it. *)
Theorem paymentData_value_of_a_method (transactions : list Transaction)
    (m : PaymentMethod) (v : JS.number) :
  In {| App.Slice.name := methodName m; App.Slice.value := v |}
     (App.paymentData transactions)
  <-> fold_left (fun acc t => Some (JS.orZero acc + Tx.amount t)%float)
        (filter (App.incomeBy m) transactions) None
      = Some v.
Proof.
  rewrite In_paymentData.
  destruct (counts_keys transactions [] (NoDup_nil _)) as [Hnd _].
  rewrite (lookup_In m v _ Hnd).
  unfold App.counts.
  rewrite (counts_lookup m transactions []). reflexivity.
Qed.

(** ** The payment breakdown of whole amounts *)

Section WholeBreakdown.
Import App.

Lemma truthy_ofInteger (p : positive) :
  Z.pos p < 2 ^ 53 -> JS.truthy (JS.ofInteger (Z.pos p)) = true.
Proof.
  intros Hp. unfold JS.truthy, PrimFloat.is_nan.
  rewrite !FloatAxioms.eqb_spec, zero_spec.
  rewrite Prim2SF_ofInteger by lia.
  rewrite binary_normalize_int by (apply digits2_le_53; exact Hp).
  unfold JS.normalInteger, SFeqb, SFcompare.
  rewrite Z.compare_refl, Pos.compare_cont_refl. reflexivity.
Qed.

Lemma orZero_ofInteger (z : Z) :
  0 <= z < 2 ^ 53 -> JS.orZero (Some (JS.ofInteger z)) = JS.ofInteger z.
Proof.
  intros Hz. destruct z as [|p|p]; [reflexivity| |lia].
  unfold JS.orZero. rewrite truthy_ofInteger; [reflexivity | lia].
Qed.

Lemma sum_nonneg (n : Transaction -> Z) (l : list Transaction) :
  (forall t, In t l -> 0 <= n t) -> 0 <= fold_right Z.add 0 (map n l).
Proof.
  induction l as [|t l IH]; intros H; cbn [map fold_right]; [lia|].
  assert (0 <= n t) by (apply H; now left).
  assert (0 <= fold_right Z.add 0 (map n l)); [|lia].
  apply IH. intros u Hu. apply H. now right.
Qed.

Lemma running_whole (n : Transaction -> Z) (l : list Transaction) (z : Z) :
  0 <= z ->
  (forall t, In t l -> 0 <= n t /\ Tx.amount t = JS.ofInteger (n t)) ->
  z + fold_right Z.add 0 (map n l) < 2 ^ 53 ->
  fold_left (fun v t => Some (JS.orZero v + Tx.amount t)%float) l
    (Some (JS.ofInteger z))
  = Some (JS.ofInteger (z + fold_right Z.add 0 (map n l))).
Proof.
  revert z. induction l as [|t l IH]; intros z Hz Hl Hsum.
  - cbn. now rewrite Z.add_0_r.
  - cbn [map fold_right fold_left] in *.
    destruct (Hl t (or_introl eq_refl)) as [Ht Ea].
    assert (0 <= fold_right Z.add 0 (map n l)) as Hrest.
    { apply sum_nonneg. intros u Hu. apply Hl. now right. }
    rewrite Ea, orZero_ofInteger by lia.
    rewrite ofInteger_add by lia.
    rewrite IH; [f_equal; f_equal; lia | lia | | lia].
    intros u Hu. apply Hl. now right.
Qed.

Lemma first_whole (n : Transaction -> Z) (l : list Transaction) :
  l <> [] ->
  (forall t, In t l -> 0 <= n t /\ Tx.amount t = JS.ofInteger (n t)) ->
  fold_right Z.add 0 (map n l) < 2 ^ 53 ->
  fold_left (fun v t => Some (JS.orZero v + Tx.amount t)%float) l None
  = Some (JS.ofInteger (fold_right Z.add 0 (map n l))).
Proof.
  destruct l as [|t l]; [congruence|]. intros _ Hl Hsum.
  cbn [map fold_right fold_left] in *.
  destruct (Hl t (or_introl eq_refl)) as [Ht Ea].
  assert (0 <= fold_right Z.add 0 (map n l)) as Hrest.
  { apply sum_nonneg. intros u Hu. apply Hl. now right. }
  rewrite Ea. cbn [JS.orZero]. change 0%float with (JS.ofInteger 0).
  rewrite ofInteger_add by lia. cbn [Z.add].
  apply running_whole; [lia | | lia].
  intros u Hu. apply Hl. now right.
Qed.

Lemma entries_of_keys (f : PaymentMethod -> JS.number) (acc : Counts) :
  (forall k v, In (k, v) acc -> v = f k) ->
  acc = map (fun k => (k, f k)) (map fst acc).
Proof.
  induction acc as [|[k v] acc IH]; intros H; [reflexivity|].
  cbn [map fst]. rewrite (H k v (or_introl eq_refl)). f_equal.
  apply IH. intros k' v' Hin. apply H. now right.
Qed.

Lemma sum_indicator (m : PaymentMethod) (x : Z) (ks : list PaymentMethod) :
  NoDup ks -> In m ks ->
  fold_right Z.add 0
    (map (fun k => if PaymentMethod_eqb m k then x else 0) ks) = x.
Proof.
  induction ks as [|k ks IH]; intros Hnd Hin; [contradiction|].
  inversion Hnd as [|? ? Hk Hnd']; subst. cbn [map fold_right].
  assert (Hzero : forall l, ~ In m l ->
            fold_right Z.add 0
              (map (fun k => if PaymentMethod_eqb m k then x else 0) l) = 0).
  { induction l as [|a l IHl]; intros Hm; [reflexivity|]. cbn [map fold_right].
    rewrite IHl by (intros H; apply Hm; now right).
    destruct (PaymentMethod_eqb_spec m a) as [->|_]; [|reflexivity].
    exfalso. apply Hm. now left. }
  destruct (PaymentMethod_eqb_spec m k) as [->|Hmk].
  - rewrite Hzero by exact Hk. lia.
  - rewrite IH; [lia | exact Hnd' |]. destruct Hin; congruence.
Qed.

Lemma sum_by_method (n : Transaction -> Z) (ks : list PaymentMethod)
    (l : list Transaction) :
  NoDup ks ->
  (forall t, In t l -> Tx.type t = INCOME -> In (Tx.paymentMethod t) ks) ->
  fold_right Z.add 0
    (map (fun k => fold_right Z.add 0 (map n (filter (incomeBy k) l))) ks)
  = fold_right Z.add 0 (map n (ofType INCOME l)).
Proof.
  intros Hnd. induction l as [|t l IH]; intros Hin.
  - cbn. clear. induction ks; cbn; lia.
  - assert (IH' := IH (fun u Hu => Hin u (or_intror Hu))). clear IH.
    unfold ofType in *. cbn [filter]. unfold incomeBy at 1.
    destruct (Tx.type t) eqn:Ety; cbn [TransactionType_eqb andb].
    + cbn [map fold_right]. rewrite <- IH'.
      rewrite <- (sum_indicator (Tx.paymentMethod t) (n t) ks Hnd)
        at 1 by (apply (Hin t); [now left | exact Ety]).
      clear. induction ks as [|k ks IHk]; [reflexivity|].
      cbn [map fold_right]. rewrite IHk.
      destruct (PaymentMethod_eqb (Tx.paymentMethod t) k);
        cbn [map fold_right]; lia.
    + exact IH'.
Qed.

Lemma sum_filter_le (n : Transaction -> Z) (f : Transaction -> bool)
    (l : list Transaction) :
  (forall t, In t l -> 0 <= n t) ->
  fold_right Z.add 0 (map n (filter f l)) <= fold_right Z.add 0 (map n l).
Proof.
  induction l as [|t l IH]; intros H; cbn [filter map fold_right]; [lia|].
  assert (0 <= n t) by (apply H; now left).
  assert (fold_right Z.add 0 (map n (filter f l))
          <= fold_right Z.add 0 (map n l))
    by (apply IH; intros u Hu; apply H; now right).
  destruct (f t); cbn [map fold_right]; lia.
Qed.

Lemma incomeBy_ofType (m : PaymentMethod) (l : list Transaction) :
  filter (incomeBy m) l
  = filter (fun t => PaymentMethod_eqb (Tx.paymentMethod t) m)
      (ofType INCOME l).
Proof.
  unfold ofType, incomeBy. induction l as [|t l IH]; [reflexivity|].
  cbn [filter]. destruct (TransactionType_eqb (Tx.type t) INCOME);
    cbn [andb filter]; now rewrite IH.
Qed.

End WholeBreakdown.

(** X17.  For a ledger whose INCOME amounts are non-negative whole
    numbers with a total below 2^53, the breakdown is exact: the entry of
    each method is the sum of the INCOME amounts paid by that method, the
    entries add up to the total income, and that total is the income
    figure of the dashboard. *)
Theorem paymentData_of_whole_amounts (n : Transaction -> Z)
    (transactions : list Transaction) :
  (forall t, In t transactions -> Tx.type t = INCOME ->
     0 <= n t /\ Tx.amount t = JS.ofInteger (n t)) ->
  fold_right Z.add 0 (map n (App.ofType INCOME transactions)) < 2 ^ 53 ->
  let byMethod := fun m : PaymentMethod =>
    fold_right Z.add 0 (map n (filter (App.incomeBy m) transactions)) in
  let methods := map fst (App.counts transactions) in
  App.paymentData transactions
  = map (fun m => {| App.Slice.name := methodName m;
                     App.Slice.value := JS.ofInteger (byMethod m) |})
      methods
  /\ fold_right Z.add 0 (map byMethod methods)
     = fold_right Z.add 0 (map n (App.ofType INCOME transactions))
  /\ App.income (App.totals transactions)
     = JS.ofInteger
         (fold_right Z.add 0 (map n (App.ofType INCOME transactions))).
Proof.
  intros Hl Hsum byMethod methods.
  destruct (counts_keys transactions [] (NoDup_nil _)) as [Hnd Hin].
  fold (App.counts transactions) in Hnd, Hin. fold methods in Hnd, Hin.
  assert (Hinc : forall t, In t (App.ofType INCOME transactions) ->
                           0 <= n t /\ Tx.amount t = JS.ofInteger (n t)).
  { intros t Ht. unfold App.ofType in Ht. apply filter_In in Ht.
    destruct Ht as [Ht Hty]. apply Hl; [exact Ht|].
    now destruct (Tx.type t). }
  split; [|split].
  - unfold App.paymentData.
    rewrite (entries_of_keys (fun m => JS.ofInteger (byMethod m))
               (App.counts transactions)) at 1.
    + fold methods. rewrite map_map. reflexivity.
    + intros k v Hkv. apply (lookup_In k v _ Hnd) in Hkv.
      unfold App.counts in Hkv.
      rewrite (counts_lookup k transactions []) in Hkv.
      cbn [App.lookup] in Hkv.
      assert (Hk : In k methods).
      { unfold methods.
        assert (In (k, v) (App.counts transactions)) as Hkv'.
        { apply (lookup_In k v _ Hnd). unfold App.counts.
          now rewrite (counts_lookup k transactions []). }
        change k with (fst (k, v)). now apply in_map. }
      apply Hin in Hk. destruct Hk as [[]|[t [Ht [Hty Hm]]]].
      rewrite (first_whole n) in Hkv.
      * now injection Hkv as <-.
      * intros E.
        assert (In t (filter (App.incomeBy k) transactions)) as Hsel.
        { apply filter_In. split; [exact Ht|]. unfold App.incomeBy.
          rewrite Hty, Hm. cbn.
          now destruct (PaymentMethod_eqb_spec k k). }
        rewrite E in Hsel. contradiction.
      * intros u Hu. apply filter_In in Hu. destruct Hu as [Hu Hs].
        apply Hl; [exact Hu|]. unfold App.incomeBy in Hs.
        now destruct (Tx.type u).
      * fold (App.incomeBy k). rewrite incomeBy_ofType.
        eapply Z.le_lt_trans; [|exact Hsum].
        apply sum_filter_le. intros u Hu. now apply Hinc.
  - apply (sum_by_method n methods transactions Hnd).
    intros t Ht Hty. apply Hin. right. now exists t.
  - rewrite totals_split. cbn [App.income]. unfold App.sumAmounts.
    change 0%float with (JS.ofInteger 0).
    rewrite (sum_of_whole_amounts n _ 0); [reflexivity | lia | exact Hinc|].
    lia.
Qed.

Lemma paymentData_of_whole_amounts_witness :
  let tea := Tx.mk "1" "2024-01-02T04:30:00.000Z" 500%float "Tea Sales"
               INCOME CASH None None in
  let milk := Tx.mk "2" "2024-01-02T05:00:00.000Z" 120%float "Milk"
                EXPENSE CASH None None in
  let snacks := Tx.mk "3" "2024-01-02T05:30:00.000Z" 80%float "Snacks"
                  INCOME GPAY None None in
  let tea2 := Tx.mk "4" "2024-01-02T06:30:00.000Z" 250%float "Tea Sales"
                INCOME CASH None None in
  let ledger := [tea2; snacks; milk; tea] in
  let n := fun t : Transaction =>
             if String.eqb (Tx.id t) "1" then 500
             else if String.eqb (Tx.id t) "3" then 80
             else if String.eqb (Tx.id t) "4" then 250 else 120 in
  App.paymentData ledger
  = [App.Slice.mk "CASH" 750%float; App.Slice.mk "GPAY" 80%float]
  /\ App.income (App.totals ledger) = 830%float.
Proof.
  intros tea milk snacks tea2 ledger n.
  assert (Hl : forall t, In t ledger -> Tx.type t = INCOME ->
                 0 <= n t /\ Tx.amount t = JS.ofInteger (n t)).
  { intros t [<-|[<-|[<-|[<-|[]]]]] _; split;
      solve [vm_compute; congruence | vm_compute; reflexivity]. }
  assert (Hsum : fold_right Z.add 0 (map n (App.ofType INCOME ledger))
                 < 2 ^ 53) by (vm_compute; reflexivity).
  destruct (paymentData_of_whole_amounts n ledger Hl Hsum) as [E1 [_ E3]].
  rewrite E1, E3. split; vm_compute; reflexivity.
Defined.

(** ** The exports: splitting and joining lines *)

Section Lines.

Lemma split_cons (c : ascii) (s r : string) :
  ~ In c (list_ascii_of_string s) ->
  JS.split c (s ++ String c r) = s :: JS.split c r.
Proof.
  induction s as [|a s IH]; intros H; cbn [append JS.split].
  - now rewrite Ascii.eqb_refl.
  - assert (a <> c) as Ha by (intros ->; apply H; now left).
    apply Ascii.eqb_neq in Ha. rewrite Ha.
    rewrite IH; [reflexivity|]. intros Hc. apply H. now right.
Qed.

Lemma split_single (c : ascii) (s : string) :
  ~ In c (list_ascii_of_string s) -> JS.split c s = [s].
Proof.
  induction s as [|a s IH]; intros H; cbn [JS.split]; [reflexivity|].
  assert (a <> c) as Ha by (intros ->; apply H; now left).
  apply Ascii.eqb_neq in Ha. rewrite Ha.
  rewrite IH; [reflexivity|]. intros Hc. apply H. now right.
Qed.

Lemma split_join (c : ascii) (l : list string) :
  l <> [] ->
  (forall w, In w l -> ~ In c (list_ascii_of_string w)) ->
  JS.split c (JS.join (String c "") l) = l.
Proof.
  induction l as [|w l IH]; [congruence|]. intros _ H.
  destruct l as [|w' l].
  - cbn [JS.join]. apply split_single. apply H. now left.
  - change (JS.join (String c "") (w :: w' :: l))
      with (w ++ String c (JS.join (String c "") (w' :: l))).
    rewrite split_cons by (apply H; now left).
    f_equal. apply IH; [discriminate|]. intros u Hu. apply H. now right.
Qed.

Lemma append_assoc (a b c : string) : (a ++ b) ++ c = a ++ b ++ c.
Proof.
  induction a as [|x a IH]; cbn [append]; [reflexivity | now rewrite IH].
Qed.

Lemma lines_with_header (header : string) (rows : list string) :
  ~ In JS.LF (list_ascii_of_string header) ->
  (forall w, In w rows -> ~ In JS.LF (list_ascii_of_string w)) ->
  JS.split JS.LF (header ++ JS.lineFeed ++ JS.join JS.lineFeed rows)
  = header :: match rows with [] => [""] | _ => rows end.
Proof.
  intros Hh Hrows. unfold JS.lineFeed. cbn [append].
  rewrite split_cons by exact Hh. f_equal.
  destruct rows as [|w rows]; [reflexivity|].
  apply (split_join JS.LF); [discriminate | exact Hrows].
Qed.

End Lines.

(** X19.  The export of the reports tab has one line per transaction
    under its header line, in ledger order, provided that no row contains
    a line feed; for an empty ledger it is the header line followed by an
    empty line. *)
Theorem exportCsv_has_a_line_per_transaction
    (NumberToString : JS.number -> string)
    (transactions : list Transaction) :
  (forall t, In t transactions ->
     ~ In JS.LF (list_ascii_of_string (App.csvRow NumberToString t))) ->
  JS.split JS.LF (App.exportCsv NumberToString transactions)
  = "Date,Type,Amount,Category,PaymentMethod,Notes"
    :: match transactions with
       | [] => [""]
       | _ => map (App.csvRow NumberToString) transactions
       end.
Proof.
  intros H. unfold App.exportCsv.
  rewrite lines_with_header.
  - now destruct transactions.
  - vm_compute. intuition discriminate.
  - intros w Hw. apply in_map_iff in Hw. destruct Hw as [t [<- Ht]].
    now apply H.
Qed.

Lemma exportCsv_has_a_line_per_transaction_witness :
  let sale := Tx.mk "7" "2024-01-02T04:30:00.000Z" 500%float "Tea Sales"
                INCOME GPAY (Some "morning") None in
  let milk := Tx.mk "8" "2024-01-02T05:30:00.000Z" 90%float "Milk"
                EXPENSE CASH None None in
  let N := fun x : JS.number => if (x =? 500)%float then "500" else "90" in
  JS.split JS.LF (App.exportCsv N [milk; sale])
  = ["Date,Type,Amount,Category,PaymentMethod,Notes";
     "2024-01-02T05:30:00.000Z,EXPENSE,90,Milk,CASH," ++ JS.quote ++ JS.quote;
     "2024-01-02T04:30:00.000Z,INCOME,500,Tea Sales,GPAY,"
     ++ JS.quote ++ "morning" ++ JS.quote].
Proof.
  intros sale milk N.
  rewrite (exportCsv_has_a_line_per_transaction N [milk; sale]).
  - vm_compute. reflexivity.
  - intros t [<-|[<-|[]]]; vm_compute; intuition discriminate.
Defined.

(** X20.  The staff export has one line per staff member under its
    header line, in the order of the staff list, provided that no row
    contains a line feed; for an empty staff list it is the header line
    followed by an empty line. *)
Theorem exportStaffToExcel_has_a_line_per_staff_member
    (NumberToString : JS.number -> string) (staff : list StaffMember) :
  (forall s, In s staff ->
     ~ In JS.LF
         (list_ascii_of_string (StaffManager.staffRow NumberToString s))) ->
  JS.split JS.LF (StaffManager.exportStaffToExcel NumberToString staff)
  = "Name,Phone,Aadhaar,Address,Weekly Pay,Held Balance,Joined Date"
    :: match staff with
       | [] => [""]
       | _ => map (StaffManager.staffRow NumberToString) staff
       end.
Proof.
  intros H. unfold StaffManager.exportStaffToExcel.
  rewrite append_assoc, lines_with_header.
  - now destruct staff.
  - vm_compute. intuition discriminate.
  - intros w Hw. apply in_map_iff in Hw. destruct Hw as [t [<- Ht]].
    now apply H.
Qed.

Lemma exportStaffToExcel_has_a_line_per_staff_member_witness :
  let ravi := Staff.mk "1704160000000" "Ravi" "9876543210" "Main Road" "1234"
                1000%float 600%float "2024-01-02T01:46:40.000Z" in
  let N := fun x : JS.number => if (x =? 1000)%float then "1000" else "600" in
  JS.split JS.LF (StaffManager.exportStaffToExcel N [ravi])
  = ["Name,Phone,Aadhaar,Address,Weekly Pay,Held Balance,Joined Date";
     "Ravi,9876543210,1234," ++ JS.quote ++ "Main Road" ++ JS.quote
     ++ ",1000,600,2024-01-02T01:46:40.000Z"].
Proof.
  intros ravi N.
  rewrite (exportStaffToExcel_has_a_line_per_staff_member N [ravi]).
  - vm_compute. reflexivity.
  - intros t [<-|[]]; vm_compute; intuition discriminate.
Defined.

(** ** The labels of the daily trend *)

Section Labels.
Import JSDate.

Lemma digit_not_dash (x : Z) : digit (x mod 10) <> "-"%char.
Proof.
  intros H. apply (f_equal nat_of_ascii) in H. unfold digit in H.
  assert (0 <= x mod 10 < 10) by (apply Z.mod_pos_bound; lia).
  rewrite nat_ascii_embedding in H by lia. cbn in H. lia.
Qed.

Lemma pad2_no_dash (n : Z) : ~ In "-"%char (list_ascii_of_string (pad2 n)).
Proof.
  unfold pad2. cbn [list_ascii_of_string In].
  intros [H|[H|[]]]; revert H; apply digit_not_dash.
Qed.

Lemma pad4_no_dash (n : Z) : ~ In "-"%char (list_ascii_of_string (pad4 n)).
Proof.
  unfold pad4, pad3, pad2. cbn [list_ascii_of_string In].
  intros [H|[H|[H|[H|[]]]]]; revert H; apply digit_not_dash.
Qed.

Lemma label_of_isoDate (t : Z) :
  fourDigitYear t ->
  JS.join "/" (JS.slice1 (JS.split "-" (isoDate t)))
  = pad2 (MonthFromTime t + 1) ++ "/" ++ pad2 (DateFromTime t).
Proof.
  intros Ht. rewrite isoDate_fourDigit by exact Ht.
  change (pad4 (YearFromTime t) ++ "-" ++ pad2 (MonthFromTime t + 1)
          ++ "-" ++ pad2 (DateFromTime t))
    with (pad4 (YearFromTime t)
          ++ String "-" (pad2 (MonthFromTime t + 1)
                         ++ String "-" (pad2 (DateFromTime t)))).
  rewrite split_cons by apply pad4_no_dash.
  rewrite split_cons by apply pad2_no_dash.
  rewrite split_single by apply pad2_no_dash.
  reflexivity.
Qed.

End Labels.

(** X18.  The labels of the daily trend.  On a device with a fixed
    offset from UTC, and with the clock in the years that the ISO format
    writes with four digits, the seven points are labelled [MM/DD], month
    and day of the UTC calendar day of the point, oldest first; the year
    is not part of the label. *)
Theorem dailyChartData_labels (offset now : Z) (ledger : list Transaction) :
  JSDate.fourDigitYear (now - 6 * JSDate.msPerDay) ->
  JSDate.fourDigitYear now ->
  option_map (map App.Point.date)
    (App.dailyChartData (JSDate.fixedZone offset) now ledger)
  = Some (map (fun i : nat =>
                 let t := (JSDate.Day now - 6 + Z.of_nat i)
                          * JSDate.msPerDay in
                 JSDate.pad2 (JSDate.MonthFromTime t + 1) ++ "/"
                 ++ JSDate.pad2 (JSDate.DateFromTime t))
            (seq 0 7)).
Proof.
  intros Hlo Hhi. unfold App.dailyChartData.
  rewrite (last7Days_fixedZone offset now Hlo Hhi).
  cbn [option_map]. f_equal. rewrite !map_map.
  apply map_ext_in. intros i Hi. apply in_seq in Hi.
  cbn [App.dayPoint App.Point.date]. unfold App.utcDate.
  apply label_of_isoDate. apply bucket_fourDigit; [assumption.. | lia].
Qed.

Lemma dailyChartData_labels_witness :
  option_map (map App.Point.date)
    (App.dailyChartData (JSDate.fixedZone 19800000) 1704169800000 [])
  = Some ["12/27"; "12/28"; "12/29"; "12/30"; "12/31"; "01/01"; "01/02"].
Proof.
  rewrite (dailyChartData_labels 19800000 1704169800000 []).
  - vm_compute. reflexivity.
  - unfold JSDate.fourDigitYear. vm_compute. intuition discriminate.
  - unfold JSDate.fourDigitYear. vm_compute. intuition discriminate.
Defined.

(** ** The figures sent to the advisor *)

Section Advisor.

Lemma summary_from (l : list Transaction) (a : GeminiService.Summary)
    (b : App.Totals) :
  GeminiService.income a = App.income b ->
  GeminiService.expenses a = App.expenses b ->
  let s :=
    fold_left
      (fun acc curr =>
         if String.eqb (typeName (Tx.type curr)) "INCOME" then
           {| GeminiService.income :=
                (GeminiService.income acc + Tx.amount curr)%float;
              GeminiService.expenses := GeminiService.expenses acc |}
         else
           {| GeminiService.income := GeminiService.income acc;
              GeminiService.expenses :=
                (GeminiService.expenses acc + Tx.amount curr)%float |})
      l a in
  let t :=
    fold_left
      (fun acc t =>
         if TransactionType_eqb (Tx.type t) INCOME then
           {| App.income := (App.income acc + Tx.amount t)%float;
              App.expenses := App.expenses acc |}
         else
           {| App.income := App.income acc;
              App.expenses := (App.expenses acc + Tx.amount t)%float |})
      l b in
  GeminiService.income s = App.income t
  /\ GeminiService.expenses s = App.expenses t.
Proof.
  revert a b. induction l as [|x l IH]; intros a b Hi He; cbn [fold_left].
  - now split.
  - apply IH; destruct (Tx.type x); cbn; congruence.
Qed.

Lemma sliceLast_short {A} (n : nat) (l : list A) :
  (List.length l <= n)%nat -> JS.sliceLast n l = l.
Proof.
  intros H. unfold JS.sliceLast.
  replace (List.length l - n)%nat with 0%nat by lia. reflexivity.
Qed.

Lemma sliceLast_cons {A} (n : nat) (x : A) (l : list A) :
  (n <= List.length l)%nat -> JS.sliceLast n (x :: l) = JS.sliceLast n l.
Proof.
  intros H. unfold JS.sliceLast. cbn [List.length].
  replace (S (List.length l) - n)%nat with (S (List.length l - n)) by lia.
  reflexivity.
Qed.

Lemma sliceLast_length {A} (n : nat) (l : list A) :
  (n <= List.length l)%nat -> List.length (JS.sliceLast n l) = n.
Proof.
  intros H. unfold JS.sliceLast. rewrite length_skipn. lia.
Qed.

End Advisor.

(** X21.  The income and expenses that [getBusinessInsights] writes into
    its prompt are the income and expenses of the dashboard, for every
    ledger.  [fetchInsights] asks for no insights when the ledger has
    fewer than three transactions, and passes the whole ledger
    otherwise. *)
Theorem advisor_summary_is_the_dashboard_totals
    (transactions : list Transaction) :
  GeminiService.income (GeminiService.summary transactions)
  = App.income (App.totals transactions)
  /\ GeminiService.expenses (GeminiService.summary transactions)
     = App.expenses (App.totals transactions)
  /\ (App.fetchInsights transactions = None
      <-> (List.length transactions < 3)%nat)
  /\ (App.fetchInsights transactions <> None ->
      App.fetchInsights transactions = Some transactions).
Proof.
  destruct (summary_from transactions
              {| GeminiService.income := 0%float;
                 GeminiService.expenses := 0%float |}
              {| App.income := 0%float; App.expenses := 0%float |}
              eq_refl eq_refl) as [Hi He].
  split; [exact Hi|]. split; [exact He|].
  unfold App.fetchInsights.
  destruct (Nat.ltb_spec (List.length transactions) 3); split.
  - tauto.
  - congruence.
  - split; [discriminate | lia].
  - reflexivity.
Qed.

(** X22.  The transactions that the prompt lists as recent are the last
    five of the ledger, and the ledger grows at the front: they are the
    whole ledger while it has at most five records, and once it has five
    a newly added transaction never changes them, so that they are the
    five oldest records, while the dashboard's recent activity starts
    with the new record. *)
Theorem advisor_recent_transactions_are_the_oldest (t : Transaction)
    (st : App.State) :
  App.editingTransaction st = None ->
  ((List.length (App.transactions st) <= 5)%nat ->
   GeminiService.recentTransactions (App.transactions st)
   = App.transactions st)
  /\ ((5 <= List.length (App.transactions st))%nat ->
      GeminiService.recentTransactions
        (App.transactions (App.addTransaction t st))
      = GeminiService.recentTransactions (App.transactions st)
      /\ List.length
           (GeminiService.recentTransactions (App.transactions st)) = 5%nat
      /\ exists newer,
           App.transactions st
           = (newer
              ++ GeminiService.recentTransactions (App.transactions st))%list)
  /\ App.recentActivity (App.transactions (App.addTransaction t st))
     = t :: firstn 4 (App.transactions st).
Proof.
  intros He. rewrite (addTransaction_new t st He).
  unfold GeminiService.recentTransactions, App.setTransactions,
    App.recentActivity.
  cbn [App.transactions]. split; [|split].
  - apply sliceLast_short.
  - intros H. split; [now apply sliceLast_cons|].
    split; [now apply sliceLast_length|].
    exists (firstn (List.length (App.transactions st) - 5)
              (App.transactions st)).
    unfold JS.sliceLast. symmetry. apply firstn_skipn.
  - reflexivity.
Qed.

Lemma advisor_recent_transactions_are_the_oldest_witness :
  let tx := fun id : string =>
              Tx.mk id "2024-01-02T04:30:00.000Z" 10%float "Tea Sales"
                INCOME CASH None None in
  let st := {| App.transactions := [tx "5"; tx "4"; tx "3"; tx "2"; tx "1"];
               App.staff := []; App.editingTransaction := None;
               App.activeTab := App.dashboard |} in
  GeminiService.recentTransactions
    (App.transactions (App.addTransaction (tx "6") st))
  = [tx "5"; tx "4"; tx "3"; tx "2"; tx "1"]
  /\ App.recentActivity (App.transactions (App.addTransaction (tx "6") st))
     = [tx "6"; tx "5"; tx "4"; tx "3"; tx "2"].
Proof.
  intros tx st.
  destruct (advisor_recent_transactions_are_the_oldest (tx "6") st eq_refl)
    as [_ [H1 H2]].
  split; [|exact H2].
  destruct H1 as [H1 _]; [cbn; lia|]. rewrite H1. reflexivity.
Defined.

(** ** Repeated submissions, and the setup view *)

(** X23.  The same submission twice stores one record.  After a
    submission that passed the guard, the form as it then stands is
    rejected by the guard: when a record was added, the handler has
    cleared the amount and the notes, and kept the type, the category and
    the payment method; when an edit was saved, the edit mode has ended
    and the effect has reset the form.  Submitting it again, at whatever
    time, leaves the state as the first submission left it. *)
Theorem submitting_twice_adds_once (NumberToString : JS.number -> string)
    (firstIncomeCategory : string) (now1 now2 : Z)
    (form : TransactionForm.Local) (st : App.State) :
  JS.falsy (TransactionForm.amount form) = false ->
  JS.isNaN (JS.Number (TransactionForm.amount form)) = false ->
  let st1 := App.handleSubmit now1 form st in
  let left :=
    snd (TransactionForm.handleSubmit now1 (App.editingTransaction st) form)
  in
  let reset :=
    TransactionForm.sync NumberToString firstIncomeCategory
      (App.editingTransaction st1) in
  (App.editingTransaction st = None ->
   App.transactions st1
   = TransactionForm.transactionData now1 None form :: App.transactions st
   /\ TransactionForm.amount left = ""
   /\ TransactionForm.notes left = ""
   /\ TransactionForm.type left = TransactionForm.type form
   /\ TransactionForm.category left = TransactionForm.category form
   /\ TransactionForm.paymentMethod left = TransactionForm.paymentMethod form
   /\ App.handleSubmit now2 left st1 = st1)
  /\ (App.editingTransaction st <> None ->
      TransactionForm.amount reset = ""
      /\ App.handleSubmit now2 reset st1 = st1).
Proof.
  intros H1 H2 st1 left reset.
  assert (E1 : st1 = App.addTransaction
                       (TransactionForm.transactionData now1
                          (App.editingTransaction st) form) st).
  { unfold st1, App.handleSubmit.
    now rewrite (handleSubmit_accepts now1 _ form H1 H2). }
  assert (Hleft : left
                  = match App.editingTransaction st with
                    | Some _ => form
                    | None =>
                        {| TransactionForm.type := TransactionForm.type form;
                           TransactionForm.amount := "";
                           TransactionForm.category :=
                             TransactionForm.category form;
                           TransactionForm.paymentMethod :=
                             TransactionForm.paymentMethod form;
                           TransactionForm.notes := "" |}
                    end).
  { unfold left, TransactionForm.handleSubmit. now rewrite H1, H2. }
  assert (Hrej : forall f, TransactionForm.amount f = "" ->
                           App.handleSubmit now2 f st1 = st1).
  { intros f Hf. unfold App.handleSubmit.
    rewrite handleSubmit_rejects; [reflexivity|]. left. now rewrite Hf. }
  split.
  - intros He. rewrite He in Hleft, E1. rewrite Hleft.
    split; [now rewrite E1, (addTransaction_new _ st He)|].
    repeat split; try reflexivity; now apply Hrej.
  - intros He.
    assert (Hnone : App.editingTransaction st1 = None).
    { rewrite E1. unfold App.addTransaction.
      destruct (App.editingTransaction st); [reflexivity | congruence]. }
    unfold reset. rewrite Hnone. split; [reflexivity|]. now apply Hrej.
Qed.

Lemma submitting_twice_adds_once_witness :
  let form := {| TransactionForm.type := INCOME;
                 TransactionForm.amount := "500";
                 TransactionForm.category := "Tea Sales";
                 TransactionForm.paymentMethod := GPAY;
                 TransactionForm.notes := "morning" |} in
  let left := {| TransactionForm.type := INCOME;
                 TransactionForm.amount := "";
                 TransactionForm.category := "Tea Sales";
                 TransactionForm.paymentMethod := GPAY;
                 TransactionForm.notes := "" |} in
  let st1 := App.handleSubmit 1704169800000 form App.initial in
  List.length (App.transactions st1) = 1%nat
  /\ App.handleSubmit 1704169800001 left st1 = st1.
Proof.
  intros form left st1. split; [reflexivity|].
  assert (H2 : JS.isNaN (JS.Number (TransactionForm.amount form)) = false)
    by (vm_compute; reflexivity).
  destruct (submitting_twice_adds_once (fun _ => "") "Tea Sales"
              1704169800000 1704169800001 form App.initial eq_refl H2)
    as [H _].
  destruct (H eq_refl) as [_ [_ [_ [_ [_ [_ E]]]]]]. exact E.
Defined.

(** X24.  The same registration twice adds one staff member.  After a
    registration that passed the guard the staff list has the new record
    at its end, and the form is closed and blank: submitting it again
    raises the alert and leaves the state as it was. *)
Theorem registering_twice_adds_once (now1 now2 : Z)
    (form : StaffManager.NewStaff) (st : App.State) :
  JS.falsy (StaffManager.name form) = false ->
  JS.falsy (StaffManager.phone form) = false ->
  JS.falsy (StaffManager.pay form) = false ->
  let st1 := App.handleAddStaff now1 form st in
  let left :=
    snd (StaffManager.handleAddStaff now1
           {| StaffManager.showAddForm := true;
              StaffManager.newStaff := form |}) in
  App.staff st1 = (App.staff st ++ [StaffManager.registered now1 form])%list
  /\ StaffManager.showAddForm left = false
  /\ StaffManager.newStaff left = StaffManager.blank
  /\ fst (StaffManager.handleAddStaff now2 left)
     = [StaffManager.alert "Please fill in at least Name, Phone, and Salary"]
  /\ App.handleAddStaff now2 (StaffManager.newStaff left) st1 = st1.
Proof.
  intros Hn Hp Hy st1 left.
  assert (Hleft : left = {| StaffManager.showAddForm := false;
                            StaffManager.newStaff := StaffManager.blank |}).
  { unfold left, StaffManager.handleAddStaff. cbn [StaffManager.newStaff].
    now rewrite Hn, Hp, Hy. }
  split.
  - unfold st1, App.handleAddStaff, StaffManager.handleAddStaff.
    cbn [StaffManager.newStaff]. now rewrite Hn, Hp, Hy.
  - rewrite Hleft. repeat split.
Qed.

Lemma registering_twice_adds_once_witness :
  let ravi := {| StaffManager.name := "Ravi";
                 StaffManager.phone := "9876543210";
                 StaffManager.address := "";
                 StaffManager.aadhaar := "";
                 StaffManager.pay := "1000" |} in
  let st1 := App.handleAddStaff 1704160000000 ravi App.initial in
  List.length (App.staff st1) = 1%nat
  /\ App.handleAddStaff 1704160000001 StaffManager.blank st1 = st1.
Proof.
  intros ravi st1. split; [reflexivity|].
  exact (proj2 (proj2 (proj2 (proj2
           (registering_twice_adds_once 1704160000000 1704160000001 ravi
              App.initial eq_refl eq_refl eq_refl))))).
Defined.

(** X25.  The setup is completed exactly when the shop name and the
    address are both filled in.  Otherwise the alert is raised and the
    profile stays as it was.  On completion the profile holds the name
    and the address as entered, keeps its name and e-mail, stores an empty
    photo as no photo, and is configured, so that the application shows
    its tabs; resetting the configuration brings the setup view back, and
    completing the setup again with the same entries gives the same
    profile. *)
Theorem handleComplete_guard (v : App.Setup) (user : App.UserProfile) :
  (JS.falsy (App.shopName v) = true \/ JS.falsy (App.shopAddress v) = true ->
   App.handleComplete v user
   = (Some "Shop name and address required.", user))
  /\ (JS.falsy (App.shopName v) = false ->
      JS.falsy (App.shopAddress v) = false ->
      let user' := snd (App.handleComplete v user) in
      fst (App.handleComplete v user) = None
      /\ App.showsSetup user' = false
      /\ App.User.businessName user' = App.shopName v
      /\ App.User.businessAddress user' = App.shopAddress v
      /\ App.User.name user' = App.User.name user
      /\ App.User.email user' = App.User.email user
      /\ (App.image v = Some "" -> App.User.shopImage user' = None)
      /\ App.showsSetup (App.resetConfiguration true user') = true
      /\ App.resetConfiguration false user' = user'
      /\ App.handleComplete v (App.resetConfiguration true user')
         = (None, user')).
Proof.
  unfold App.handleComplete. split.
  - intros [H|H]; rewrite H; [reflexivity | now rewrite orb_true_r].
  - intros H1 H2. rewrite H1, H2. cbn.
    repeat split. intros ->. reflexivity.
Qed.

Lemma handleComplete_guard_witness :
  let nameless := {| App.shopName := ""; App.shopAddress := "Main Road";
                     App.location := None; App.image := None |} in
  let stall := {| App.shopName := "Moonlight Tea Corner";
                  App.shopAddress := "Main Road";
                  App.location := Some (17.385, 78.4867)%float;
                  App.image := None |} in
  App.handleComplete nameless App.initialUser
  = (Some "Shop name and address required.", App.initialUser)
  /\ App.showsSetup (snd (App.handleComplete stall App.initialUser)) = false.
Proof.
  intros nameless stall.
  destruct (handleComplete_guard nameless App.initialUser) as [H _].
  destruct (handleComplete_guard stall App.initialUser) as [_ G].
  split; [apply H; left; reflexivity|].
  exact (proj1 (proj2 (G eq_refl eq_refl))).
Defined.

(** ** Where the records of the ledger come from *)

Section Provenance.
Import App.
Variable NumberToString : JS.number -> string.




End Provenance.



(** ** The daily trend and the totals *)

Section TrendTotals.
Import App.

Lemma sum_partition {K : Type} (sel : K -> Transaction -> bool)
    (n : Transaction -> Z) (ks : list K) (l : list Transaction) :
  (forall t, In t l ->
     List.length (filter (fun k => sel k t) ks) = 1%nat) ->
  fold_right Z.add 0
    (map (fun k => fold_right Z.add 0 (map n (filter (sel k) l))) ks)
  = fold_right Z.add 0 (map n l).
Proof.
  induction l as [|t l IH]; intros H.
  - cbn. clear. induction ks; cbn; lia.
  - assert (IH' := IH (fun u Hu => H u (or_intror Hu))). clear IH.
    assert (Hone := H t (or_introl eq_refl)).
    assert (Hsum : forall ks',
               fold_right Z.add 0
                 (map (fun k => fold_right Z.add 0
                                  (map n (filter (sel k) (t :: l)))) ks')
               = Z.of_nat (List.length (filter (fun k => sel k t) ks'))
                 * n t
                 + fold_right Z.add 0
                     (map (fun k => fold_right Z.add 0
                                      (map n (filter (sel k) l))) ks')).
    { clear. induction ks' as [|k ks' IHk]; [reflexivity|].
      cbn [map fold_right]. rewrite IHk. cbn [filter].
      destruct (sel k t); cbn [map fold_right List.length]; lia. }
    rewrite Hsum, Hone, IH'. cbn [map fold_right]. lia.
Qed.

Lemma filter_unique {K : Type} (f : K -> bool) (j : K) (ks : list K) :
  NoDup ks -> In j ks ->
  (forall k, In k ks -> f k = true <-> k = j) ->
  List.length (filter f ks) = 1%nat.
Proof.
  induction ks as [|k ks IH]; intros Hnd Hin Hf; [contradiction|].
  inversion Hnd as [|? ? Hk Hnd']; subst. cbn [filter].
  assert (Hnone : forall l, ~ In j l ->
            (forall x, In x l -> f x = true <-> x = j) -> filter f l = []).
  { induction l as [|x l IHl]; intros Hj Hl; [reflexivity|]. cbn [filter].
    destruct (f x) eqn:E.
    - apply (Hl x (or_introl eq_refl)) in E. subst. exfalso. apply Hj.
      now left.
    - apply IHl; [intros Hx; apply Hj; now right|].
      intros y Hy. apply Hl. now right. }
  destruct (f k) eqn:E.
  - apply (Hf k (or_introl eq_refl)) in E. subst k.
    rewrite Hnone; [reflexivity | exact Hk |].
    intros x Hx. apply Hf. now right.
  - destruct Hin as [->|Hin].
    + assert (f j = true) by (apply (Hf j (or_introl eq_refl)); reflexivity).
      congruence.
    + apply IH; [exact Hnd' | exact Hin |]. intros x Hx. apply Hf.
      now right.
Qed.

Lemma ofType_filter (ty : TransactionType) (p : Transaction -> bool)
    (l : list Transaction) :
  ofType ty (filter p l) = filter p (ofType ty l).
Proof.
  unfold ofType. induction l as [|t l IH]; [reflexivity|]. cbn [filter].
  destruct (p t) eqn:Ep, (TransactionType_eqb (Tx.type t) ty) eqn:Et;
    cbn [filter]; rewrite ?Ep, ?Et, IH; reflexivity.
Qed.

Lemma sum_filter_bound (n : Transaction -> Z) (f : Transaction -> bool)
    (l : list Transaction) :
  (forall t, In t l -> 0 <= n t) ->
  0 <= fold_right Z.add 0 (map n (filter f l))
    <= fold_right Z.add 0 (map n l).
Proof.
  induction l as [|t l IH]; intros H; cbn [filter map fold_right]; [lia|].
  assert (0 <= n t) by (apply H; now left).
  assert (0 <= fold_right Z.add 0 (map n (filter f l))
            <= fold_right Z.add 0 (map n l))
    by (apply IH; intros u Hu; apply H; now right).
  destruct (f t); cbn [map fold_right]; lia.
Qed.

Lemma sumAmounts_whole (n : Transaction -> Z) (l : list Transaction) :
  (forall t, In t l -> 0 <= n t /\ Tx.amount t = JS.ofInteger (n t)) ->
  fold_right Z.add 0 (map n l) < 2 ^ 53 ->
  sumAmounts l = JS.ofInteger (fold_right Z.add 0 (map n l)).
Proof.
  intros Hl Hsum. unfold sumAmounts. change 0%float with (JS.ofInteger 0).
  rewrite (sum_of_whole_amounts n l 0); [reflexivity | lia | exact Hl | lia].
Qed.

(** The transactions of the type [ty] that the bucket of the day number
    [d] counts. *)
Lemma bucket_sums (ty : TransactionType) (now : Z)
    (ledger : list Transaction) (n u : Transaction -> Z) :
  JSDate.fourDigitYear (now - 6 * JSDate.msPerDay) ->
  JSDate.fourDigitYear now ->
  (forall t, In t ledger ->
     Tx.date t = JSDate.toISOString (u t) /\ JSDate.fourDigitYear (u t)
     /\ JSDate.Day now - 6 <= JSDate.Day (u t) <= JSDate.Day now) ->
  (forall t, In t ledger -> 0 <= n t /\ Tx.amount t = JS.ofInteger (n t)) ->
  fold_right Z.add 0 (map n ledger) < 2 ^ 53 ->
  let day := fun i : nat => JSDate.Day now - 6 + Z.of_nat i in
  let count := fun i : nat =>
    fold_right Z.add 0
      (map n (ofType ty
                (filter (fun t => JS.startsWith (Tx.date t) (utcDate (day i)))
                   ledger))) in
  (forall i, (i < 7)%nat ->
     sumAmounts
       (ofType ty
          (filter (fun t => JS.startsWith (Tx.date t) (utcDate (day i)))
             ledger))
     = JS.ofInteger (count i))
  /\ fold_right Z.add 0 (map count (seq 0 7))
     = fold_right Z.add 0 (map n (ofType ty ledger))
  /\ sumAmounts (ofType ty ledger)
     = JS.ofInteger (fold_right Z.add 0 (map n (ofType ty ledger))).
Proof.
  intros Hlo Hhi Hdate Hwhole Hsum day count.
  assert (Hn : forall t, In t ledger -> 0 <= n t)
    by (intros t Ht; now apply Hwhole).
  assert (Hty : fold_right Z.add 0 (map n (ofType ty ledger)) < 2 ^ 53).
  { pose proof (sum_filter_bound n
                  (fun t => TransactionType_eqb (Tx.type t) ty) ledger Hn).
    unfold ofType. lia. }
  assert (Hin : forall t, In t (ofType ty ledger) -> In t ledger).
  { intros t Ht. unfold ofType in Ht. now apply filter_In in Ht. }
  split; [|split].
  - intros i Hi. apply sumAmounts_whole.
    + intros t Ht. apply Hwhole. unfold ofType in Ht.
      apply filter_In in Ht. destruct Ht as [Ht _].
      now apply filter_In in Ht.
    + unfold count in *. rewrite ofType_filter.
      pose proof (sum_filter_bound n
                    (fun t => JS.startsWith (Tx.date t) (utcDate (day i)))
                    (ofType ty ledger)
                    (fun t Ht => Hn t (Hin t Ht))).
      lia.
  - unfold count.
    rewrite (map_ext _
               (fun i => fold_right Z.add 0
                  (map n (filter
                            (fun t => JS.startsWith (Tx.date t)
                                        (utcDate (day i)))
                            (ofType ty ledger)))))
      by (intros i; now rewrite ofType_filter).
    apply (sum_partition
             (fun i t => JS.startsWith (Tx.date t) (utcDate (day i)))).
    intros t Ht. apply Hin in Ht.
    destruct (Hdate t Ht) as [Ed [Hu Hrange]].
    apply (filter_unique _
             (Z.to_nat (JSDate.Day (u t) - (JSDate.Day now - 6)))).
    + apply seq_NoDup.
    + apply in_seq. lia.
    + intros i Hi. apply in_seq in Hi. rewrite Ed.
      rewrite startsWith_bucket;
        [| exact Hu | apply bucket_fourDigit; [assumption.. | lia]].
      unfold day. lia.
  - apply sumAmounts_whole; [|exact Hty].
    intros t Ht. apply Hwhole. now apply Hin.
Qed.

End TrendTotals.

(** X27.  The daily trend adds up to the totals.  On a device with a
    fixed offset from UTC, for a ledger whose records are all dated, as
    the application dates them, within the seven UTC days that end with
    the day of the clock reading, and whose amounts are non-negative whole
    numbers with a total below 2^53: the income and the expense of each
    of the seven points are exact whole numbers, the incomes of the
    points add up to the income of the dashboard totals, and the expenses
    to its expenses. *)
Theorem dailyChartData_adds_up_to_the_totals (offset now : Z)
    (ledger : list Transaction) (n u : Transaction -> Z) :
  JSDate.fourDigitYear (now - 6 * JSDate.msPerDay) ->
  JSDate.fourDigitYear now ->
  (forall t, In t ledger ->
     Tx.date t = JSDate.toISOString (u t) /\ JSDate.fourDigitYear (u t)
     /\ JSDate.Day now - 6 <= JSDate.Day (u t) <= JSDate.Day now) ->
  (forall t, In t ledger -> 0 <= n t /\ Tx.amount t = JS.ofInteger (n t)) ->
  fold_right Z.add 0 (map n ledger) < 2 ^ 53 ->
  exists (points : list App.Point.t) (income expense : list Z),
    App.dailyChartData (JSDate.fixedZone offset) now ledger = Some points
    /\ map App.Point.income points = map JS.ofInteger income
    /\ map App.Point.expense points = map JS.ofInteger expense
    /\ App.income (App.totals ledger)
       = JS.ofInteger (fold_right Z.add 0 income)
    /\ App.expenses (App.totals ledger)
       = JS.ofInteger (fold_right Z.add 0 expense).
Proof.
  intros Hlo Hhi Hdate Hwhole Hsum.
  destruct (bucket_sums INCOME now ledger n u Hlo Hhi Hdate Hwhole Hsum)
    as [Ipoint [Isum Itotal]].
  destruct (bucket_sums EXPENSE now ledger n u Hlo Hhi Hdate Hwhole Hsum)
    as [Epoint [Esum Etotal]].
  pose (day := fun i : nat => JSDate.Day now - 6 + Z.of_nat i).
  pose (icount := fun i : nat =>
         fold_right Z.add 0
           (map n (App.ofType INCOME
                     (filter (fun t => JS.startsWith (Tx.date t)
                                         (App.utcDate (day i)))
                        ledger)))).
  pose (ecount := fun i : nat =>
         fold_right Z.add 0
           (map n (App.ofType EXPENSE
                     (filter (fun t => JS.startsWith (Tx.date t)
                                         (App.utcDate (day i)))
                        ledger)))).
  exists (map (fun i => App.dayPoint ledger (App.utcDate (day i))) (seq 0 7)),
    (map icount (seq 0 7)), (map ecount (seq 0 7)).
  split; [|split; [|split; [|split]]].
  - unfold App.dailyChartData.
    now rewrite (last7Days_fixedZone offset now Hlo Hhi).
  - rewrite !map_map. apply map_ext_in. intros i Hi. apply in_seq in Hi.
    apply Ipoint. lia.
  - rewrite !map_map. apply map_ext_in. intros i Hi. apply in_seq in Hi.
    apply Epoint. lia.
  - rewrite totals_split. cbn [App.income]. rewrite Itotal. f_equal.
    symmetry. exact Isum.
  - rewrite totals_split, notIncome_is_expense. cbn [App.expenses].
    rewrite Etotal. f_equal. symmetry. exact Esum.
Qed.

Lemma dailyChartData_adds_up_to_the_totals_witness :
  let tea := Tx.mk "1" "2024-01-02T04:30:00.000Z" 500%float "Tea Sales"
               INCOME CASH None None in
  let milk := Tx.mk "2" "2024-01-01T05:00:00.000Z" 120%float "Milk"
                EXPENSE CASH None None in
  let snacks := Tx.mk "3" "2023-12-30T05:30:00.000Z" 80%float "Snacks"
                  INCOME GPAY None None in
  let ledger := [tea; milk; snacks] in
  exists points,
    App.dailyChartData (JSDate.fixedZone 19800000) 1704169800000 ledger
    = Some points
    /\ map App.Point.income points
       = [0; 0; 0; 80; 0; 0; 500]%float
    /\ App.income (App.totals ledger) = 580%float.
Proof.
  intros tea milk snacks ledger.
  set (n := fun t : Transaction =>
              if String.eqb (Tx.id t) "1" then 500
              else if String.eqb (Tx.id t) "2" then 120 else 80).
  set (u := fun t : Transaction =>
              if String.eqb (Tx.id t) "1" then 1704169800000
              else if String.eqb (Tx.id t) "2" then 1704085200000
              else 1703914200000).
  assert (H4 : forall z, (-62167219200000 <=? z) = true ->
                         (z <? 253402300800000) = true ->
                         JSDate.fourDigitYear z).
  { intros z A B. unfold JSDate.fourDigitYear. lia. }
  destruct (dailyChartData_adds_up_to_the_totals 19800000 1704169800000
              ledger n u) as [points [income [expense [E _]]]].
  - now apply H4.
  - now apply H4.
  - intros t [<-|[<-|[<-|[]]]];
      (split; [vm_compute; reflexivity|split; [now apply H4|]]);
      vm_compute; split; discriminate.
  - intros t [<-|[<-|[<-|[]]]]; split;
      solve [vm_compute; congruence | vm_compute; reflexivity].
  - vm_compute. reflexivity.
  - exists points. split; [exact E|].
    vm_compute in E. injection E as <-.
    split; vm_compute; reflexivity.
Defined.
